(** * Sales lead generator: scoring engine, qualification pipeline,
      campaign orchestrator and metrics

    A shallow embedding of
      - [src/examples/sales_lead_generator/src/lead_qualifier.py]
      - [src/examples/sales_lead_generator/src/lead_generator.py]
      - [src/examples/sales_lead_generator/src/analytics_tracker.py]

    Conventions of the embedding.
      - A Python [float] is read as the rational number its decimal literal
        denotes ([Q], compared with [==]); a Python [int] is a [Z].
      - A Python call that may raise returns [result A]: [inl e] is the
        exception [e] propagating, [inr a] the normal return of [a].
      - Methods that mutate [self] are state transformers that keep the
        mutated state also when an exception propagates. *)

From Stdlib Require Import ZArith QArith Qminmax Lqa Lia Bool.
From Stdlib Require Import List String Ascii Sorted Permutation Floats.
From Stdlib Require Import DecimalString.
From stdpp Require Import base option list strings gmap.
Import ListNotations.

Local Set Warnings "-inexact-float".

Local Open Scope Z_scope.
Local Open Scope Q_scope.

(** ** Python exceptions and results *)

(** An instance of (a subclass of) [Exception]: its class name and message. *)
Record exn : Type := Exn { exn_class : string; exn_msg : string }.

Definition result (A : Type) : Type := (exn + A)%type.

Definition raise {A : Type} (e : exn) : result A := inl e.
Definition ret {A : Type} (a : A) : result A := inr a.

Definition rbind {A B : Type} (c : result A) (k : A -> result B) : result B :=
  match c with
  | inl e => inl e
  | inr a => k a
  end.

Definition rmap {A B : Type} (f : A -> B) (c : result A) : result B :=
  rbind c (fun a => ret (f a)).

Declare Scope result_scope.
Delimit Scope result_scope with result.
Notation "'let*' x ':=' c 'in' k" := (rbind c (fun x => k))
  (at level 10, x name, c at level 100, k at level 200) : result_scope.

(** [try: body except Exception as e: handler e] *)
Definition try_except {A : Type} (body : result A) (handler : exn -> result A)
  : result A :=
  match body with
  | inl e => handler e
  | inr a => inr a
  end.

Definition TypeError (msg : string) : exn := Exn "TypeError" msg.
Definition RuntimeError (msg : string) : exn := Exn "RuntimeError" msg.
Definition AttributeError (msg : string) : exn := Exn "AttributeError" msg.
Definition KeyError (k : string) : exn := Exn "KeyError" k.
Definition ZeroDivisionError : exn :=
  Exn "ZeroDivisionError" "division by zero".

(** [a / b] on two [int]s: true division, [ZeroDivisionError] on [b = 0]. *)
Definition truediv (a b : Z) : result Q :=
  if (b =? 0)%Z then raise ZeroDivisionError
  else ret (inject_Z a / inject_Z b).

(** An argument of a call: passed, or left out. *)
Inductive arg (A : Type) : Type :=
| Missing : arg A
| Given : A -> arg A.
Arguments Missing {A}.
Arguments Given {A} _.

(** A [datetime], in seconds. *)
Definition datetime : Type := Z.

(** ** Strings *)

Definition lower_ascii (c : ascii) : ascii :=
  let n := nat_of_ascii c in
  if ((65 <=? n) && (n <=? 90))%nat then ascii_of_nat (n + 32) else c.

(** [s.lower()], on ASCII text. *)
Fixpoint lower (s : string) : string :=
  match s with
  | EmptyString => EmptyString
  | String c s' => String (lower_ascii c) (lower s')
  end.

(** [sub in s] *)
Fixpoint contains (sub s : string) : bool :=
  String.prefix sub s ||
  match s with
  | EmptyString => false
  | String _ s' => contains sub s'
  end.

(** [any(k in s for k in keywords)] *)
Definition any_in (keywords : list string) (s : string) : bool :=
  existsb (fun k => contains k s) keywords.

(** ** Configuration (lead_generator.py, [LeadGenerationConfig]) *)

Record LeadGenerationConfig : Type := {
  target_industry : string;
  company_size_range : Z * Z;
  geographic_focus : list string;
  budget_minimum : Z;
  daily_lead_target : Z;
  max_concurrent_tasks : Z;
  email_sequence_enabled : bool;
  crm_integration : bool;
  analytics_enabled : bool
}.

(** [LeadGenerationConfig()] with every default, after [__post_init__]. *)
Definition default_config : LeadGenerationConfig :=
  {| target_industry := "technology";
     company_size_range := (50, 1000)%Z;
     geographic_focus := ["United States"%string];
     budget_minimum := 50000;
     daily_lead_target := 25;
     max_concurrent_tasks := 5;
     email_sequence_enabled := true;
     crm_integration := false;
     analytics_enabled := true |}.

(** ** Prospects (prospect_researcher.py) *)

(** A contact dict; [None] is an absent key. *)
Record Contact : Type := { title : option string }.

(** The prospect dict, with the value types the qualifier relies on;
    [None] is an absent key (the [.get] default then applies). *)
Record ProspectData : Type := {
  industry : option string;
  company_size : option Z;
  location : option string;
  revenue_range : option string;
  key_contacts : option (list Contact);
  recent_news : option (list string);
  technologies : option (list string);
  social_profiles : option (list (string * string));
  website : option string;
  description : option string
}.

(** What [qualify_leads] is handed: an object with a [to_dict] method and
    possibly a [company_size] attribute, or the dict itself. *)
Inductive Prospect : Type :=
| ProspectObject (company_size_attr : option Z) (to_dict : ProspectData)
| ProspectDict (d : ProspectData).

(** [prospect.to_dict() if hasattr(prospect, 'to_dict') else prospect] *)
Definition prospect_dict (prospect : Prospect) : ProspectData :=
  match prospect with
  | ProspectObject _ d => d
  | ProspectDict d => d
  end.

(** ** lead_qualifier.py *)

Module LeadQualifier.

Inductive QualificationLevel : Type := HOT | WARM | COOL | COLD.

#[export] Instance QualificationLevel_eq_dec : EqDecision QualificationLevel.
Proof. solve_decision. Defined.

(** Position of a level on the scale Cold < Cool < Warm < Hot. *)
Definition level_rank (l : QualificationLevel) : nat :=
  match l with
  | COLD => 0
  | COOL => 1
  | WARM => 2
  | HOT => 3
  end.

(** [QualificationCriteria], as [__init__] fills the fields in use. *)
Record QualificationCriteria : Type := {
  company_size_minimum : Z;
  company_size_maximum : Z
}.

Definition criteria (config : LeadGenerationConfig) : QualificationCriteria :=
  {| company_size_minimum := fst (company_size_range config);
     company_size_maximum := snd (company_size_range config) |}.

(** [self.scoring_weights], in insertion order. *)
Definition scoring_weights : list (string * Q) :=
  [ ("company_fit"%string, 0.20);
    ("budget_alignment"%string, 0.25);
    ("authority_level"%string, 0.15);
    ("need_intensity"%string, 0.20);
    ("timing_urgency"%string, 0.10);
    ("engagement_potential"%string, 0.10) ].

(** [self.qualification_thresholds] *)
Record Thresholds : Type := { hot : Q; warm : Q; cool : Q; cold : Q }.

Definition qualification_thresholds : Thresholds :=
  {| hot := 0.85; warm := 0.70; cool := 0.55; cold := 0.0 |}.

(** [component_scores]: a dict that [_score_lead] fills in this key order. *)
Record ComponentScores : Type := {
  company_fit : Q;
  budget_alignment : Q;
  authority_level : Q;
  need_intensity : Q;
  timing_urgency : Q;
  engagement_potential : Q
}.

Definition items (cs : ComponentScores) : list (string * Q) :=
  [ ("company_fit"%string, company_fit cs);
    ("budget_alignment"%string, budget_alignment cs);
    ("authority_level"%string, authority_level cs);
    ("need_intensity"%string, need_intensity cs);
    ("timing_urgency"%string, timing_urgency cs);
    ("engagement_potential"%string, engagement_potential cs) ].

(** [d[k]] on a dict given by its items. *)
Fixpoint getitem (d : list (string * Q)) (k : string) : result Q :=
  match d with
  | [] => raise (KeyError k)
  | (k', v) :: d' => if String.eqb k' k then ret v else getitem d' k
  end.

(** [min(score, 1.0)] *)
Definition cap (score : Q) : Q := Qmin score 1.0.

Definition Qltb (a b : Q) : bool := negb (Qle_bool b a).

Section Scorers.
Variable config : LeadGenerationConfig.

Definition _score_company_fit (prospect_data : ProspectData) : Q :=
  let score := 0.0 in
  let score :=
    if bool_decide (industry prospect_data = Some (target_industry config))
    then score + 1.0 else score in
  let size := default 0%Z (company_size prospect_data) in
  let score :=
    if ((company_size_minimum (criteria config) <=? size)
        && (size <=? company_size_maximum (criteria config)))%Z
    then score + 1.0
    else if (size <? company_size_minimum (criteria config))%Z
    then score + 0.3
    else score in
  let loc := default ""%string (location prospect_data) in
  let score :=
    if existsb (fun region => contains (lower region) (lower loc))
         (geographic_focus config)
    then score + 1.0 else score in
  score / 3.

Definition _score_budget_alignment (prospect_data : ProspectData) : Q :=
  let revenue := default ""%string (revenue_range prospect_data) in
  if contains "$100M+" revenue || contains "$50M-$100M" revenue then 1.0
  else if contains "$25M-$50M" revenue || contains "$10M-$25M" revenue then 0.8
  else if contains "$5M-$10M" revenue then 0.6
  else if contains "$1M-$5M" revenue then 0.3
  else 0.5.

Definition authority_of_title (contact : Contact) : Q :=
  let t := lower (default ""%string (title contact)) in
  if any_in ["ceo"; "chief"; "president"; "owner"]%string t then 1.0
  else if any_in ["vp"; "vice president"; "director"]%string t then 0.8
  else if any_in ["manager"; "senior"]%string t then 0.6
  else if any_in ["specialist"; "analyst"; "associate"]%string t then 0.3
  else 0.4.

(** [statistics.mean(xs)] on a non-empty list. *)
Definition mean (xs : list Q) : Q :=
  fold_left Qplus xs 0 / inject_Z (Z.of_nat (length xs)).

Definition _score_authority_level (prospect_data : ProspectData) : Q :=
  match default [] (key_contacts prospect_data) with
  | [] => 0.2
  | contacts => mean (map authority_of_title contacts)
  end.

Definition _score_need_intensity (prospect_data : ProspectData) : Q :=
  let score := 0.5 in
  let news := default [] (recent_news prospect_data) in
  let score :=
    match news with
    | [] => score
    | _ =>
        if any_in ["expansion"; "growth"; "scaling"; "challenge"; "problem";
                   "solution"]%string
             (lower (String.concat " " news))
        then score + 0.3 else score
    end in
  let score :=
    if (200 <? default 0 (company_size prospect_data))%Z
    then score + 0.2 else score in
  let score :=
    if (5 <? length (default [] (technologies prospect_data)))%nat
    then score + 0.1 else score in
  cap score.

Definition _score_timing_urgency (prospect_data : ProspectData) : Q :=
  let score := 0.5 in
  let size := default 0%Z (company_size prospect_data) in
  let score :=
    if (500 <? size)%Z then score + 0.2
    else if (size <? 100)%Z then score + 0.1
    else score in
  let news := default [] (recent_news prospect_data) in
  let score :=
    if any_in ["urgent"; "immediate"; "deadline"; "crisis"; "problem"]%string
         (lower (String.concat " " news))
    then score + 0.2 else score in
  cap score.

Definition _score_engagement_potential (prospect_data : ProspectData) : Q :=
  let score := 0.5 in
  let score :=
    match default [] (social_profiles prospect_data) with
    | [] => score
    | profiles =>
        if (2 <? length profiles)%nat then score + 0.2 + 0.1 else score + 0.2
    end in
  let site := default ""%string (website prospect_data) in
  let score :=
    if negb (String.eqb site "") && contains "https://" site
    then score + 0.1 else score in
  let score :=
    if (100 <? String.length (default ""%string (description prospect_data)))%nat
    then score + 0.1 else score in
  cap score.

(** Lines 194-213 of [_score_lead]. *)
Definition component_scores_of (prospect_data : ProspectData)
  : ComponentScores :=
  {| company_fit := _score_company_fit prospect_data;
     budget_alignment := _score_budget_alignment prospect_data;
     authority_level := _score_authority_level prospect_data;
     need_intensity := _score_need_intensity prospect_data;
     timing_urgency := _score_timing_urgency prospect_data;
     engagement_potential := _score_engagement_potential prospect_data |}.

End Scorers.

Definition _determine_qualification_level (overall_score : Q)
  : QualificationLevel :=
  if Qle_bool (hot qualification_thresholds) overall_score then HOT
  else if Qle_bool (warm qualification_thresholds) overall_score then WARM
  else if Qle_bool (cool qualification_thresholds) overall_score then COOL
  else COLD.

(** [sum(score * self.scoring_weights[criterion]
         for criterion, score in component_scores.items())],
    the running total [acc] starting at 0. *)
Fixpoint weighted_sum (acc : Q) (its : list (string * Q)) : result Q :=
  match its with
  | [] => ret acc
  | (criterion, score) :: its' =>
      (let* w := getitem scoring_weights criterion in
       weighted_sum (acc + score * w) its')%result
  end.

(** Lines 216-219 of [_score_lead]. *)
Definition overall_score_of (cs : ComponentScores) : result Q :=
  weighted_sum 0 (items cs).

(** The total of the weights, [sum(self.scoring_weights.values())]. *)
Definition weights_total : Q :=
  fold_left Qplus (map snd scoring_weights) 0.

(** The binary64 values of the weight literals, summed left to right from 0
    as [sum] does. *)
Definition weights_total_binary64 : float :=
  fold_left PrimFloat.add
    [0.20; 0.25; 0.15; 0.20; 0.10; 0.10]%float 0%float.

Definition unit_interval (q : Q) : Prop := 0 <= q /\ q <= 1.

Definition valid_scores (cs : ComponentScores) : Prop :=
  Forall (fun kv => unit_interval (snd kv)) (items cs).

(** Dataclass [LeadScore]. The text fields ([scoring_breakdown],
    [recommendations], [next_steps], [disqualifying_factors]) are computed
    from the component scores by code that cannot raise and feed nothing
    else; they are left out. *)
Record LeadScore : Type := {
  overall_score : Q;
  qualification_level : QualificationLevel;
  component_scores : ComponentScores;
  scored_at : datetime
}.

(** The [__init__] generated for [LeadScore]: [scored_at] is declared
    without a default and is therefore a required argument;
    [__post_init__] replaces a [None] by the current time. *)
Definition LeadScore_init (now : datetime) (overall : Q)
    (level : QualificationLevel) (cs : ComponentScores)
    (scored : arg (option datetime)) : result LeadScore :=
  match scored with
  | Missing =>
      raise (TypeError
        "__init__() missing 1 required positional argument: 'scored_at'")
  | Given d =>
      ret {| overall_score := overall;
             qualification_level := level;
             component_scores := cs;
             scored_at := default now d |}
  end.

(** [_score_lead], with what its [LeadScore(...)] call passes for
    [scored_at] as a parameter. *)
Definition score_lead_passing (scored : arg (option datetime))
    (config : LeadGenerationConfig) (now : datetime) (prospect : Prospect)
  : result LeadScore :=
  let prospect_data := prospect_dict prospect in
  let cs := component_scores_of config prospect_data in
  (let* overall := overall_score_of cs in
   LeadScore_init now overall (_determine_qualification_level overall) cs
     scored)%result.

(** The call in the source passes seven keyword arguments, none of them
    [scored_at]. *)
Definition _score_lead : LeadGenerationConfig -> datetime -> Prospect ->
                         result LeadScore :=
  score_lead_passing Missing.

(** Dataclass [QualifiedLead]. *)
Record QualifiedLead : Type := {
  prospect_data : ProspectData;
  lead_score : LeadScore;
  qualification_date : datetime;
  priority_rank : Z;
  estimated_value : option Q;
  conversion_probability : option Q;
  recommended_approach : option string
}.

Definition set_priority_rank (lead : QualifiedLead) (i : Z) : QualifiedLead :=
  {| prospect_data := prospect_data lead;
     lead_score := lead_score lead;
     qualification_date := qualification_date lead;
     priority_rank := i;
     estimated_value := estimated_value lead;
     conversion_probability := conversion_probability lead;
     recommended_approach := recommended_approach lead |}.

(** The [__init__] generated for [QualifiedLead]: [qualification_date] is
    declared without a default and is therefore a required argument. *)
Definition QualifiedLead_init (now : datetime) (data : ProspectData)
    (score : LeadScore) (date : arg (option datetime)) (rank : Z)
    (value probability : option Q) (approach : option string)
  : result QualifiedLead :=
  match date with
  | Missing =>
      raise (TypeError
        "__init__() missing 1 required positional argument: 'qualification_date'")
  | Given d =>
      ret {| prospect_data := data;
             lead_score := score;
             qualification_date := default now d;
             priority_rank := rank;
             estimated_value := value;
             conversion_probability := probability;
             recommended_approach := approach |}
  end.

Definition _estimate_lead_value (prospect : Prospect) (score : LeadScore)
  : option Q :=
  let size :=
    match prospect with
    | ProspectObject (Some n) _ => n
    | _ => 100%Z
    end in
  let base_value := (size * 100)%Z in
  let value_multiplier := 0.5 + overall_score score * 0.5 in
  Some (inject_Z base_value * value_multiplier).

Definition _estimate_conversion_probability (score : LeadScore) : option Q :=
  Some (overall_score score * 0.8 + 0.1).

Definition _generate_recommended_approach (score : LeadScore)
  : option string :=
  if Qle_bool 0.85 (overall_score score)
  then Some "Direct executive outreach with value proposition"%string
  else if Qle_bool 0.7 (overall_score score)
  then Some "Multi-touch campaign with educational content"%string
  else if Qle_bool 0.55 (overall_score score)
  then Some "Nurture campaign with case studies and webinars"%string
  else Some "Monitor for future opportunities"%string.

(** Lines 165-172 of [qualify_leads], with what the [QualifiedLead(...)]
    call passes for [qualification_date] as a parameter. *)
Definition new_lead_passing (date : arg (option datetime)) (now : datetime)
    (prospect : Prospect) (score : LeadScore) : result QualifiedLead :=
  QualifiedLead_init now (prospect_dict prospect) score date 0
    (_estimate_lead_value prospect score)
    (_estimate_conversion_probability score)
    (_generate_recommended_approach score).

(** The call in the source passes six keyword arguments, none of them
    [qualification_date]. *)
Definition new_qualified_lead : datetime -> Prospect -> LeadScore ->
                                result QualifiedLead :=
  new_lead_passing Missing.

(** [l.sort(key=key, reverse=True)]: the library sort is stable and keeps
    elements of equal key in their original order also under [reverse];
    it is rendered as the insertion sort with that behaviour. *)
Section Sort.
Context {A : Type}.
Variable key : A -> Q.

(** [x] goes in front of the first element whose key is not larger. *)
Fixpoint insert_desc (x : A) (l : list A) : list A :=
  match l with
  | [] => [x]
  | y :: l' =>
      if Qle_bool (key y) (key x) then x :: y :: l'
      else y :: insert_desc x l'
  end.

Definition sort_desc (l : list A) : list A := foldr insert_desc [] l.

End Sort.

Definition score_key (lead : QualifiedLead) : Q :=
  overall_score (lead_score lead).

(** [for i, lead in enumerate(leads, i): lead.priority_rank = i] on a list
    of distinct lead objects. *)
Fixpoint assign_ranks_from (i : Z) (leads : list QualifiedLead)
  : list QualifiedLead :=
  match leads with
  | [] => []
  | lead :: rest => set_priority_rank lead i :: assign_ranks_from (i + 1) rest
  end.

Definition assign_ranks (leads : list QualifiedLead) : list QualifiedLead :=
  assign_ranks_from 1 leads.

(** A lead with its rank back at the 0 it is created with. *)
Definition unrank (lead : QualifiedLead) : QualifiedLead :=
  set_priority_rank lead 0.

(** The lead's score is [v]. *)
Definition has_score (v : Q) (lead : QualifiedLead) : bool :=
  Qeq_bool (score_key lead) v.

(** [b] may follow [a] in a list sorted by descending score. *)
Definition score_ge (a b : QualifiedLead) : Prop :=
  score_key b <= score_key a.

(** [qualification_level in [QualificationLevel.HOT, QualificationLevel.WARM]] *)
Definition warm_or_better (level : QualificationLevel) : bool :=
  bool_decide (level = HOT) || bool_decide (level = WARM).

(** [qualify_leads], over the two calls of its loop body that can raise:
    [self._score_lead(prospect)] and the [QualifiedLead(...)] call. *)
Section Pipeline.
Context {P : Type}.
Variable score_lead : P -> result LeadScore.
Variable new_lead : P -> LeadScore -> result QualifiedLead.

(** The body of the [try]: the leads it appends to [qualified_leads]. *)
Definition qualify_one (prospect : P) : result (list QualifiedLead) :=
  (let* score := score_lead prospect in
   let level := _determine_qualification_level (overall_score score) in
   if warm_or_better level
   then (let* qualified_lead := new_lead prospect score in
         ret [qualified_lead])
   else ret [])%result.

(** The [for] loop; [except Exception: ... continue] appends nothing. *)
Fixpoint qualify_loop (prospects : list P)
    (qualified_leads : list QualifiedLead) : result (list QualifiedLead) :=
  match prospects with
  | [] => ret qualified_leads
  | prospect :: rest =>
      (let* appended :=
         try_except (qualify_one prospect) (fun _ => ret []) in
       qualify_loop rest (qualified_leads ++ appended))%result
  end.

Definition qualify_leads_with (prospects : list P)
  : result (list QualifiedLead) :=
  (let* qualified_leads := qualify_loop prospects [] in
   ret (assign_ranks (sort_desc score_key qualified_leads)))%result.

(** What one candidate contributes: its lead when it scores Warm or Hot
    and nothing raises, nothing otherwise. *)
Definition contribution (prospect : P) : list QualifiedLead :=
  match qualify_one prospect with
  | inr leads => leads
  | inl _ => []
  end.

End Pipeline.

(** [LeadQualifier.qualify_leads] with the methods of the class. *)
Definition qualify_leads (config : LeadGenerationConfig) (now : datetime)
    (prospects : list Prospect) : result (list QualifiedLead) :=
  qualify_leads_with (_score_lead config now) (new_qualified_lead now)
    prospects.

(** *** Re-scoring

    [re_score_leads] mutates the lead objects it is handed.  The leads live
    in a store; the argument and the result are lists of references. *)

Abbreviation store := (list QualifiedLead).

Definition set_score (lead : QualifiedLead) (s : Q) : QualifiedLead :=
  {| prospect_data := prospect_data lead;
     lead_score :=
       {| overall_score := s;
          qualification_level := _determine_qualification_level s;
          component_scores := component_scores (lead_score lead);
          scored_at := scored_at (lead_score lead) |};
     qualification_date := qualification_date lead;
     priority_rank := priority_rank lead;
     estimated_value := estimated_value lead;
     conversion_probability := conversion_probability lead;
     recommended_approach := recommended_approach lead |}.

(** [(0.05 - 0.1) * (1 if score < 0.8 else -1)] *)
Definition score_adjustment (score : Q) : Q :=
  (0.05 - 0.1) * (if Qltb score 0.8 then 1 else -1).

(** [min(1.0, max(0.0, score + score_adjustment))] *)
Definition adjusted_score (score : Q) : Q :=
  Qmin 1.0 (Qmax 0.0 (score + score_adjustment score)).

(** The first loop: each lead met is adjusted in place and appended.
    Nothing in its [try] can raise; a reference that names no object of
    the store, which a Python list cannot hold, is passed over. *)
Fixpoint rescore_loop (h : store) (leads : list nat) (re_scored : list nat)
  : store * list nat :=
  match leads with
  | [] => (h, re_scored)
  | r :: rest =>
      match h !! r with
      | Some lead =>
          let new_overall_score := adjusted_score (score_key lead) in
          rescore_loop (<[r := set_score lead new_overall_score]> h) rest
            (re_scored ++ [r])
      | None => rescore_loop h rest re_scored
      end
  end.

Definition key_in (h : store) (r : nat) : Q :=
  match h !! r with
  | Some lead => score_key lead
  | None => 0
  end.

(** The second loop: [lead.priority_rank = i], counting from [i]. *)
Fixpoint rank_loop (h : store) (leads : list nat) (i : Z) : store :=
  match leads with
  | [] => h
  | r :: rest =>
      match h !! r with
      | Some lead => rank_loop (<[r := set_priority_rank lead i]> h) rest (i + 1)
      | None => rank_loop h rest (i + 1)
      end
  end.

Definition re_score_leads (h : store) (qualified_leads : list nat)
  : store * list nat :=
  let '(h1, re_scored) := rescore_loop h qualified_leads [] in
  let sorted := sort_desc (key_in h1) re_scored in
  (rank_loop h1 sorted 1, sorted).

(** *** Sample data *)

Definition sample_now : datetime := 1700000000%Z.

(** All six component scores at 0.9. *)
Definition all_point_nine : ComponentScores :=
  {| company_fit := 0.9; budget_alignment := 0.9; authority_level := 0.9;
     need_intensity := 0.9; timing_urgency := 0.9;
     engagement_potential := 0.9 |}.

Definition techcorp : Prospect :=
  ProspectObject (Some 250%Z)
    {| industry := Some "technology"%string;
       company_size := Some 250%Z;
       location := Some "San Francisco, United States"%string;
       revenue_range := Some "$50M-$100M"%string;
       key_contacts := Some [ {| title := Some "CEO"%string |} ];
       recent_news := Some ["TechCorp announces growth plans"%string];
       technologies := Some ["AWS"; "React"; "Node.js"; "PostgreSQL"]%string;
       social_profiles := Some [];
       website := Some "https://techcorp.com"%string;
       description :=
         Some "Leading provider of cloud-based business solutions"%string |}.

Definition dataflow : Prospect :=
  ProspectObject (Some 180%Z)
    {| industry := Some "technology"%string;
       company_size := Some 180%Z;
       location := Some "Austin, United States"%string;
       revenue_range := Some "$25M-$50M"%string;
       key_contacts := Some [ {| title := Some "VP of Engineering"%string |} ];
       recent_news := Some [];
       technologies := Some ["Python"; "TensorFlow"]%string;
       social_profiles := Some [];
       website := Some "https://dataflow.com"%string;
       description := Some "Data analytics platform"%string |}.

(** The prospect of [test_qualify_leads]. *)
Definition test_company : Prospect :=
  ProspectObject (Some 150%Z)
    {| industry := Some "technology"%string;
       company_size := Some 150%Z;
       location := None;
       revenue_range := Some "$10M-$25M"%string;
       key_contacts := Some [ {| title := Some "CEO"%string |} ];
       recent_news := None;
       technologies := None;
       social_profiles := None;
       website := None;
       description := None |}.

(** A qualifier whose two constructor calls do pass the date ([None], so
    [__post_init__] fills it in), run on a list that may hold [None] in
    place of a prospect; scoring [None] raises. *)
Definition sample_score (p : option Prospect) : result LeadScore :=
  match p with
  | None => raise (AttributeError "'NoneType' object has no attribute 'get'")
  | Some prospect =>
      score_lead_passing (Given None) default_config sample_now prospect
  end.

Definition sample_lead (p : option Prospect) (s : LeadScore)
  : result QualifiedLead :=
  match p with
  | None => raise (AttributeError "'NoneType' object has no attribute 'get'")
  | Some prospect => new_lead_passing (Given None) sample_now prospect s
  end.

Definition sample_prospects : list (option Prospect) :=
  [Some test_company; Some dataflow; None; Some techcorp].

(** A Warm lead as a caller of [re_score_leads] holds it. *)
Definition warm_lead : QualifiedLead :=
  {| prospect_data := prospect_dict dataflow;
     lead_score :=
       {| overall_score := 0.72;
          qualification_level := WARM;
          component_scores :=
            {| company_fit := 1.0; budget_alignment := 0.8;
               authority_level := 0.8; need_intensity := 0.5;
               timing_urgency := 0.5; engagement_potential := 0.5 |};
          scored_at := sample_now |};
     qualification_date := sample_now;
     priority_rank := 2;
     estimated_value := Some 15480.0;
     conversion_probability := Some 0.676;
     recommended_approach :=
       Some "Multi-touch campaign with educational content"%string |}.

(** A Hot lead. *)
Definition hot_lead : QualifiedLead :=
  {| prospect_data := prospect_dict techcorp;
     lead_score :=
       {| overall_score := 0.91;
          qualification_level := HOT;
          component_scores :=
            {| company_fit := 1.0; budget_alignment := 1.0;
               authority_level := 1.0; need_intensity := 1.0;
               timing_urgency := 0.5; engagement_potential := 0.6 |};
          scored_at := sample_now |};
     qualification_date := sample_now;
     priority_rank := 1;
     estimated_value := Some 23875.0;
     conversion_probability := Some 0.828;
     recommended_approach :=
       Some "Direct executive outreach with value proposition"%string |}.

(** *** Facts about the scoring engine *)

Lemma Qle_bool_cases (a b : Q) :
  (Qle_bool a b = true /\ a <= b) \/ (Qle_bool a b = false /\ b < a).
Proof.
  destruct (Qle_bool a b) eqn:E.
  - left. split; [reflexivity | now apply Qle_bool_iff].
  - right. split; [reflexivity |].
    apply Qnot_le_lt. intros H. apply Qle_bool_iff in H. congruence.
Qed.

Ltac qcases :=
  repeat match goal with
  | |- context [Qle_bool ?a ?b] =>
      let E := fresh "E" in
      destruct (Qle_bool_cases a b) as [[E ?] | [E ?]]; rewrite E; clear E
  end.

Lemma level_hot (s : Q) :
  _determine_qualification_level s = HOT <-> 0.85 <= s.
Proof.
  unfold _determine_qualification_level; cbn [hot warm cool qualification_thresholds].
  qcases; split; intros; try discriminate; try reflexivity; try lra.
Qed.

Lemma level_warm (s : Q) :
  _determine_qualification_level s = WARM <-> 0.70 <= s /\ s < 0.85.
Proof.
  unfold _determine_qualification_level; cbn [hot warm cool qualification_thresholds].
  qcases; split; intros; try discriminate; try reflexivity; try lra.
Qed.

Lemma level_cool (s : Q) :
  _determine_qualification_level s = COOL <-> 0.55 <= s /\ s < 0.70.
Proof.
  unfold _determine_qualification_level; cbn [hot warm cool qualification_thresholds].
  qcases; split; intros; try discriminate; try reflexivity; try lra.
Qed.

Lemma level_cold (s : Q) :
  _determine_qualification_level s = COLD <-> s < 0.55.
Proof.
  unfold _determine_qualification_level; cbn [hot warm cool qualification_thresholds].
  qcases; split; intros; try discriminate; try reflexivity; try lra.
Qed.

Lemma level_monotone (s1 s2 : Q) :
  s1 <= s2 ->
  (level_rank (_determine_qualification_level s1)
   <= level_rank (_determine_qualification_level s2))%nat.
Proof.
  intros Hle.
  unfold _determine_qualification_level; cbn [hot warm cool qualification_thresholds].
  qcases; cbn [level_rank]; try lia; exfalso; lra.
Qed.

#[export] Instance level_proper :
  Proper (Qeq ==> eq) _determine_qualification_level.
Proof.
  intros a b Hab.
  unfold _determine_qualification_level; cbn [hot warm cool qualification_thresholds].
  qcases; try reflexivity; exfalso; lra.
Qed.

(** C2: the level is read off the score by the thresholds 0.85 / 0.70 /
    0.55 tried from the top, it never decreases when the score grows, and
    the scores 0.30, 0.60, 0.75 and 0.90 are Cold, Cool, Warm and Hot. *)
Theorem qualification_level_thresholds_monotone :
  (forall s, _determine_qualification_level s = HOT <-> 0.85 <= s) /\
  (forall s, _determine_qualification_level s = WARM <-> 0.70 <= s /\ s < 0.85) /\
  (forall s, _determine_qualification_level s = COOL <-> 0.55 <= s /\ s < 0.70) /\
  (forall s, _determine_qualification_level s = COLD <-> s < 0.55) /\
  (forall s1 s2, s1 <= s2 ->
     (level_rank (_determine_qualification_level s1)
      <= level_rank (_determine_qualification_level s2))%nat) /\
  _determine_qualification_level 0.30 = COLD /\
  _determine_qualification_level 0.60 = COOL /\
  _determine_qualification_level 0.75 = WARM /\
  _determine_qualification_level 0.90 = HOT.
Proof.
  repeat split; try reflexivity;
    first [ apply level_hot | apply level_warm | apply level_cool
          | apply level_cold | apply level_monotone
          | apply <- level_warm | apply <- level_cool
          | apply level_warm | apply level_cool ]; auto.
Qed.

Lemma overall_score_value (cs : ComponentScores) :
  overall_score_of cs =
  inr (0 + company_fit cs * 0.20 + budget_alignment cs * 0.25
         + authority_level cs * 0.15 + need_intensity cs * 0.20
         + timing_urgency cs * 0.10 + engagement_potential cs * 0.10).
Proof. reflexivity. Qed.

Lemma valid_scores_fields (cs : ComponentScores) :
  valid_scores cs ->
  unit_interval (company_fit cs) /\ unit_interval (budget_alignment cs) /\
  unit_interval (authority_level cs) /\ unit_interval (need_intensity cs) /\
  unit_interval (timing_urgency cs) /\ unit_interval (engagement_potential cs).
Proof.
  unfold valid_scores, items. intros H.
  repeat match goal with
  | H : Forall _ (_ :: _) |- _ => inversion H; clear H; subst
  end.
  cbn [snd] in *. tauto.
Qed.

(** C3: with the six component scores in [0,1], the weighted sum that
    [_score_lead] computes is returned (no weight is missing) and lies in
    [0,1]; the six weights add up to exactly 1, also as binary64 numbers
    summed in dictionary order. *)
Theorem overall_score_in_unit_interval (cs : ComponentScores) :
  valid_scores cs ->
  (exists s, overall_score_of cs = inr s /\ unit_interval s) /\
  weights_total == 1 /\
  weights_total_binary64 = 1%float.
Proof.
  intros Hv. split; [| split].
  - apply valid_scores_fields in Hv.
    unfold unit_interval in *.
    destruct Hv as ((?&?)&(?&?)&(?&?)&(?&?)&(?&?)&(?&?)).
    eexists. split; [apply overall_score_value |]. split; lra.
  - reflexivity.
  - reflexivity.
Qed.

(** *** The component scorers stay in [0,1] *)

Ltac split_ifs :=
  repeat match goal with
  | |- context [if ?b then _ else _] => destruct b
  | |- context [match ?l with [] => _ | _ :: _ => _ end] => destruct l
  end.

Ltac closed_unit_interval :=
  split; apply Qle_bool_iff; vm_compute; reflexivity.

Lemma fold_left_Qplus_bounds (xs : list Q) (acc : Q) :
  Forall unit_interval xs ->
  acc <= fold_left Qplus xs acc /\
  fold_left Qplus xs acc <= acc + inject_Z (Z.of_nat (length xs)).
Proof.
  intros H. revert acc.
  induction H as [| x xs [Hx0 Hx1] _ IH]; intros acc; cbn [fold_left length].
  - change (inject_Z (Z.of_nat 0)) with 0. split; lra.
  - destruct (IH (acc + x)) as [IH1 IH2].
    rewrite Nat2Z.inj_succ, <- Z.add_1_r, inject_Z_plus.
    change (inject_Z 1) with 1. split; lra.
Qed.

Lemma mean_unit_interval (x : Q) (xs : list Q) :
  Forall unit_interval (x :: xs) -> unit_interval (mean (x :: xs)).
Proof.
  intros H. unfold mean.
  destruct (fold_left_Qplus_bounds (x :: xs) 0 H) as [H0 H1].
  assert (Hn : 0 < inject_Z (Z.of_nat (length (x :: xs)))).
  { change 0 with (inject_Z 0). rewrite <- Zlt_Qlt. cbn [length]. lia. }
  split.
  - apply Qle_shift_div_l; [exact Hn | lra].
  - apply Qle_shift_div_r; [exact Hn | lra].
Qed.

Lemma authority_of_title_unit (contact : Contact) :
  unit_interval (authority_of_title contact).
Proof. unfold authority_of_title. split_ifs; closed_unit_interval. Qed.

(** Whatever the prospect, each of the six component scores lies in
    [0,1]. *)
Lemma component_scores_valid (config : LeadGenerationConfig)
    (data : ProspectData) :
  valid_scores (component_scores_of config data).
Proof.
  unfold valid_scores, items, component_scores_of.
  cbn [company_fit budget_alignment authority_level need_intensity
       timing_urgency engagement_potential].
  repeat apply Forall_cons_2; [ | | | | | | apply Forall_nil_2]; cbn [snd].
  - unfold _score_company_fit. split_ifs; closed_unit_interval.
  - unfold _score_budget_alignment. split_ifs; closed_unit_interval.
  - unfold _score_authority_level.
    destruct (default [] (key_contacts data)) as [| c cs];
      [closed_unit_interval |].
    apply (mean_unit_interval (authority_of_title c)
             (map authority_of_title cs)).
    apply Forall_forall. intros q Hq.
    change (authority_of_title c :: map authority_of_title cs)
      with (map authority_of_title (c :: cs)) in Hq.
    apply list_elem_of_fmap in Hq as (c' & -> & _).
    apply authority_of_title_unit.
  - unfold _score_need_intensity. split_ifs; closed_unit_interval.
  - unfold _score_timing_urgency. split_ifs; closed_unit_interval.
  - unfold _score_engagement_potential. split_ifs; closed_unit_interval.
Qed.

(** Hence the overall score computed for any prospect lies in [0,1]. *)
Lemma overall_score_of_prospect (config : LeadGenerationConfig)
    (data : ProspectData) :
  exists s,
    overall_score_of (component_scores_of config data) = inr s /\
    unit_interval s.
Proof.
  pose proof (valid_scores_fields _ (component_scores_valid config data)) as H.
  unfold unit_interval in *.
  destruct H as ((?&?)&(?&?)&(?&?)&(?&?)&(?&?)&(?&?)).
  eexists. split; [apply overall_score_value |]. split; lra.
Qed.

(** *** Facts about the sort *)

Section SortFacts.
Context {A : Type}.
Variable key : A -> Q.

Lemma insert_desc_perm (x : A) (l : list A) :
  Permutation (insert_desc key x l) (x :: l).
Proof.
  induction l as [| y l IH]; cbn; [reflexivity |].
  destruct (Qle_bool (key y) (key x)); [reflexivity |].
  rewrite IH. apply perm_swap.
Qed.

Lemma sort_desc_perm (l : list A) : Permutation (sort_desc key l) l.
Proof.
  induction l as [| x l IH]; cbn; [reflexivity |].
  fold (sort_desc key l). rewrite insert_desc_perm. now constructor.
Qed.

Lemma insert_desc_sorted (x : A) (l : list A) :
  StronglySorted (fun a b => key b <= key a) l ->
  StronglySorted (fun a b => key b <= key a) (insert_desc key x l).
Proof.
  induction 1 as [| y l Hs IH Hall]; cbn.
  - repeat constructor.
  - destruct (Qle_bool_cases (key y) (key x)) as [[E Hle] | [E Hlt]]; rewrite E.
    + constructor; [now constructor |].
      constructor; [exact Hle |].
      eapply List.Forall_impl; [| exact Hall].
      cbn. intros a Ha. lra.
    + constructor; [exact IH |].
      eapply Permutation_Forall.
      * symmetry. apply insert_desc_perm.
      * constructor; [lra | exact Hall].
Qed.

Lemma sort_desc_sorted (l : list A) :
  StronglySorted (fun a b => key b <= key a) (sort_desc key l).
Proof.
  induction l as [| x l IH]; cbn; [constructor |].
  now apply insert_desc_sorted.
Qed.

(** Elements of one key keep their order: inserting never jumps over an
    element of the same key. *)
Lemma insert_desc_stable (v : Q) (x : A) (l : list A) :
  List.filter (fun a => Qeq_bool (key a) v) (insert_desc key x l) =
  List.filter (fun a => Qeq_bool (key a) v) (x :: l).
Proof.
  induction l as [| y l IH]; [reflexivity |].
  cbn [insert_desc].
  destruct (Qle_bool_cases (key y) (key x)) as [[E Hle] | [E Hlt]]; rewrite E;
    [reflexivity |].
  cbn [List.filter] in *. rewrite IH.
  destruct (Qeq_bool (key x) v) eqn:Ex, (Qeq_bool (key y) v) eqn:Ey;
    try reflexivity.
  apply Qeq_bool_iff in Ex, Ey. exfalso. lra.
Qed.

Lemma sort_desc_stable (v : Q) (l : list A) :
  List.filter (fun a => Qeq_bool (key a) v) (sort_desc key l) =
  List.filter (fun a => Qeq_bool (key a) v) l.
Proof.
  induction l as [| x l IH]; [reflexivity |].
  cbn [sort_desc foldr]. fold (sort_desc key l).
  rewrite insert_desc_stable. cbn [List.filter]. now rewrite IH.
Qed.

End SortFacts.

(** *** Facts about ranking *)

Lemma assign_ranks_from_ranks (i : Z) (leads : list QualifiedLead) :
  map priority_rank (assign_ranks_from i leads) =
  map (fun k => (i + Z.of_nat k)%Z) (seq 0 (length leads)).
Proof.
  revert i. induction leads as [| lead rest IH]; intros i; [reflexivity |].
  cbn [assign_ranks_from map length seq priority_rank set_priority_rank].
  f_equal; [lia |].
  rewrite IH, <- seq_shift, map_map.
  apply map_ext. intros k. lia.
Qed.

Lemma assign_ranks_ranks (leads : list QualifiedLead) :
  map priority_rank (assign_ranks leads) =
  map Z.of_nat (seq 1 (length leads)).
Proof.
  unfold assign_ranks. rewrite assign_ranks_from_ranks, <- seq_shift, map_map.
  apply map_ext. intros k. lia.
Qed.

Lemma assign_ranks_from_length (i : Z) (leads : list QualifiedLead) :
  length (assign_ranks_from i leads) = length leads.
Proof.
  revert i. induction leads as [| lead rest IH]; intros i; cbn; [| rewrite IH];
    reflexivity.
Qed.

Lemma assign_ranks_from_unrank (i : Z) (leads : list QualifiedLead) :
  map unrank (assign_ranks_from i leads) = map unrank leads.
Proof.
  revert i. induction leads as [| lead rest IH]; intros i; [reflexivity |].
  cbn [assign_ranks_from map]. now rewrite IH.
Qed.

Lemma assign_ranks_from_Forall (R : QualifiedLead -> Prop) (i : Z)
    (leads : list QualifiedLead) :
  (forall lead k, R lead -> R (set_priority_rank lead k)) ->
  Forall R leads -> Forall R (assign_ranks_from i leads).
Proof.
  intros HR H. revert i.
  induction H as [| lead rest Hl Hrest IH]; intros i; cbn; constructor; auto.
Qed.

Lemma assign_ranks_from_sorted (i : Z) (leads : list QualifiedLead) :
  StronglySorted score_ge leads ->
  StronglySorted score_ge (assign_ranks_from i leads).
Proof.
  intros H. revert i.
  induction H as [| lead rest Hs IH Hall]; intros i; cbn; constructor; auto.
  apply assign_ranks_from_Forall; [| exact Hall].
  intros; assumption.
Qed.

Lemma filter_has_score_unrank (v : Q) (leads : list QualifiedLead) :
  List.filter (has_score v) (map unrank leads) =
  map unrank (List.filter (has_score v) leads).
Proof.
  induction leads as [| lead rest IH]; [reflexivity |].
  cbn [map List.filter].
  change (has_score v (unrank lead)) with (has_score v lead).
  destruct (has_score v lead); cbn [map]; now rewrite IH.
Qed.

(** *** Facts about the qualification pipeline *)

Section PipelineFacts.
Context {P : Type}.
Variable score_lead : P -> result LeadScore.
Variable new_lead : P -> LeadScore -> result QualifiedLead.

#[local] Abbreviation contrib := (contribution score_lead new_lead).
#[local] Abbreviation q_one := (qualify_one score_lead new_lead).
#[local] Abbreviation q_loop := (qualify_loop score_lead new_lead).
#[local] Abbreviation q_leads := (qualify_leads_with score_lead new_lead).

(** The loop returns, with the contributions of the candidates in input
    order behind what was there. *)
Lemma qualify_loop_collects (prospects : list P)
    (qualified_leads : list QualifiedLead) :
  q_loop prospects qualified_leads =
  inr (qualified_leads ++ flat_map contrib prospects).
Proof.
  revert qualified_leads.
  induction prospects as [| prospect rest IH]; intros acc; cbn.
  - now rewrite app_nil_r.
  - unfold contribution, try_except.
    destruct (q_one prospect) as [e | leads]; cbn;
      rewrite IH, <- ?app_assoc; reflexivity.
Qed.

Lemma qualify_leads_with_value (prospects : list P) :
  q_leads prospects =
  inr (assign_ranks (sort_desc score_key (flat_map contrib prospects))).
Proof.
  unfold qualify_leads_with. now rewrite qualify_loop_collects.
Qed.

(** A candidate whose scoring raises contributes nothing. *)
Lemma contribution_raise (prospect : P) (e : exn) :
  score_lead prospect = inl e -> contrib prospect = [].
Proof.
  intros H. unfold contribution, qualify_one. now rewrite H.
Qed.

(** A candidate scored below Warm contributes nothing. *)
Lemma contribution_below_warm (prospect : P) (score : LeadScore) :
  score_lead prospect = inr score ->
  warm_or_better (_determine_qualification_level (overall_score score)) = false ->
  q_one prospect = inr [] /\ contrib prospect = [].
Proof.
  intros H Hw. unfold contribution, qualify_one. rewrite H. cbn.
  now rewrite Hw.
Qed.

(** Every contributed lead was built from a score at Warm or above. *)
Lemma contribution_warm (prospect : P) (lead : QualifiedLead) :
  In lead (contrib prospect) ->
  exists score,
    score_lead prospect = inr score /\
    new_lead prospect score = inr lead /\
    warm_or_better (_determine_qualification_level (overall_score score)) = true.
Proof.
  unfold contribution, qualify_one.
  destruct (score_lead prospect) as [e | score]; cbn; [intros [] |].
  destruct (warm_or_better _) eqn:Hw; cbn; [| intros []].
  destruct (new_lead prospect score) as [e | l] eqn:Hn; cbn; [intros [] |].
  intros [<- | []]. exists score. auto.
Qed.

Lemma qualify_output_facts (prospects : list P) :
  let collected := flat_map contrib prospects in
  let out := assign_ranks (sort_desc score_key collected) in
  StronglySorted score_ge out /\
  Permutation (map unrank out) (map unrank collected) /\
  (forall v, List.filter (has_score v) (map unrank out) =
             List.filter (has_score v) (map unrank collected)) /\
  map priority_rank out = map Z.of_nat (seq 1 (length out)).
Proof.
  intros collected out. subst out. unfold assign_ranks.
  split; [| split; [| split]].
  - apply assign_ranks_from_sorted. apply (sort_desc_sorted score_key).
  - rewrite assign_ranks_from_unrank.
    apply Permutation_map, sort_desc_perm.
  - intros v. rewrite assign_ranks_from_unrank, !filter_has_score_unrank.
    f_equal. apply (sort_desc_stable score_key).
  - rewrite assign_ranks_from_length. apply assign_ranks_ranks.
Qed.

End PipelineFacts.

(** C1: whatever the scoring and the lead constructor do, [qualify_leads]
    returns a list sorted by overall score, highest first; leads of equal
    score stand in the order of the candidates they come from; and the
    priority ranks read 1, 2, ..., N down the list. *)
Theorem qualify_leads_sorted_stable_ranked {P : Type}
    (score_lead : P -> result LeadScore)
    (new_lead : P -> LeadScore -> result QualifiedLead)
    (prospects : list P) :
  exists out,
    qualify_leads_with score_lead new_lead prospects = inr out /\
    StronglySorted score_ge out /\
    Permutation (map unrank out)
      (map unrank (flat_map (contribution score_lead new_lead) prospects)) /\
    (forall v,
       List.filter (has_score v) (map unrank out) =
       List.filter (has_score v)
         (map unrank (flat_map (contribution score_lead new_lead) prospects))) /\
    map priority_rank out = map Z.of_nat (seq 1 (length out)).
Proof.
  eexists. split; [apply qualify_leads_with_value |].
  apply qualify_output_facts.
Qed.

(** C4: when the constructor stores the score it is handed and the scorer
    sets the level from the overall score, every returned lead is Hot or
    Warm; a candidate scored Cool or Cold makes no difference to the
    result, which is returned normally. *)
Theorem qualify_leads_only_warm_or_hot {P : Type}
    (score_lead : P -> result LeadScore)
    (new_lead : P -> LeadScore -> result QualifiedLead)
    (prospects : list P) :
  (forall p s lead, new_lead p s = inr lead -> lead_score lead = s) ->
  (forall p s, score_lead p = inr s ->
     qualification_level s = _determine_qualification_level (overall_score s)) ->
  exists out,
    qualify_leads_with score_lead new_lead prospects = inr out /\
    (forall lead, In lead out ->
       qualification_level (lead_score lead) = HOT \/
       qualification_level (lead_score lead) = WARM) /\
    (forall before p after s,
       prospects = before ++ p :: after ->
       score_lead p = inr s ->
       qualification_level s = COOL \/ qualification_level s = COLD ->
       qualify_one score_lead new_lead p = inr [] /\
       qualify_leads_with score_lead new_lead (before ++ after) = inr out).
Proof.
  intros Hnew Hlevel.
  eexists. split; [apply qualify_leads_with_value |]. split.
  - intros lead Hin.
    destruct (qualify_output_facts score_lead new_lead prospects)
      as (_ & Hperm & _).
    apply (in_map unrank) in Hin.
    eapply Permutation_in in Hin; [| exact Hperm].
    apply in_map_iff in Hin as (lead0 & Heq & Hin0).
    apply in_flat_map in Hin0 as (p & _ & Hp).
    apply contribution_warm in Hp as (s & Hs & Hn & Hw).
    assert (Hls : lead_score lead = s).
    { rewrite <- (Hnew _ _ _ Hn).
      change (lead_score (unrank lead) = lead_score (unrank lead0)).
      now rewrite Heq. }
    rewrite Hls, (Hlevel _ _ Hs).
    unfold warm_or_better in Hw.
    destruct (_determine_qualification_level (overall_score s));
      auto; discriminate.
  - intros before p after s -> Hs Hcold.
    assert (Hw : warm_or_better
                   (_determine_qualification_level (overall_score s)) = false).
    { rewrite <- (Hlevel _ _ Hs). now destruct Hcold as [-> | ->]. }
    destruct (contribution_below_warm score_lead new_lead p s Hs Hw) as [H1 H2].
    split; [exact H1 |].
    rewrite qualify_leads_with_value, !flat_map_app. cbn [flat_map].
    now rewrite H2.
Qed.

(** C10: a candidate whose scoring raises is passed over; the call still
    returns, with exactly the leads, order and ranks it returns for the
    other candidates alone. *)
Theorem qualify_leads_skips_raising_candidate {P : Type}
    (score_lead : P -> result LeadScore)
    (new_lead : P -> LeadScore -> result QualifiedLead)
    (before after : list P) (p : P) (e : exn) :
  score_lead p = inl e ->
  exists out,
    qualify_leads_with score_lead new_lead (before ++ p :: after) = inr out /\
    qualify_leads_with score_lead new_lead (before ++ after) = inr out /\
    StronglySorted score_ge out /\
    map priority_rank out = map Z.of_nat (seq 1 (length out)).
Proof.
  intros He.
  exists (assign_ranks (sort_desc score_key
            (flat_map (contribution score_lead new_lead) (before ++ after)))).
  split; [| split].
  - rewrite qualify_leads_with_value, !flat_map_app. cbn [flat_map].
    now rewrite (contribution_raise _ _ _ _ He).
  - apply qualify_leads_with_value.
  - destruct (qualify_output_facts score_lead new_lead (before ++ after))
      as (Hs & _ & _ & Hr).
    split; [exact Hs | exact Hr].
Qed.

(** *** Facts about re-scoring *)



Lemma rescore_loop_length (leads : list nat) (h : store) (acc : list nat) :
  length (fst (rescore_loop h leads acc)) = length h.
Proof.
  revert h acc. induction leads as [| r rest IH]; intros h acc; cbn;
    [reflexivity |].
  destruct (h !! r); rewrite IH, ?length_insert; reflexivity.
Qed.

(** A reference the loop does not meet keeps its lead. *)
Lemma rescore_loop_other (leads : list nat) (h : store) (acc : list nat)
    (r : nat) :
  ~ In r leads -> fst (rescore_loop h leads acc) !! r = h !! r.
Proof.
  revert h acc. induction leads as [| r0 rest IH]; intros h acc Hnin; cbn;
    [reflexivity |].
  assert (r0 <> r /\ ~ In r rest) as [Hne Hrest] by (cbn in Hnin; tauto).
  destruct (h !! r0); rewrite IH by exact Hrest;
    [now apply list_lookup_insert_ne | reflexivity].
Qed.



(** Ranking touches nothing but the rank. *)
Lemma rank_loop_unrank (leads : list nat) (h : store) (i : Z) (r : nat) :
  unrank <$> (rank_loop h leads i !! r) = unrank <$> (h !! r).
Proof.
  revert h i. induction leads as [| r0 rest IH]; intros h i; cbn;
    [reflexivity |].
  destruct (h !! r0) as [lead0 |] eqn:E0; rewrite IH; [| reflexivity].
  destruct (decide (r0 = r)) as [-> | Hne].
  - rewrite list_lookup_insert_eq by (eapply lookup_lt_Some, E0).
    now rewrite E0.
  - now rewrite list_lookup_insert_ne.
Qed.


(** *** The class as written *)

Lemma score_lead_passing_given (config : LeadGenerationConfig)
    (now : datetime) (d : option datetime) (prospect : Prospect)
    (s : LeadScore) :
  score_lead_passing (Given d) config now prospect = inr s ->
  qualification_level s = _determine_qualification_level (overall_score s).
Proof.
  unfold score_lead_passing. rewrite overall_score_value. cbn.
  intros [= <-]. reflexivity.
Qed.

Lemma new_lead_passing_stores (date : arg (option datetime)) (now : datetime)
    (prospect : Prospect) (s : LeadScore) (lead : QualifiedLead) :
  new_lead_passing date now prospect s = inr lead -> lead_score lead = s.
Proof.
  unfold new_lead_passing, QualifiedLead_init.
  destruct date; [discriminate |]. intros [= <-]. reflexivity.
Qed.

(** [_score_lead] never returns: its [LeadScore(...)] call leaves out the
    required [scored_at]. *)
Lemma _score_lead_raises (config : LeadGenerationConfig) (now : datetime)
    (prospect : Prospect) :
  _score_lead config now prospect =
  inl (TypeError
         "__init__() missing 1 required positional argument: 'scored_at'").
Proof.
  unfold _score_lead, score_lead_passing. now rewrite overall_score_value.
Qed.

(** Hence every candidate is skipped by the [except] clause. *)
Lemma qualify_leads_returns_nothing (config : LeadGenerationConfig)
    (now : datetime) (prospects : list Prospect) :
  qualify_leads config now prospects = inr [].
Proof.
  unfold qualify_leads. rewrite qualify_leads_with_value.
  assert (H : flat_map (contribution (_score_lead config now)
                          (new_qualified_lead now)) prospects = []).
  { induction prospects as [| p rest IH]; [reflexivity |].
    cbn [flat_map]. rewrite IH.
    now rewrite (contribution_raise _ (new_qualified_lead now) _ _
                   (_score_lead_raises config now p)). }
  now rewrite H.
Qed.

(** *** Worked examples *)

Lemma all_point_nine_valid : valid_scores all_point_nine.
Proof.
  unfold valid_scores, items, unit_interval. cbn.
  repeat constructor; cbn; lra.
Qed.

(** The scenario of the specification: all components at 0.9 give an
    overall score of 0.9, which is Hot. *)
Example all_point_nine_hot :
  exists s, overall_score_of all_point_nine = inr s /\ s == 0.9 /\
            _determine_qualification_level s = HOT.
Proof. eexists. split; [reflexivity |]. split; reflexivity. Qed.

Lemma overall_score_in_unit_interval_witness :
  (exists s, overall_score_of all_point_nine = inr s /\ unit_interval s) /\
  weights_total == 1 /\
  weights_total_binary64 = 1%float.
Proof.
  exact (overall_score_in_unit_interval all_point_nine all_point_nine_valid).
Defined.

Lemma sample_score_level (p : option Prospect) (s : LeadScore) :
  sample_score p = inr s ->
  qualification_level s = _determine_qualification_level (overall_score s).
Proof.
  destruct p as [prospect |]; [| discriminate].
  apply score_lead_passing_given.
Qed.

Lemma sample_lead_stores (p : option Prospect) (s : LeadScore)
    (lead : QualifiedLead) :
  sample_lead p s = inr lead -> lead_score lead = s.
Proof.
  destruct p as [prospect |]; [| discriminate].
  apply new_lead_passing_stores.
Qed.

(** The sample run: the test company scores Cool and is dropped, [None]
    raises and is skipped, and the two others come out ranked. *)
Example sample_run :
  (let* out := qualify_leads_with sample_score sample_lead sample_prospects in
   ret (map (fun lead => (priority_rank lead,
                          qualification_level (lead_score lead),
                          Qred (score_key lead))) out))%result =
  inr [ (1%Z, HOT, Qred 0.91); (2%Z, WARM, Qred 0.73) ].
Proof. vm_compute. reflexivity. Qed.

Lemma qualify_leads_only_warm_or_hot_witness :
  exists out,
    qualify_leads_with sample_score sample_lead sample_prospects = inr out /\
    (forall lead, In lead out ->
       qualification_level (lead_score lead) = HOT \/
       qualification_level (lead_score lead) = WARM) /\
    (forall before p after s,
       sample_prospects = before ++ p :: after ->
       sample_score p = inr s ->
       qualification_level s = COOL \/ qualification_level s = COLD ->
       qualify_one sample_score sample_lead p = inr [] /\
       qualify_leads_with sample_score sample_lead (before ++ after) = inr out).
Proof.
  exact (qualify_leads_only_warm_or_hot sample_score sample_lead
           sample_prospects sample_lead_stores sample_score_level).
Defined.

Lemma qualify_leads_skips_raising_candidate_witness :
  exists out,
    qualify_leads_with sample_score sample_lead
      ([Some test_company; Some dataflow] ++ None :: [Some techcorp]) = inr out /\
    qualify_leads_with sample_score sample_lead
      ([Some test_company; Some dataflow] ++ [Some techcorp]) = inr out /\
    StronglySorted score_ge out /\
    map priority_rank out = map Z.of_nat (seq 1 (length out)).
Proof.
  exact (qualify_leads_skips_raising_candidate sample_score sample_lead
           [Some test_company; Some dataflow] [Some techcorp] None
           (AttributeError "'NoneType' object has no attribute 'get'")
           eq_refl).
Defined.


(** The same lead object handed in twice is adjusted twice. *)
Example re_score_leads_aliased :
  (fun lead => Qred (score_key lead)) <$>
    (fst (re_score_leads [warm_lead] [0%nat; 0%nat]) !! 0%nat)
  = Some (Qred 0.62).
Proof. vm_compute. reflexivity. Qed.

(** Re-scoring a Warm and a Hot lead: the Hot one moves up to 0.96 and
    takes rank 1, the Warm one moves down to 0.67, turns Cool and takes
    rank 2. *)
Example re_score_leads_run :
  let '(h, out) := re_score_leads [warm_lead; hot_lead] [0%nat; 1%nat] in
  (out,
   map (fun lead => (priority_rank lead, qualification_level (lead_score lead),
                     Qred (score_key lead))) h) =
  ([1%nat; 0%nat], [ (2%Z, COOL, Qred 0.67); (1%Z, HOT, Qred 0.96) ]).
Proof. vm_compute. reflexivity. Qed.


End LeadQualifier.

(** ** Methods that mutate their object

    [M S A]: a method on an object in state [S] returning an [A].  The
    state that comes out is the object after the call, also when the call
    ends in an exception. *)

Definition M (S A : Type) : Type := S -> result A * S.

Section Methods.
Context {S : Type}.

Definition mret {A : Type} (a : A) : M S A := fun s => (inr a, s).

Definition mbind {A B : Type} (c : M S A) (k : A -> M S B) : M S B :=
  fun s =>
    match c s with
    | (inl e, s') => (inl e, s')
    | (inr a, s') => k a s'
    end.

Definition mraise {A : Type} (e : exn) : M S A := fun s => (inl e, s).

Definition get : M S S := fun s => (inr s, s).

Definition modify (f : S -> S) : M S unit := fun s => (inr tt, f s).

(** A call that touches nothing of the object. *)
Definition call {A : Type} (r : result A) : M S A := fun s => (r, s).

(** [try: c except Exception as e: handler e] *)
Definition try_catch {A : Type} (c : M S A) (handler : exn -> M S A)
  : M S A :=
  fun s =>
    match c s with
    | (inl e, s') => handler e s'
    | (inr a, s') => (inr a, s')
    end.

End Methods.

Declare Scope method_scope.
Delimit Scope method_scope with method.
Notation "'let!' x ':=' c 'in' k" := (mbind c (fun x => k))
  (at level 10, x name, c at level 100, k at level 200) : method_scope.

(** ** Reasoning about methods *)

(** [holds I c Q]: from a state in [I] the call [c] ends in a state in [I],
    whether it returns or raises, and what it returns satisfies [Q]. *)
Definition holds {S A : Type} (I : S -> Prop) (c : M S A) (Q : A -> Prop)
  : Prop :=
  forall s, I s ->
    I (snd (c s)) /\
    match fst (c s) with
    | inr a => Q a
    | inl _ => True
    end.

Section HoldsRules.
Context {S : Type} (I : S -> Prop).








Lemma holds_weaken {A : Type} (c : M S A) (Q R : A -> Prop) :
  holds I c Q -> (forall a, Q a -> R a) -> holds I c R.
Proof.
  intros Hc HQR s Hs. destruct (Hc s Hs) as [Hs' Hq]. split; [exact Hs' |].
  destruct (fst (c s)); auto.
Qed.

End HoldsRules.


Section ReturnsRules.
Context {S : Type} (I : S -> Prop).







End ReturnsRules.

Lemma truediv_nonzero (a b : Z) :
  b <> 0%Z -> truediv a b = inr (inject_Z a / inject_Z b).
Proof.
  intros Hb. unfold truediv.
  destruct (Z.eqb_spec b 0); [contradiction | reflexivity].
Qed.

(** ** lead_generator.py: [CampaignMetrics] *)

Module Campaign.

Record CampaignMetrics : Type := {
  campaign_id : string;
  start_date : datetime;
  prospects_researched : Z;
  leads_qualified : Z;
  emails_sent : Z;
  responses_received : Z;
  meetings_booked : Z;
  deals_closed : Z;
  total_pipeline_value : Q;
  conversion_rate : Q
}.

(** [CampaignMetrics(campaign_id=..., start_date=...)] *)
Definition new (id : string) (start : datetime) : CampaignMetrics :=
  {| campaign_id := id;
     start_date := start;
     prospects_researched := 0;
     leads_qualified := 0;
     emails_sent := 0;
     responses_received := 0;
     meetings_booked := 0;
     deals_closed := 0;
     total_pipeline_value := 0.0;
     conversion_rate := 0.0 |}.

(** [self.prospects_researched += n] *)
Definition add_prospects_researched (n : Z) (m : CampaignMetrics)
  : CampaignMetrics :=
  {| campaign_id := campaign_id m;
     start_date := start_date m;
     prospects_researched := prospects_researched m + n;
     leads_qualified := leads_qualified m;
     emails_sent := emails_sent m;
     responses_received := responses_received m;
     meetings_booked := meetings_booked m;
     deals_closed := deals_closed m;
     total_pipeline_value := total_pipeline_value m;
     conversion_rate := conversion_rate m |}.

(** [self.leads_qualified += n] *)
Definition add_leads_qualified (n : Z) (m : CampaignMetrics)
  : CampaignMetrics :=
  {| campaign_id := campaign_id m;
     start_date := start_date m;
     prospects_researched := prospects_researched m;
     leads_qualified := leads_qualified m + n;
     emails_sent := emails_sent m;
     responses_received := responses_received m;
     meetings_booked := meetings_booked m;
     deals_closed := deals_closed m;
     total_pipeline_value := total_pipeline_value m;
     conversion_rate := conversion_rate m |}.

(** [self.emails_sent += n] *)
Definition add_emails_sent (n : Z) (m : CampaignMetrics) : CampaignMetrics :=
  {| campaign_id := campaign_id m;
     start_date := start_date m;
     prospects_researched := prospects_researched m;
     leads_qualified := leads_qualified m;
     emails_sent := emails_sent m + n;
     responses_received := responses_received m;
     meetings_booked := meetings_booked m;
     deals_closed := deals_closed m;
     total_pipeline_value := total_pipeline_value m;
     conversion_rate := conversion_rate m |}.

(** [self.responses_received += n] *)
Definition add_responses_received (n : Z) (m : CampaignMetrics)
  : CampaignMetrics :=
  {| campaign_id := campaign_id m;
     start_date := start_date m;
     prospects_researched := prospects_researched m;
     leads_qualified := leads_qualified m;
     emails_sent := emails_sent m;
     responses_received := responses_received m + n;
     meetings_booked := meetings_booked m;
     deals_closed := deals_closed m;
     total_pipeline_value := total_pipeline_value m;
     conversion_rate := conversion_rate m |}.

(** [self.conversion_rate = r] *)
Definition set_conversion_rate (r : Q) (m : CampaignMetrics)
  : CampaignMetrics :=
  {| campaign_id := campaign_id m;
     start_date := start_date m;
     prospects_researched := prospects_researched m;
     leads_qualified := leads_qualified m;
     emails_sent := emails_sent m;
     responses_received := responses_received m;
     meetings_booked := meetings_booked m;
     deals_closed := deals_closed m;
     total_pipeline_value := total_pipeline_value m;
     conversion_rate := r |}.

Definition update_conversion_rate : M CampaignMetrics unit :=
  (let! m := get in
   if (0 <? prospects_researched m)%Z
   then (let! r := call (truediv (leads_qualified m) (prospects_researched m)) in
         modify (set_conversion_rate r))
   else mret tt)%method.


(** *** Facts about [CampaignMetrics] *)

Lemma update_conversion_rate_value (m : CampaignMetrics) :
  update_conversion_rate m =
  (inr tt,
   if (0 <? prospects_researched m)%Z
   then set_conversion_rate
          (inject_Z (leads_qualified m) / inject_Z (prospects_researched m)) m
   else m).
Proof.
  unfold update_conversion_rate, mbind, get, call, modify, mret.
  destruct (Z.ltb_spec 0 (prospects_researched m)); [| reflexivity].
  rewrite truediv_nonzero by lia. reflexivity.
Qed.







End Campaign.

(** ** analytics_tracker.py *)

Module Analytics.

Record PerformanceMetrics : Type := {
  total_prospects_researched : Z;
  prospects_qualified : Z;
  qualification_rate : Q;
  emails_sent : Z;
  email_responses : Z;
  response_rate : Q;
  meetings_booked : Z;
  conversion_rate : Q;
  average_lead_score : Q;
  campaigns_run : Z;
  active_campaigns : Z
}.

(** [PerformanceMetrics()] *)
Definition new : PerformanceMetrics :=
  {| total_prospects_researched := 0;
     prospects_qualified := 0;
     qualification_rate := 0.0;
     emails_sent := 0;
     email_responses := 0;
     response_rate := 0.0;
     meetings_booked := 0;
     conversion_rate := 0.0;
     average_lead_score := 0.0;
     campaigns_run := 0;
     active_campaigns := 0 |}.

Definition set_qualification_rate (r : Q) (p : PerformanceMetrics)
  : PerformanceMetrics :=
  {| total_prospects_researched := total_prospects_researched p;
     prospects_qualified := prospects_qualified p;
     qualification_rate := r;
     emails_sent := emails_sent p;
     email_responses := email_responses p;
     response_rate := response_rate p;
     meetings_booked := meetings_booked p;
     conversion_rate := conversion_rate p;
     average_lead_score := average_lead_score p;
     campaigns_run := campaigns_run p;
     active_campaigns := active_campaigns p |}.

Definition set_response_rate (r : Q) (p : PerformanceMetrics)
  : PerformanceMetrics :=
  {| total_prospects_researched := total_prospects_researched p;
     prospects_qualified := prospects_qualified p;
     qualification_rate := qualification_rate p;
     emails_sent := emails_sent p;
     email_responses := email_responses p;
     response_rate := r;
     meetings_booked := meetings_booked p;
     conversion_rate := conversion_rate p;
     average_lead_score := average_lead_score p;
     campaigns_run := campaigns_run p;
     active_campaigns := active_campaigns p |}.

Definition set_conversion_rate (r : Q) (p : PerformanceMetrics)
  : PerformanceMetrics :=
  {| total_prospects_researched := total_prospects_researched p;
     prospects_qualified := prospects_qualified p;
     qualification_rate := qualification_rate p;
     emails_sent := emails_sent p;
     email_responses := email_responses p;
     response_rate := response_rate p;
     meetings_booked := meetings_booked p;
     conversion_rate := r;
     average_lead_score := average_lead_score p;
     campaigns_run := campaigns_run p;
     active_campaigns := active_campaigns p |}.

Definition update_rates : M PerformanceMetrics unit :=
  (let! _ :=
     (let! p := get in
      if (0 <? total_prospects_researched p)%Z
      then (let! r := call (truediv (prospects_qualified p)
                                    (total_prospects_researched p)) in
            modify (set_qualification_rate r))
      else mret tt) in
   let! _ :=
     (let! p := get in
      if (0 <? emails_sent p)%Z
      then (let! r := call (truediv (email_responses p) (emails_sent p)) in
            modify (set_response_rate r))
      else mret tt) in
   let! p := get in
   if (0 <? prospects_qualified p)%Z
   then (let! r := call (truediv (meetings_booked p) (prospects_qualified p)) in
         modify (set_conversion_rate r))
   else mret tt)%method.

(** The five [+=] on [self.current_metrics] in [update_metrics]; for the
    day's record the source leaves [meetings_booked] out
    ([with_meetings = false]). *)
Definition accumulate (with_meetings : bool) (c : Campaign.CampaignMetrics)
    (p : PerformanceMetrics) : PerformanceMetrics :=
  {| total_prospects_researched :=
       total_prospects_researched p + Campaign.prospects_researched c;
     prospects_qualified := prospects_qualified p + Campaign.leads_qualified c;
     qualification_rate := qualification_rate p;
     emails_sent := emails_sent p + Campaign.emails_sent c;
     email_responses := email_responses p + Campaign.responses_received c;
     response_rate := response_rate p;
     meetings_booked :=
       if with_meetings
       then meetings_booked p + Campaign.meetings_booked c
       else meetings_booked p;
     conversion_rate := conversion_rate p;
     average_lead_score := average_lead_score p;
     campaigns_run := campaigns_run p;
     active_campaigns := active_campaigns p |}.

(** The tracker: the running totals and the per-day records, keyed by the
    date as [%Y-%m-%d].  [historical_data] and the files the tracker
    writes are not read back by any method modelled here. *)
Record AnalyticsTracker : Type := {
  current_metrics : PerformanceMetrics;
  daily_metrics : gmap string PerformanceMetrics
}.

(** [AnalyticsTracker(config)] *)
Definition init : AnalyticsTracker :=
  {| current_metrics := new; daily_metrics := ∅ |}.

(** Run a method of [self.current_metrics]. *)
Definition on_current {A : Type} (c : M PerformanceMetrics A)
  : M AnalyticsTracker A :=
  fun a =>
    let '(r, p) := c (current_metrics a) in
    (r, {| current_metrics := p; daily_metrics := daily_metrics a |}).

(** Run a method of [self.daily_metrics[today]]. *)
Definition on_day {A : Type} (today : string) (c : M PerformanceMetrics A)
  : M AnalyticsTracker A :=
  fun a =>
    match daily_metrics a !! today with
    | Some p =>
        let '(r, p') := c p in
        (r, {| current_metrics := current_metrics a;
               daily_metrics := <[today := p']> (daily_metrics a) |})
    | None => (raise (KeyError today), a)
    end.

(** [if today not in self.daily_metrics:
        self.daily_metrics[today] = PerformanceMetrics()] *)
Definition ensure_day (today : string) (a : AnalyticsTracker)
  : AnalyticsTracker :=
  match daily_metrics a !! today with
  | Some _ => a
  | None => {| current_metrics := current_metrics a;
               daily_metrics := <[today := new]> (daily_metrics a) |}
  end.

(** [update_metrics]; what is raised inside is logged and dropped. *)
Definition update_metrics (today : string) (c : Campaign.CampaignMetrics)
  : M AnalyticsTracker unit :=
  try_catch
    (let! _ := on_current (modify (accumulate true c)) in
     let! _ := on_current update_rates in
     let! _ := modify (ensure_day today) in
     let! _ := on_day today (modify (accumulate false c)) in
     on_day today update_rates)%method
    (fun _ => mret tt).

(** What [update_rates] leaves: each rate recomputed when its denominator
    is positive, untouched otherwise. *)
Definition rates_updated (p : PerformanceMetrics) : PerformanceMetrics :=
  {| total_prospects_researched := total_prospects_researched p;
     prospects_qualified := prospects_qualified p;
     qualification_rate :=
       if (0 <? total_prospects_researched p)%Z
       then inject_Z (prospects_qualified p)
            / inject_Z (total_prospects_researched p)
       else qualification_rate p;
     emails_sent := emails_sent p;
     email_responses := email_responses p;
     response_rate :=
       if (0 <? emails_sent p)%Z
       then inject_Z (email_responses p) / inject_Z (emails_sent p)
       else response_rate p;
     meetings_booked := meetings_booked p;
     conversion_rate :=
       if (0 <? prospects_qualified p)%Z
       then inject_Z (meetings_booked p) / inject_Z (prospects_qualified p)
       else conversion_rate p;
     average_lead_score := average_lead_score p;
     campaigns_run := campaigns_run p;
     active_campaigns := active_campaigns p |}.



(** *** Facts about [PerformanceMetrics] and the tracker *)

Lemma update_rates_value (p : PerformanceMetrics) :
  update_rates p = (inr tt, rates_updated p).
Proof.
  unfold update_rates, rates_updated, mbind, get, call, modify, mret.
  destruct p as [t q qr e er rr mb cr al cn ac]; cbn.
  destruct (0 <? t)%Z eqn:Et, (0 <? e)%Z eqn:Ee, (0 <? q)%Z eqn:Eq;
    repeat (progress (cbn; rewrite ?Et, ?Ee, ?Eq;
                      rewrite ?truediv_nonzero by lia));
    reflexivity.
Qed.









(** [update_metrics] never raises. *)
Lemma update_metrics_returns (today : string) (c : Campaign.CampaignMetrics)
    (a : AnalyticsTracker) :
  fst (update_metrics today c a) = inr tt.
Proof.
  unfold update_metrics, try_catch.
  match goal with |- context [match ?b a with _ => _ end] =>
    destruct (b a) as [[e | []] a'] end; reflexivity.
Qed.

End Analytics.

(** ** lead_generator.py: [SalesLeadGenerator] *)

Module Generator.
Import Campaign.

(** What [send_sequences] returns, as far as the cycle reads it;
    [None] is an absent key. *)
Record EmailResults : Type := {
  sent : option nat;
  responses : option nat
}.

(** What the outside does during one call: the clock, the three providers
    and the file system. *)
Record World : Type := {
  now : datetime;
  (** [datetime.now().strftime('%Y%m%d_%H%M%S')] *)
  timestamp : string;
  (** [datetime.now().strftime('%Y-%m-%d')] *)
  today : string;
  research_prospects : Z -> result (list Prospect);
  send_sequences : list LeadQualifier.QualifiedLead -> result EmailResults;
  sync_leads : list LeadQualifier.QualifiedLead -> result unit;
  (** opening a file under [data_dir] for writing and writing it *)
  write_file : string -> result unit
}.

(** The content of [<campaign_id>_state.json]. *)
Record StateData : Type := {
  state_campaign_metrics : CampaignMetrics;
  state_is_running : bool;
  state_config : LeadGenerationConfig;
  last_updated : datetime
}.

Record PerformanceSummary : Type := {
  daily_average_prospects : Q;
  qualification_rate : Q;
  email_response_rate : Q;
  target_achievement : Q
}.

(** The content of [<campaign_id>_final_report.json]. *)
Record FinalReport : Type := {
  report_campaign_id : string;
  report_start_date : datetime;
  end_date : datetime;
  duration_days : Z;
  final_metrics : CampaignMetrics;
  performance_summary : PerformanceSummary;
  generated_at : datetime
}.

Inductive File : Type :=
| StateFile (d : StateData)
| ReportFile (r : FinalReport).

(** The orchestrator: its configuration, the qualifier it built from it,
    the run-time fields, and the files of its data directory. *)
Record SalesLeadGenerator : Type := {
  config : LeadGenerationConfig;
  lead_qualifier :
    datetime -> list Prospect -> result (list LeadQualifier.QualifiedLead);
  analytics : option Analytics.AnalyticsTracker;
  is_running : bool;
  campaign_metrics : option CampaignMetrics;
  files : gmap string File
}.

(** [SalesLeadGenerator()] on a data directory holding [existing], with
    [cfg] what [_load_config] returns.  The call is made inside a running
    event loop, which the tracker's constructor needs. *)
Definition init (cfg : LeadGenerationConfig) (existing : gmap string File)
  : SalesLeadGenerator :=
  {| config := cfg;
     lead_qualifier := LeadQualifier.qualify_leads cfg;
     analytics := if analytics_enabled cfg then Some Analytics.init else None;
     is_running := false;
     campaign_metrics := None;
     files := existing |}.

Definition set_is_running (b : bool) (g : SalesLeadGenerator)
  : SalesLeadGenerator :=
  {| config := config g;
     lead_qualifier := lead_qualifier g;
     analytics := analytics g;
     is_running := b;
     campaign_metrics := campaign_metrics g;
     files := files g |}.

Definition set_campaign_metrics (m : option CampaignMetrics)
    (g : SalesLeadGenerator) : SalesLeadGenerator :=
  {| config := config g;
     lead_qualifier := lead_qualifier g;
     analytics := analytics g;
     is_running := is_running g;
     campaign_metrics := m;
     files := files g |}.

Definition set_analytics (a : option Analytics.AnalyticsTracker)
    (g : SalesLeadGenerator) : SalesLeadGenerator :=
  {| config := config g;
     lead_qualifier := lead_qualifier g;
     analytics := a;
     is_running := is_running g;
     campaign_metrics := campaign_metrics g;
     files := files g |}.

Definition set_files (fs : gmap string File) (g : SalesLeadGenerator)
  : SalesLeadGenerator :=
  {| config := config g;
     lead_qualifier := lead_qualifier g;
     analytics := analytics g;
     is_running := is_running g;
     campaign_metrics := campaign_metrics g;
     files := fs |}.

(** Run a method of [self.campaign_metrics]; on [None] the attribute
    access raises. *)
Definition on_metrics {A : Type} (c : M CampaignMetrics A)
  : M SalesLeadGenerator A :=
  fun g =>
    match campaign_metrics g with
    | Some m => let '(r, m') := c m in (r, set_campaign_metrics (Some m') g)
    | None =>
        (raise (AttributeError "'NoneType' object has no attribute"), g)
    end.

(** [if self.analytics: await self.analytics.update_metrics(...)] *)
Definition on_analytics (c : M Analytics.AnalyticsTracker unit)
  : M SalesLeadGenerator unit :=
  fun g =>
    match analytics g with
    | Some a => let '(r, a') := c a in (r, set_analytics (Some a') g)
    | None => (inr tt, g)
    end.

Definition state_path (id : string) : string :=
  String.append id "_state.json".
Definition report_path (id : string) : string :=
  String.append id "_final_report.json".

Definition _save_campaign_state (w : World) : M SalesLeadGenerator unit :=
  (let! g := get in
   match campaign_metrics g with
   | None => mret tt
   | Some m =>
       let state_data :=
         {| state_campaign_metrics := m;
            state_is_running := is_running g;
            state_config := config g;
            last_updated := now w |} in
       let! _ := call (write_file w (state_path (campaign_id m))) in
       modify (fun g =>
         set_files (<[state_path (campaign_id m) := StateFile state_data]>
                      (files g)) g)
   end)%method.

Definition start_campaign (w : World) (id : option string)
  : M SalesLeadGenerator string :=
  (let! g := get in
   if is_running g then mraise (RuntimeError "Campaign already running")
   else
     let id :=
       match id with
       | Some s =>
           if String.eqb s "" then String.append "campaign_" (timestamp w)
           else s
       | None => String.append "campaign_" (timestamp w)
       end in
     let! _ := modify (set_campaign_metrics (Some (new id (now w)))) in
     let! _ := modify (set_is_running true) in
     let! _ := _save_campaign_state w in
     mret id)%method.

(** What a cycle returns. *)
Record CycleResults : Type := {
  result_campaign_id : string;
  prospects_found : Z;
  result_leads_qualified : Z;
  result_emails_sent : Z;
  result_responses_received : Z;
  result_conversion_rate : Q;
  result_timestamp : datetime
}.

Definition len {A : Type} (l : list A) : Z := Z.of_nat (length l).

(** A list is true when it is not empty. *)
Definition truthy {A : Type} (l : list A) : bool :=
  match l with
  | [] => false
  | _ => true
  end.

(** The body of the [try] in [run_daily_cycle]. *)
Definition cycle_body (w : World) : M SalesLeadGenerator CycleResults :=
  (let! g := get in
   let! prospects :=
     call (research_prospects w (daily_lead_target (config g))) in
   let! _ := on_metrics (modify (add_prospects_researched (len prospects))) in
   let! qualified_leads := call (lead_qualifier g (now w) prospects) in
   let! _ := on_metrics (modify (add_leads_qualified (len qualified_leads))) in
   let! _ :=
     if email_sequence_enabled (config g) && truthy qualified_leads
     then (let! email_results := call (send_sequences w qualified_leads) in
           let! _ := on_metrics (modify (add_emails_sent
                       (Z.of_nat (default 0%nat (sent email_results))))) in
           on_metrics (modify (add_responses_received
             (Z.of_nat (default 0%nat (responses email_results))))))
     else mret tt in
   let! _ :=
     if crm_integration (config g) && truthy qualified_leads
     then call (sync_leads w qualified_leads)
     else mret tt in
   let! _ :=
     match analytics g with
     | None => mret tt
     | Some _ =>
         (let! m := on_metrics get in
          on_analytics (Analytics.update_metrics (today w) m))
     end in
   let! _ := on_metrics update_conversion_rate in
   let! _ := _save_campaign_state w in
   let! m := on_metrics get in
   mret {| result_campaign_id := campaign_id m;
           prospects_found := len prospects;
           result_leads_qualified := len qualified_leads;
           result_emails_sent := emails_sent m;
           result_responses_received := responses_received m;
           result_conversion_rate := conversion_rate m;
           result_timestamp := now w |})%method.

(** The error of a call made while no campaign is active. *)
Definition InvalidStateError : exn := RuntimeError "No active campaign".

Definition run_daily_cycle (w : World) : M SalesLeadGenerator CycleResults :=
  (let! g := get in
   if negb (is_running g) || negb (bool_decide (is_Some (campaign_metrics g)))
   then mraise InvalidStateError
   else try_catch (cycle_body w) (fun e => mraise e))%method.

(** The ['status'] entry of [get_campaign_status]. *)
Definition campaign_status (g : SalesLeadGenerator) : string :=
  match campaign_metrics g with
  | None => "no_active_campaign"
  | Some _ => if is_running g then "running" else "paused"
  end.

Definition pause_campaign (w : World) : M SalesLeadGenerator unit :=
  (let! g := get in
   if negb (is_running g) then mret tt
   else (let! _ := modify (set_is_running false) in
         _save_campaign_state w))%method.

Definition resume_campaign (w : World) : M SalesLeadGenerator unit :=
  (let! g := get in
   if is_running g then mret tt
   else (let! _ := modify (set_is_running true) in
         _save_campaign_state w))%method.

(** [(datetime.now() - start_date).days + 1] *)
Definition days_running (w : World) (m : CampaignMetrics) : Z :=
  ((now w - start_date m) / 86400 + 1)%Z.

(** [_generate_final_report]; [None] is the empty report. *)
Definition _generate_final_report (w : World)
  : M SalesLeadGenerator (option FinalReport) :=
  (let! g := get in
   match campaign_metrics g with
   | None => mret None
   | Some m =>
       let days := days_running w m in
       let! average := call (truediv (prospects_researched m) days) in
       let! response_rate :=
         if (0 <? emails_sent m)%Z
         then call (truediv (responses_received m) (emails_sent m))
         else mret 0 in
       let! achievement :=
         call (truediv (prospects_researched m)
                       (daily_lead_target (config g) * days)) in
       mret (Some
         {| report_campaign_id := campaign_id m;
            report_start_date := start_date m;
            end_date := now w;
            duration_days := days;
            final_metrics := m;
            performance_summary :=
              {| daily_average_prospects := average;
                 qualification_rate := conversion_rate m;
                 email_response_rate := response_rate;
                 target_achievement := achievement |};
            generated_at := now w |})
   end)%method.

Definition _save_final_report (w : World) (report : option FinalReport)
  : M SalesLeadGenerator unit :=
  match report with
  | None => mret tt
  | Some r =>
      (let! _ := call (write_file w (report_path (report_campaign_id r))) in
       modify (fun g =>
         set_files (<[report_path (report_campaign_id r) := ReportFile r]>
                      (files g)) g))%method
  end.

Definition stop_campaign (w : World) : M SalesLeadGenerator unit :=
  (let! g := get in
   if negb (is_running g) then mret tt
   else
     let! _ := modify (set_is_running false) in
     (* the log line reads [self.campaign_metrics.campaign_id] *)
     let! _ := on_metrics (mret tt) in
     let! final_report := _generate_final_report w in
     let! _ := _save_final_report w final_report in
     modify (set_campaign_metrics None))%method.

(** *** States of the orchestrator *)




(** [e] is what one of the calls a cycle makes in [w] raised. *)
Definition raised_by_stage (w : World) (g : SalesLeadGenerator) (e : exn)
  : Prop :=
  (exists n, research_prospects w n = inl e) \/
  (exists prospects, lead_qualifier g (now w) prospects = inl e) \/
  (exists leads, send_sequences w leads = inl e) \/
  (exists leads, sync_leads w leads = inl e) \/
  (exists path, write_file w path = inl e).

(** The report [stop_campaign] writes for metrics [m]. *)
Definition final_report_of (w : World) (g : SalesLeadGenerator)
    (m : CampaignMetrics) : FinalReport :=
  {| report_campaign_id := campaign_id m;
     report_start_date := start_date m;
     end_date := now w;
     duration_days := days_running w m;
     final_metrics := m;
     performance_summary :=
       {| daily_average_prospects :=
            inject_Z (prospects_researched m) / inject_Z (days_running w m);
          qualification_rate := conversion_rate m;
          email_response_rate :=
            if (0 <? emails_sent m)%Z
            then inject_Z (responses_received m) / inject_Z (emails_sent m)
            else 0;
          target_achievement :=
            inject_Z (prospects_researched m)
            / inject_Z (daily_lead_target (config g) * days_running w m) |};
     generated_at := now w |}.


(** *** Sample worlds *)

Definition calm : World :=
  {| now := 1700000000%Z;
     timestamp := "20231114_221320";
     today := "2023-11-14";
     research_prospects := fun _ =>
       inr [LeadQualifier.techcorp; LeadQualifier.test_company];
     send_sequences := fun leads =>
       inr {| sent := Some (length leads); responses := Some 0%nat |};
     sync_leads := fun _ => inr tt;
     write_file := fun _ => inr tt |}.

Definition disk_full : exn :=
  Exn "OSError" "[Errno 28] No space left on device".

(** As [calm], a day later, but no file can be written. *)
Definition full_disk : World :=
  {| now := 1700086400%Z;
     timestamp := "20231115_221320";
     today := "2023-11-15";
     research_prospects := research_prospects calm;
     send_sequences := send_sequences calm;
     sync_leads := sync_leads calm;
     write_file := fun _ => inl disk_full |}.

(** A fresh orchestrator with the default configuration, then started as
    campaign ["c1"], then paused. *)
Definition fresh : SalesLeadGenerator := init default_config ∅.
Definition started : SalesLeadGenerator :=
  snd (start_campaign calm (Some "c1"%string) fresh).
Definition paused : SalesLeadGenerator := snd (pause_campaign calm started).

(** *** The rates invariant *)



















(** A cycle in which research finds nothing: nothing researched, and the
    conversion rate is 0. *)
Example empty_cycle_rate :
  let w :=
    {| now := now calm; timestamp := timestamp calm; today := today calm;
       research_prospects := fun _ => inr [];
       send_sequences := send_sequences calm;
       sync_leads := sync_leads calm;
       write_file := write_file calm |} in
  rmap (fun r => (prospects_found r, Qred (result_conversion_rate r)))
    (fst (run_daily_cycle w started))
  = inr (0%Z, 0).
Proof. vm_compute. reflexivity. Qed.

(** *** Stopping *)

Lemma stop_campaign_not_running (w : World) (g : SalesLeadGenerator) :
  is_running g = false -> stop_campaign w g = (inr tt, g).
Proof.
  intros H. unfold stop_campaign, mbind, get. cbn. now rewrite H.
Qed.

Lemma stop_campaign_running (w : World) (g : SalesLeadGenerator)
    (m : CampaignMetrics) :
  is_running g = true ->
  campaign_metrics g = Some m ->
  days_running w m <> 0%Z ->
  daily_lead_target (config g) <> 0%Z ->
  write_file w (report_path (campaign_id m)) = inr tt ->
  stop_campaign w g =
  (inr tt,
   set_campaign_metrics None
     (set_files (<[report_path (campaign_id m) :=
                     ReportFile (final_report_of w g m)]> (files g))
        (set_is_running false g))).
Proof.
  intros Hrun Hm Hdays Htarget Hwrite.
  unfold stop_campaign, _generate_final_report, _save_final_report,
    on_metrics, mbind, get, modify, call, mret.
  cbn. rewrite Hrun. cbn. rewrite Hm. cbn.
  rewrite truediv_nonzero by exact Hdays.
  rewrite (truediv_nonzero _ (daily_lead_target (config g) * days_running w m))
    by lia.
  unfold final_report_of.
  destruct (0 <? emails_sent m)%Z eqn:E; cbn.
  - rewrite truediv_nonzero by lia. cbn. rewrite Hwrite. reflexivity.
  - rewrite Hwrite. reflexivity.
Qed.

(** C9, as the code has it: [stop_campaign] does nothing whenever
    [is_running] is false -- with no campaign, after a stop, and equally on
    a paused campaign.  On a running campaign it clears [is_running],
    writes the final report (duration, the metrics, the derived rates) and
    drops the campaign, provided the report's two divisions are defined
    and the file can be written. *)
Theorem stop_campaign_acts_only_when_running (w : World)
    (g : SalesLeadGenerator) :
  (is_running g = false -> stop_campaign w g = (inr tt, g)) /\
  (forall m,
     is_running g = true ->
     campaign_metrics g = Some m ->
     days_running w m <> 0%Z ->
     daily_lead_target (config g) <> 0%Z ->
     write_file w (report_path (campaign_id m)) = inr tt ->
     exists report g',
       stop_campaign w g = (inr tt, g') /\
       is_running g' = false /\
       campaign_metrics g' = None /\
       campaign_status g' = "no_active_campaign"%string /\
       files g' !! report_path (campaign_id m) = Some (ReportFile report) /\
       report = final_report_of w g m /\
       duration_days report = days_running w m /\
       final_metrics report = m /\
       qualification_rate (performance_summary report) = conversion_rate m).
Proof.
  split; [apply stop_campaign_not_running |].
  intros m Hrun Hm Hdays Htarget Hwrite.
  exists (final_report_of w g m).
  eexists. split; [apply (stop_campaign_running w g m); assumption |].
  cbn. repeat split. apply lookup_insert_eq.
Qed.

Lemma started_value :
  is_running started = true /\
  campaign_metrics started = Some (new "c1" (now calm)) /\
  campaign_status started = "running"%string.
Proof. repeat split. Qed.

Lemma paused_value :
  is_running paused = false /\
  campaign_metrics paused = Some (new "c1" (now calm)) /\
  campaign_status paused = "paused"%string.
Proof. repeat split. Qed.

(** C9 fails on the code for a paused campaign: stopping it changes
    nothing -- the campaign stays paused and no final report is written. *)
Lemma stop_campaign_ignores_paused :
  campaign_status paused = "paused"%string /\
  stop_campaign calm paused = (inr tt, paused) /\
  campaign_status (snd (stop_campaign calm paused)) = "paused"%string /\
  files (snd (stop_campaign calm paused)) !! report_path "c1" = None.
Proof.
  assert (H : stop_campaign calm paused = (inr tt, paused))
    by (apply stop_campaign_not_running; reflexivity).
  rewrite H. repeat split.
Qed.

(** Stopping the running campaign a day after its start: the report
    counts two days, and the campaign is gone. *)
Example stop_campaign_started :
  let w :=
    {| now := now full_disk; timestamp := timestamp full_disk;
       today := today full_disk;
       research_prospects := research_prospects calm;
       send_sequences := send_sequences calm;
       sync_leads := sync_leads calm;
       write_file := write_file calm |} in
  let g := snd (stop_campaign w started) in
  campaign_status g = "no_active_campaign"%string /\
  (files g !! report_path "c1") =
    Some (ReportFile (final_report_of w started (new "c1" (now calm)))) /\
  duration_days (final_report_of w started (new "c1" (now calm))) = 2%Z.
Proof. vm_compute. repeat split. Qed.

(** When the report cannot be written, the exception leaves the campaign
    not running but still there: paused, for good. *)
Example stop_campaign_disk_full :
  fst (stop_campaign full_disk started) = inl disk_full /\
  campaign_status (snd (stop_campaign full_disk started)) = "paused"%string.
Proof. vm_compute. repeat split. Qed.

(** *** Running a cycle *)

Lemma run_daily_cycle_not_running (w : World) (g : SalesLeadGenerator) :
  campaign_status g <> "running"%string ->
  run_daily_cycle w g = (inl InvalidStateError, g).
Proof.
  unfold campaign_status, run_daily_cycle, mbind, get. cbn.
  destruct (campaign_metrics g), (is_running g); cbn; try reflexivity.
  intros H. now contradiction H.
Qed.













(** The cycle of the witness: two prospects researched, none qualified
    (every candidate is skipped), no mail sent. *)
Example calm_cycle :
  rmap (fun r => (prospects_found r, result_leads_qualified r,
                  result_emails_sent r, Qred (result_conversion_rate r)))
    (fst (run_daily_cycle calm started))
  = inr (2%Z, 0%Z, 0%Z, 0).
Proof. vm_compute. reflexivity. Qed.

(** *** A cycle that fails *)

#[local] Arguments update_conversion_rate : simpl never.
#[local] Arguments Analytics.update_metrics : simpl never.

(** C6, as the code has it: when a cycle of a running campaign raises,
    what reaches the caller is the very exception a provider, the
    qualifier or a file write raised (nothing wraps it); the campaign is
    still running; and the counts of the stages that had completed are in
    the metrics. *)
Theorem failed_cycle_keeps_progress (w : World) (g g' : SalesLeadGenerator)
    (m : CampaignMetrics) (e : exn) :
  is_running g = true ->
  campaign_metrics g = Some m ->
  run_daily_cycle w g = (inl e, g') ->
  raised_by_stage w g e /\
  is_running g' = true /\
  campaign_status g' = "running"%string /\
  exists m',
    campaign_metrics g' = Some m' /\
    forall prospects,
      research_prospects w (daily_lead_target (config g)) = inr prospects ->
      prospects_researched m' = (prospects_researched m + len prospects)%Z /\
      forall leads,
        lead_qualifier g (now w) prospects = inr leads ->
        leads_qualified m' = (leads_qualified m + len leads)%Z /\
        forall r,
          email_sequence_enabled (config g) && truthy leads = true ->
          send_sequences w leads = inr r ->
          emails_sent m' =
            (emails_sent m + Z.of_nat (default 0%nat (sent r)))%Z /\
          responses_received m' =
            (responses_received m + Z.of_nat (default 0%nat (responses r)))%Z.
Proof.
  intros Hrun Hm Hcycle.
  unfold run_daily_cycle, mbind, get in Hcycle. cbn in Hcycle.
  rewrite Hrun, Hm in Hcycle. cbn in Hcycle.
  unfold try_catch, cycle_body, _save_campaign_state, on_analytics, mbind,
    get, call, on_metrics, modify, mraise, mret in Hcycle.
  cbn in Hcycle. rewrite Hm in Hcycle.
  destruct (research_prospects w (daily_lead_target (config g)))
    as [e1 | prospects] eqn:E1; cbn in Hcycle.
  all: repeat
    (cbn in Hcycle;
     match type of Hcycle with
     | context [Analytics.update_metrics ?t ?c ?a] =>
         let Hr := fresh "Hr" in
         pose proof (Analytics.update_metrics_returns t c a) as Hr;
         destruct (Analytics.update_metrics t c a) as [? ?];
         cbn in Hr; subst
     | context [update_conversion_rate ?c] =>
         rewrite (update_conversion_rate_value c) in Hcycle
     | context [match ?c with inl _ => _ | inr _ => _ end] =>
         destruct c eqn:?
     | context [match ?c with Some _ => _ | None => _ end] =>
         destruct c eqn:?
     | context [if ?b then _ else _] => destruct b eqn:?
     end).
  all: try (match type of Hcycle with (inr _, _) = _ => discriminate Hcycle end).
  all: injection Hcycle as <- <-.
  all: split; [unfold raised_by_stage; eauto 10 |].
  all: split; [exact Hrun |].
  all: split; [unfold campaign_status; cbn; rewrite ?Hm, ?Hrun; reflexivity |].
  all: eexists; split; [cbn; rewrite ?Hm; reflexivity |].
  all: intros ps Hps; try discriminate Hps; injection Hps as <-.
  all: split; [reflexivity |].
  all: intros leads;
    match goal with
    | H : lead_qualifier _ _ _ = _ |- _ => rewrite H
    end; intros Hleads; try discriminate Hleads; injection Hleads as <-.
  all: split; [reflexivity |].
  all: intros r Hcond;
    try congruence;
    match goal with
    | H : send_sequences _ _ = _ |- _ => rewrite H
    end; intros Hsend; try discriminate Hsend; injection Hsend as <-.
  all: split; reflexivity.
Qed.

(** C6 fails on the code in how the failure is reported: with the disk
    full the cycle raises the [OSError] of the write itself, not an error
    of class [CycleError]; the two researched prospects stay counted and
    the campaign stays running. *)
Lemma failed_cycle_raises_the_cause :
  fst (run_daily_cycle full_disk started) = inl disk_full /\
  exn_class disk_full = "OSError"%string /\
  ~ (exists msg,
       fst (run_daily_cycle full_disk started) = inl (Exn "CycleError" msg)) /\
  prospects_researched <$>
    campaign_metrics (snd (run_daily_cycle full_disk started)) = Some 2%Z /\
  campaign_status (snd (run_daily_cycle full_disk started)) = "running"%string.
Proof.
  assert (H : fst (run_daily_cycle full_disk started) = inl disk_full)
    by (vm_compute; reflexivity).
  split; [exact H |]. split; [reflexivity |]. split.
  - rewrite H. intros [msg Hmsg]. discriminate Hmsg.
  - split; vm_compute; reflexivity.
Qed.

Lemma failed_cycle_keeps_progress_witness :
  raised_by_stage full_disk started disk_full /\
  is_running (snd (run_daily_cycle full_disk started)) = true /\
  campaign_status (snd (run_daily_cycle full_disk started)) = "running"%string /\
  exists m',
    campaign_metrics (snd (run_daily_cycle full_disk started)) = Some m' /\
    forall prospects,
      research_prospects full_disk (daily_lead_target (config started))
        = inr prospects ->
      prospects_researched m' =
        (prospects_researched (new "c1" (now calm)) + len prospects)%Z /\
      forall leads,
        lead_qualifier started (now full_disk) prospects = inr leads ->
        leads_qualified m' =
          (leads_qualified (new "c1" (now calm)) + len leads)%Z /\
        forall r,
          email_sequence_enabled (config started) && truthy leads = true ->
          send_sequences full_disk leads = inr r ->
          emails_sent m' =
            (emails_sent (new "c1" (now calm))
             + Z.of_nat (default 0%nat (sent r)))%Z /\
          responses_received m' =
            (responses_received (new "c1" (now calm))
             + Z.of_nat (default 0%nat (responses r)))%Z.
Proof.
  apply (failed_cycle_keeps_progress full_disk started
           (snd (run_daily_cycle full_disk started))
           (new "c1" (now calm)) disk_full).
  - reflexivity.
  - reflexivity.
  - vm_compute. reflexivity.
Defined.

End Generator.

(** ** lead_qualifier.py: what a score is reported with

    The texts that [_score_lead] attaches to a score, the estimates that
    [qualify_leads] attaches to a lead, and what the class returns as it is
    written. *)

Module Explanation.
Import LeadQualifier.

(** [str(n)] on an [int]. *)
Definition str (n : Z) : string := NilZero.string_of_int (Z.to_int n).

Definition _generate_recommendations (cs : ComponentScores)
  : list string * list string :=
  let recommendations := [] in
  let next_steps := [] in
  let '(recommendations, next_steps) :=
    if Qltb (budget_alignment cs) 0.6
    then (recommendations
            ++ ["Focus on cost-effective solutions and ROI demonstrations"%string],
          next_steps
            ++ ["Prepare detailed pricing proposals and ROI calculations"%string])
    else (recommendations, next_steps) in
  let '(recommendations, next_steps) :=
    if Qltb (authority_level cs) 0.5
    then (recommendations
            ++ ["Identify and connect with key decision-makers"%string],
          next_steps
            ++ ["Research executive contacts and LinkedIn connections"%string])
    else (recommendations, next_steps) in
  let '(recommendations, next_steps) :=
    if Qltb 0.7 (need_intensity cs)
    then (recommendations
            ++ ["Emphasize problem-solution fit in communications"%string],
          next_steps
            ++ ["Prepare case studies addressing similar challenges"%string])
    else (recommendations, next_steps) in
  let '(recommendations, next_steps) :=
    if Qltb 0.7 (timing_urgency cs)
    then (recommendations
            ++ ["Accelerate sales process with immediate value props"%string],
          next_steps
            ++ ["Schedule discovery calls within 48 hours"%string])
    else (recommendations, next_steps) in
  let '(recommendations, next_steps) :=
    if forallb (fun kv => Qltb 0.7 (snd kv)) (items cs)
    then (recommendations
            ++ ["High-potential lead - prioritize immediate outreach"%string],
          next_steps
            ++ ["Send personalized introduction email today"%string])
    else (recommendations, next_steps) in
  (recommendations, next_steps).

Definition _identify_disqualifying_factors (config : LeadGenerationConfig)
    (cs : ComponentScores) (prospect_data : ProspectData) : list string :=
  let factors := [] in
  let factors :=
    if Qltb (budget_alignment cs) 0.3
    then factors ++ ["Insufficient budget capacity for our solutions"%string]
    else factors in
  let factors :=
    if Qltb (company_fit cs) 0.3
    then factors ++ ["Company profile doesn't match target criteria"%string]
    else factors in
  let factors :=
    if Qltb (authority_level cs) 0.2
    then factors ++ ["Unable to identify decision-making contacts"%string]
    else factors in
  let company_size := default 0%Z (company_size prospect_data) in
  let factors :=
    if (company_size <? company_size_minimum (criteria config))%Z
    then factors
           ++ [String.append "Company size ("
                 (String.append (str company_size)
                    ") below minimum threshold")]
    else factors in
  factors.


(** *** Ranges of the component scores *)

Lemma fold_left_Qplus_between (lo hi : Q) (xs : list Q) (acc : Q) :
  Forall (fun x => lo <= x /\ x <= hi) xs ->
  acc + lo * inject_Z (Z.of_nat (length xs)) <= fold_left Qplus xs acc /\
  fold_left Qplus xs acc <= acc + hi * inject_Z (Z.of_nat (length xs)).
Proof.
  intros H. revert acc.
  induction H as [| x xs [Hx0 Hx1] _ IH]; intros acc; cbn [fold_left length].
  - change (inject_Z (Z.of_nat 0)) with 0. split; lra.
  - destruct (IH (acc + x)) as [IH1 IH2].
    rewrite Nat2Z.inj_succ, <- Z.add_1_r, inject_Z_plus.
    change (inject_Z 1) with 1. split; lra.
Qed.

Lemma mean_between (lo hi : Q) (x : Q) (xs : list Q) :
  Forall (fun x => lo <= x /\ x <= hi) (x :: xs) ->
  lo <= mean (x :: xs) /\ mean (x :: xs) <= hi.
Proof.
  intros H. unfold mean.
  destruct (fold_left_Qplus_between lo hi (x :: xs) 0 H) as [H0 H1].
  assert (Hn : 0 < inject_Z (Z.of_nat (length (x :: xs)))).
  { change 0 with (inject_Z 0). rewrite <- Zlt_Qlt. cbn [length]. lia. }
  split.
  - apply Qle_shift_div_l; [exact Hn | lra].
  - apply Qle_shift_div_r; [exact Hn | lra].
Qed.

Ltac closed_between :=
  split; apply Qle_bool_iff; vm_compute; reflexivity.

Lemma authority_of_title_between (contact : Contact) :
  0.3 <= authority_of_title contact /\ authority_of_title contact <= 1.
Proof. unfold authority_of_title. split_ifs; closed_between. Qed.

Lemma _score_budget_alignment_between (data : ProspectData) :
  0.3 <= _score_budget_alignment data /\ _score_budget_alignment data <= 1.
Proof. unfold _score_budget_alignment. split_ifs; closed_between. Qed.

Lemma _score_authority_level_between (data : ProspectData) :
  0.2 <= _score_authority_level data /\ _score_authority_level data <= 1.
Proof.
  unfold _score_authority_level.
  destruct (default [] (key_contacts data)) as [| c cs]; [closed_between |].
  destruct (mean_between 0.3 1 (authority_of_title c)
              (map authority_of_title cs)) as [H0 H1].
  - apply Forall_forall. intros q Hq.
    change (authority_of_title c :: map authority_of_title cs)
      with (map authority_of_title (c :: cs)) in Hq.
    apply list_elem_of_fmap in Hq as (c' & -> & _).
    apply authority_of_title_between.
  - cbn [map]. split; lra.
Qed.






(** Both ends of the range are reached. *)
Example overall_score_lowest :
  rmap Qred
    (overall_score_of
       (component_scores_of
          {| target_industry := "technology";
             company_size_range := (100, 150)%Z;
             geographic_focus := ["United States"%string];
             budget_minimum := 50000;
             daily_lead_target := 25;
             max_concurrent_tasks := 5;
             email_sequence_enabled := true;
             crm_integration := false;
             analytics_enabled := true |}
          {| industry := Some "retail"%string;
             company_size := Some 160%Z;
             location := Some "Lyon, France"%string;
             revenue_range := Some "$1M-$5M"%string;
             key_contacts := None;
             recent_news := None;
             technologies := None;
             social_profiles := None;
             website := None;
             description := None |}))
  = inr (Qred 0.305).
Proof. vm_compute. reflexivity. Qed.

Example overall_score_highest :
  rmap Qred
    (overall_score_of
       (component_scores_of default_config
          {| industry := Some "technology"%string;
             company_size := Some 600%Z;
             location := Some "Austin, United States"%string;
             revenue_range := Some "$100M+"%string;
             key_contacts := Some [ {| title := Some "CEO"%string |} ];
             recent_news := Some ["Urgent problem with scaling"%string];
             technologies := Some ["AWS"%string];
             social_profiles :=
               Some [ ("linkedin", "l"); ("twitter", "t"); ("facebook", "f") ]%string;
             website := Some "https://example.com"%string;
             description :=
               Some (String.concat ""
                       (repeat "ten chars."%string 11)) |}))
  = inr (Qred 0.99).
Proof. vm_compute. reflexivity. Qed.

(** *** Disqualifying factors *)

Lemma Qltb_lt (a b : Q) : Qltb a b = true <-> a < b.
Proof.
  unfold Qltb.
  destruct (Qle_bool_cases b a) as [[E H] | [E H]]; rewrite E; cbn [negb];
    split; intros; try discriminate; try reflexivity; try assumption.
  exfalso. lra.
Qed.

Lemma Qltb_ge (a b : Q) : Qltb a b = false <-> b <= a.
Proof.
  unfold Qltb.
  destruct (Qle_bool_cases b a) as [[E H] | [E H]]; rewrite E; cbn [negb];
    split; intros; try discriminate; try reflexivity; try assumption.
  exfalso. lra.
Qed.

(** The three tests of [_score_company_fit]. *)
Definition industry_matches (config : LeadGenerationConfig)
    (data : ProspectData) : bool :=
  bool_decide (industry data = Some (target_industry config)).

Definition size_in_range (config : LeadGenerationConfig)
    (data : ProspectData) : bool :=
  ((company_size_minimum (criteria config) <=? default 0%Z (company_size data))
   && (default 0%Z (company_size data)
       <=? company_size_maximum (criteria config)))%Z.

Definition region_matches (config : LeadGenerationConfig)
    (data : ProspectData) : bool :=
  existsb
    (fun region =>
       contains (lower region) (lower (default ""%string (location data))))
    (geographic_focus config).

Lemma company_fit_below_threshold (config : LeadGenerationConfig)
    (data : ProspectData) :
  Qltb (_score_company_fit config data) 0.3 =
  negb (industry_matches config data) && negb (size_in_range config data)
  && negb (region_matches config data).
Proof.
  unfold _score_company_fit, industry_matches, size_in_range, region_matches.
  destruct (bool_decide (industry data = Some (target_industry config)));
    destruct (existsb _ (geographic_focus config));
    destruct (_ && _)%bool;
    try destruct (default 0%Z (company_size data)
                  <? company_size_minimum (criteria config))%Z;
    vm_compute; reflexivity.
Qed.

Ltac absurd_in H :=
  cbn [In String.append] in H;
  repeat (destruct H as [H | H]; [discriminate H |]);
  destruct H.

(** X2: on the scores the scorers compute for a prospect,
    [_identify_disqualifying_factors] never reports an insufficient budget
    nor missing decision makers, since those scores cannot fall under the
    0.3 and 0.2 it tests for; it reports a profile mismatch exactly when
    the prospect fails all three of the industry, size and region tests,
    and the company size exactly when it is below the configured minimum.
    At most two factors are ever reported. *)
Theorem disqualifying_factors_of_scored_prospect
    (config : LeadGenerationConfig) (data : ProspectData) :
  let factors :=
    _identify_disqualifying_factors config (component_scores_of config data)
      data in
  ~ In "Insufficient budget capacity for our solutions"%string factors /\
  ~ In "Unable to identify decision-making contacts"%string factors /\
  (In "Company profile doesn't match target criteria"%string factors <->
   industry_matches config data = false /\
   size_in_range config data = false /\
   region_matches config data = false) /\
  (In (String.append "Company size ("
         (String.append (str (default 0%Z (company_size data)))
            ") below minimum threshold")) factors <->
   (default 0 (company_size data) < fst (company_size_range config))%Z) /\
  (length factors <= 2)%nat.
Proof.
  cbv zeta. unfold _identify_disqualifying_factors.
  cbn [component_scores_of company_fit budget_alignment authority_level
       criteria company_size_minimum].
  assert (Hb : Qltb (_score_budget_alignment data) 0.3 = false).
  { apply Qltb_ge. apply _score_budget_alignment_between. }
  assert (Ha : Qltb (_score_authority_level data) 0.2 = false).
  { apply Qltb_ge. apply _score_authority_level_between. }
  rewrite Hb, Ha, company_fit_below_threshold.
  destruct (industry_matches config data), (size_in_range config data),
           (region_matches config data);
    cbn [negb andb app];
    destruct (Z.ltb_spec (default 0%Z (company_size data))
                (fst (company_size_range config))) as [Hlt | Hge];
    cbn [app length];
    ((split; [| split; [| split; [| split]]]);
    [ intros H; absurd_in H
    | intros H; absurd_in H
    | split;
      [ first [ solve [intros _; repeat split; reflexivity]
              | intros H; absurd_in H ]
      | first [ solve [intros (? & ? & ?); discriminate]
              | intros _; cbn [In]; auto ] ]
    | split;
      [ first [ solve [intros _; assumption] | intros H; absurd_in H ]
      | first [ solve [intros; lia] | intros _; cbn [In]; auto ] ]
    | lia ]).
Qed.

(** *** Recommendations *)

Lemma Forall_items_above (cs : ComponentScores) :
  forallb (fun kv => Qltb 0.7 (snd kv)) (items cs) = true <->
  0.7 < company_fit cs /\ 0.7 < budget_alignment cs /\
  0.7 < authority_level cs /\ 0.7 < need_intensity cs /\
  0.7 < timing_urgency cs /\ 0.7 < engagement_potential cs.
Proof.
  unfold items. cbn [forallb snd].
  rewrite !andb_true_iff, !Qltb_lt. tauto.
Qed.

(** X3: [_generate_recommendations] returns as many next steps as
    recommendations, never more than four of each; the high-potential
    advice is given exactly when all six scores exceed 0.7, and then the
    lists are the need, the timing and the high-potential entries, in that
    order. *)
Theorem recommendations_pair_with_next_steps (cs : ComponentScores) :
  let recommendations := fst (_generate_recommendations cs) in
  let next_steps := snd (_generate_recommendations cs) in
  length recommendations = length next_steps /\
  (length recommendations <= 4)%nat /\
  (In "High-potential lead - prioritize immediate outreach"%string
     recommendations <->
   0.7 < company_fit cs /\ 0.7 < budget_alignment cs /\
   0.7 < authority_level cs /\ 0.7 < need_intensity cs /\
   0.7 < timing_urgency cs /\ 0.7 < engagement_potential cs) /\
  (In "High-potential lead - prioritize immediate outreach"%string
     recommendations ->
   recommendations =
     [ "Emphasize problem-solution fit in communications";
       "Accelerate sales process with immediate value props";
       "High-potential lead - prioritize immediate outreach" ]%string /\
   next_steps =
     [ "Prepare case studies addressing similar challenges";
       "Schedule discovery calls within 48 hours";
       "Send personalized introduction email today" ]%string).
Proof.
  cbv zeta. unfold _generate_recommendations.
  rewrite <- Forall_items_above.
  destruct (forallb (fun kv => Qltb 0.7 (snd kv)) (items cs)) eqn:Hall.
  - apply Forall_items_above in Hall as (_ & Hb & Ha & Hn & Ht & _).
    assert (Eb : Qltb (budget_alignment cs) 0.6 = false)
      by (apply Qltb_ge; lra).
    assert (Ea : Qltb (authority_level cs) 0.5 = false)
      by (apply Qltb_ge; lra).
    apply Qltb_lt in Hn, Ht. rewrite Eb, Ea, Hn, Ht.
    cbn [fst snd app length].
    split; [reflexivity | split; [lia | split; [split |]]].
    + intros _. reflexivity.
    + intros _. cbn [In]. auto.
    + intros _. split; reflexivity.
  - destruct (Qltb (budget_alignment cs) 0.6), (Qltb (authority_level cs) 0.5),
             (Qltb 0.7 (need_intensity cs)), (Qltb 0.7 (timing_urgency cs));
      cbn [fst snd app length];
      (split; [reflexivity | split; [lia | split; [split |]]]);
      first [ discriminate | intros H; absurd_in H ].
Qed.

(** *** The estimates attached to a lead *)







(** *** The class as it is written *)

(** X7: as the class is written, no prospect is ever qualified.  The
    [LeadScore(...)] call of [_score_lead] leaves out the required
    [scored_at] and the [QualifiedLead(...)] call of [qualify_leads] the
    required [qualification_date]; each raises [TypeError], the loop skips
    the prospect, and [qualify_leads] returns the empty list whatever it is
    given. *)
Theorem qualify_leads_as_written_returns_nothing
    (config : LeadGenerationConfig) (now : datetime)
    (prospects : list Prospect) :
  (forall prospect,
     exists msg, _score_lead config now prospect = inl (TypeError msg)) /\
  (forall prospect score,
     exists msg, new_qualified_lead now prospect score = inl (TypeError msg)) /\
  (forall prospect,
     contribution (_score_lead config now) (new_qualified_lead now) prospect
     = []) /\
  qualify_leads config now prospects = inr [].
Proof.
  split; [| split; [| split]].
  - intros prospect. eexists. apply _score_lead_raises.
  - intros prospect score. eexists. reflexivity.
  - intros prospect.
    apply (contribution_raise _ _ _ _ (_score_lead_raises config now prospect)).
  - apply qualify_leads_returns_nothing.
Qed.

End Explanation.



(** ** lead_qualifier.py: [re_score_leads] as a whole *)

Module Rescoring.
Import LeadQualifier.

(** [re_score_leads] called [n] times in a row, each call on the list the
    previous one returned. *)
Fixpoint re_score_times (n : nat) (h : store) (leads : list nat)
  : store * list nat :=
  match n with
  | O => (h, leads)
  | S n' =>
      let '(h1, leads1) := re_score_leads h leads in
      re_score_times n' h1 leads1
  end.


Lemma insert_keeps_refs (h : store) (leads : list nat) (r0 : nat)
    (lead : QualifiedLead) :
  (forall r, In r leads -> is_Some (h !! r)) ->
  forall r, In r leads -> is_Some (<[r0 := lead]> h !! r).
Proof.
  intros H r Hin. apply lookup_lt_is_Some. rewrite length_insert.
  apply lookup_lt_is_Some, H, Hin.
Qed.

(** With every reference naming a lead, the first loop appends them all. *)
Lemma rescore_loop_all (leads : list nat) (h : store) (acc : list nat) :
  (forall r, In r leads -> is_Some (h !! r)) ->
  snd (rescore_loop h leads acc) = acc ++ leads.
Proof.
  revert h acc. induction leads as [| r0 rest IH]; intros h acc Hall; cbn.
  - now rewrite app_nil_r.
  - destruct (Hall r0 (or_introl eq_refl)) as [lead ->].
    rewrite IH, <- app_assoc; [reflexivity |].
    apply insert_keeps_refs. intros r Hr. apply Hall. now right.
Qed.

Lemma rank_loop_other (leads : list nat) (h : store) (i : Z) (r : nat) :
  ~ In r leads -> rank_loop h leads i !! r = h !! r.
Proof.
  revert h i. induction leads as [| r0 rest IH]; intros h i Hnin; cbn;
    [reflexivity |].
  assert (r0 <> r /\ ~ In r rest) as [Hne Hrest] by (cbn in Hnin; tauto).
  destruct (h !! r0); rewrite IH by exact Hrest;
    [now apply list_lookup_insert_ne | reflexivity].
Qed.

Lemma rank_loop_length (leads : list nat) (h : store) (i : Z) :
  length (rank_loop h leads i) = length h.
Proof.
  revert h i. induction leads as [| r0 rest IH]; intros h i; cbn;
    [reflexivity |].
  destruct (h !! r0); rewrite IH, ?length_insert; reflexivity.
Qed.

(** The lead at position [k] of a list of distinct references is given
    rank [i + k]. *)
Lemma rank_loop_ranks (leads : list nat) (h : store) (i : Z) (k r : nat) :
  NoDup leads ->
  (forall r, In r leads -> is_Some (h !! r)) ->
  leads !! k = Some r ->
  priority_rank <$> (rank_loop h leads i !! r) = Some (i + Z.of_nat k)%Z.
Proof.
  revert h i k. induction leads as [| r0 rest IH]; intros h i k Hnd Hall Hk;
    [discriminate |].
  apply NoDup_cons in Hnd as [Hnin Hnd]. cbn [rank_loop].
  destruct (Hall r0 (or_introl eq_refl)) as [lead0 E0]. rewrite E0.
  destruct k as [| k]; cbn in Hk.
  - injection Hk as <-.
    rewrite rank_loop_other by now rewrite <- list_elem_of_In.
    rewrite list_lookup_insert_eq by (eapply lookup_lt_Some, E0).
    cbn. f_equal. lia.
  - rewrite (IH _ _ k Hnd); [f_equal; lia | | exact Hk].
    apply insert_keeps_refs. intros r' Hr'. apply Hall. now right.
Qed.

Lemma rank_loop_key (leads : list nat) (h : store) (i : Z) (r : nat) :
  key_in (rank_loop h leads i) r = key_in h r.
Proof.
  unfold key_in.
  pose proof (rank_loop_unrank leads h i r) as H.
  destruct (rank_loop h leads i !! r) as [a |], (h !! r) as [b |];
    try discriminate; [| reflexivity].
  apply (inj Some) in H.
  change (score_key (unrank a) = score_key (unrank b)). now rewrite H.
Qed.

Lemma StronglySorted_key_ext {A : Type} (key key' : A -> Q) (l : list A) :
  (forall a, key' a = key a) ->
  StronglySorted (fun a b => key b <= key a) l ->
  StronglySorted (fun a b => key' b <= key' a) l.
Proof.
  intros Hext. induction 1 as [| a l Hs IH Hall]; constructor; [exact IH |].
  eapply List.Forall_impl; [| exact Hall].
  cbn. intros b Hb. now rewrite !Hext.
Qed.

(** X8: handed distinct leads, [re_score_leads] returns all of them, in
    descending order of their new scores, leads of equal new score in the
    order they were handed in, with the ranks 1, 2, ... down the list;
    leads that were not handed in are left as they were. *)
Theorem re_score_leads_sorted_ranked (h : store) (leads : list nat) :
  NoDup leads ->
  (forall r, In r leads -> is_Some (h !! r)) ->
  let h' := fst (re_score_leads h leads) in
  let out := snd (re_score_leads h leads) in
  Permutation out leads /\
  StronglySorted (fun a b => key_in h' b <= key_in h' a) out /\
  (forall v,
     List.filter (fun r => Qeq_bool (key_in h' r) v) out =
     List.filter (fun r => Qeq_bool (key_in h' r) v) leads) /\
  (forall k r, out !! k = Some r ->
     priority_rank <$> (h' !! r) = Some (Z.of_nat k + 1)%Z) /\
  length h' = length h /\
  (forall r, ~ In r leads -> h' !! r = h !! r).
Proof.
  intros Hnd Hall. cbv zeta. unfold re_score_leads.
  pose proof (rescore_loop_all leads h [] Hall) as Hrefs.
  pose proof (rescore_loop_length leads h []) as Hlen.
  pose proof (fun r => rescore_loop_other leads h [] r) as Hother.
  destruct (rescore_loop h leads []) as [h1 re_scored].
  cbn [fst snd app] in *. subst re_scored.
  set (sorted := sort_desc (key_in h1) leads).
  assert (Hperm : Permutation sorted leads) by apply sort_desc_perm.
  assert (Hkey : forall r, key_in (rank_loop h1 sorted 1) r = key_in h1 r)
    by (intros r; apply rank_loop_key).
  split; [exact Hperm |]. split; [| split; [| split; [| split]]].
  - apply (StronglySorted_key_ext (key_in h1)); [exact Hkey |].
    apply sort_desc_sorted.
  - intros v.
    rewrite (List.filter_ext _ (fun r => Qeq_bool (key_in h1 r) v))
      by (intros r; now rewrite Hkey).
    rewrite (List.filter_ext (fun r => Qeq_bool (key_in (rank_loop h1 sorted 1) r) v)
               (fun r => Qeq_bool (key_in h1 r) v))
      by (intros r; now rewrite Hkey).
    apply (sort_desc_stable (key_in h1)).
  - intros k r Hk.
    rewrite (rank_loop_ranks sorted h1 1 k r); [f_equal; lia | | | exact Hk].
    + now rewrite Hperm.
    + intros r' Hr'. apply lookup_lt_is_Some. rewrite Hlen.
      apply lookup_lt_is_Some, Hall.
      eapply Permutation_in; [exact Hperm | exact Hr'].
  - now rewrite rank_loop_length.
  - intros r Hnin. rewrite rank_loop_other, Hother; [reflexivity | exact Hnin |].
    intros Hin. apply Hnin. eapply Permutation_in; [exact Hperm | exact Hin].
Qed.

Lemma re_score_leads_sorted_ranked_witness :
  let h := [warm_lead; hot_lead] in
  let leads := [0%nat; 1%nat] in
  let h' := fst (re_score_leads h leads) in
  let out := snd (re_score_leads h leads) in
  Permutation out leads /\
  StronglySorted (fun a b => key_in h' b <= key_in h' a) out /\
  (forall v,
     List.filter (fun r => Qeq_bool (key_in h' r) v) out =
     List.filter (fun r => Qeq_bool (key_in h' r) v) leads) /\
  (forall k r, out !! k = Some r ->
     priority_rank <$> (h' !! r) = Some (Z.of_nat k + 1)%Z) /\
  length h' = length h /\
  (forall r, ~ In r leads -> h' !! r = h !! r).
Proof.
  apply (re_score_leads_sorted_ranked [warm_lead; hot_lead] [0%nat; 1%nat]).
  - apply (bool_decide_unpack _). vm_compute. exact I.
  - intros r [<- | [<- | []]]; eexists; reflexivity.
Defined.

(** *** Re-scoring again and again *)








(** Sixteen rounds on the sample leads: the Warm one ends Cold at 0, the
    Hot one Hot at 1. *)
Example re_score_times_run :
  map (fun lead => (qualification_level (lead_score lead),
                    Qred (score_key lead)))
    (fst (re_score_times 16 [warm_lead; hot_lead] [0%nat; 1%nat])) =
  [ (COLD, Qred 0); (HOT, Qred 1) ].
Proof. vm_compute. reflexivity. Qed.

End Rescoring.



(** ** lead_generator.py: the life of a campaign

    [get_campaign_status], [cleanup] and [run_daily_campaign], and how the
    methods of the orchestrator follow one another. *)

Module Lifecycle.
Import Campaign Generator.

(** [a / b] with [a] a [float] and [b] an [int]. *)
Definition truediv_float (a : Q) (b : Z) : result Q :=
  if (b =? 0)%Z
  then raise (Exn "ZeroDivisionError" "float division by zero")
  else ret (a / inject_Z b).

(** The dict [get_campaign_status] returns for a campaign. *)
Record Status : Type := {
  status_campaign_id : string;
  status : string;
  status_start_date : datetime;
  status_days_running : Z;
  status_metrics : CampaignMetrics;
  daily_average : Q;
  status_target_achievement : Q;
  status_last_updated : datetime
}.

(** What [get_campaign_status] returns: [{'status': 'no_active_campaign'}]
    or the dict of the campaign. *)
Inductive StatusReport : Type :=
| NoActiveCampaign
| ActiveCampaign (s : Status).

(** [report['status']] *)
Definition status_entry (report : StatusReport) : string :=
  match report with
  | NoActiveCampaign => "no_active_campaign"
  | ActiveCampaign s => status s
  end.

Definition get_campaign_status (w : World)
  : M SalesLeadGenerator StatusReport :=
  (let! g := get in
   match campaign_metrics g with
   | None => mret NoActiveCampaign
   | Some m =>
       let days := days_running w m in
       let! average := call (truediv (prospects_researched m) days) in
       let! achievement :=
         call (truediv_float average (daily_lead_target (config g))) in
       mret (ActiveCampaign
         {| status_campaign_id := campaign_id m;
            status := if is_running g then "running" else "paused";
            status_start_date := start_date m;
            status_days_running := days;
            status_metrics := m;
            daily_average := average;
            status_target_achievement := achievement;
            status_last_updated := now w |})
   end)%method.

(** [cleanup]; shutting the executor down touches nothing modelled here. *)
Definition cleanup (w : World) : M SalesLeadGenerator unit :=
  (let! g := get in
   if is_running g then stop_campaign w else mret tt)%method.

(** [try: body finally: final] *)
Definition try_finally {S A : Type} (body : M S A) (final : M S unit)
  : M S A :=
  fun s =>
    let '(r, s') := body s in
    match final s' with
    | (inl e, s'') => (inl e, s'')
    | (inr _, s'') => (r, s'')
    end.

(** [run_daily_campaign]: the four calls each meet the world of their
    moment. *)
Definition run_daily_campaign (cfg : LeadGenerationConfig)
    (existing : gmap string File) (w_start w_cycle w_stop w_cleanup : World)
  : result CycleResults * SalesLeadGenerator :=
  try_finally
    (let! _ := start_campaign w_start None in
     let! results := run_daily_cycle w_cycle in
     let! _ := stop_campaign w_stop in
     mret results)%method
    (cleanup w_cleanup)
    (init cfg existing).

(** The name [start_campaign] gives the campaign:
    [campaign_id or f"campaign_{timestamp}"]. *)
Definition chosen_id (w : World) (id : option string) : string :=
  match id with
  | Some s => if String.eqb s "" then String.append "campaign_" (timestamp w)
              else s
  | None => String.append "campaign_" (timestamp w)
  end.

(** The state file [_save_campaign_state] writes in [w] for [g]. *)
Definition state_file_of (w : World) (g : SalesLeadGenerator)
    (m : CampaignMetrics) : File :=
  StateFile {| state_campaign_metrics := m;
               state_is_running := is_running g;
               state_config := config g;
               last_updated := now w |}.

(** *** Starting *)

Lemma start_campaign_running (w : World) (id : option string)
    (g : SalesLeadGenerator) :
  is_running g = true ->
  start_campaign w id g =
  (inl (RuntimeError "Campaign already running"), g).
Proof.
  intros H. unfold start_campaign, mbind, get. cbn. now rewrite H.
Qed.

Lemma start_campaign_value (w : World) (id : option string)
    (g : SalesLeadGenerator) :
  is_running g = false ->
  let name := chosen_id w id in
  let g1 :=
    set_is_running true
      (set_campaign_metrics (Some (new name (now w))) g) in
  start_campaign w id g =
  match write_file w (state_path name) with
  | inl e => (inl e, g1)
  | inr _ =>
      (inr name,
       set_files (<[state_path name := state_file_of w g1 (new name (now w))]>
                    (files g)) g1)
  end.
Proof.
  intros Hrun.
  unfold start_campaign, _save_campaign_state, mbind, get, modify, call, mret.
  cbn. rewrite Hrun. cbn. fold (chosen_id w id).
  now destruct (write_file w (state_path (chosen_id w id))).
Qed.

(** X10: [start_campaign] on an orchestrator that is not running sets the
    new, zeroed campaign and the running flag before it saves the state:
    whether it returns the campaign's name or raises the error of the
    write, the campaign is started, any campaign held before (a paused
    one) is replaced with nothing but the new state file written, and
    every further [start_campaign] raises "Campaign already running" and
    changes nothing. *)
Theorem start_campaign_commits_before_saving (w : World) (id : option string)
    (g : SalesLeadGenerator) :
  is_running g = false ->
  let name := chosen_id w id in
  let g1 := snd (start_campaign w id g) in
  (fst (start_campaign w id g) = inr name \/
   exists e, write_file w (state_path name) = inl e /\
             fst (start_campaign w id g) = inl e /\ files g1 = files g) /\
  is_running g1 = true /\
  campaign_metrics g1 = Some (new name (now w)) /\
  (forall path, path <> state_path name -> files g1 !! path = files g !! path) /\
  (forall w' id',
     start_campaign w' id' g1 =
     (inl (RuntimeError "Campaign already running"), g1)).
Proof.
  intros Hrun. cbv zeta. rewrite (start_campaign_value w id g Hrun). cbv zeta.
  destruct (write_file w (state_path (chosen_id w id))) as [e | []] eqn:Hw;
    cbn [fst snd].
  - split; [right; exists e; auto |]. repeat split; auto.
  - split; [left; reflexivity |]. split; [reflexivity |].
    split; [reflexivity |]. split.
    + intros path Hpath. cbn. now apply lookup_insert_ne.
    + intros w' id'. now apply start_campaign_running.
Qed.

Lemma start_campaign_commits_before_saving_witness :
  let name := chosen_id full_disk None in
  let g1 := snd (start_campaign full_disk None paused) in
  (fst (start_campaign full_disk None paused) = inr name \/
   exists e, write_file full_disk (state_path name) = inl e /\
             fst (start_campaign full_disk None paused) = inl e /\
             files g1 = files paused) /\
  is_running g1 = true /\
  campaign_metrics g1 = Some (new name (now full_disk)) /\
  (forall path, path <> state_path name ->
     files g1 !! path = files paused !! path) /\
  (forall w' id',
     start_campaign w' id' g1 =
     (inl (RuntimeError "Campaign already running"), g1)).
Proof.
  apply (start_campaign_commits_before_saving full_disk None paused).
  reflexivity.
Defined.

(** *** Pausing and resuming *)

Lemma save_campaign_state_value (w : World) (g : SalesLeadGenerator) :
  _save_campaign_state w g =
  match campaign_metrics g with
  | None => (inr tt, g)
  | Some m =>
      match write_file w (state_path (campaign_id m)) with
      | inl e => (inl e, g)
      | inr _ =>
          (inr tt,
           set_files (<[state_path (campaign_id m) := state_file_of w g m]>
                        (files g)) g)
      end
  end.
Proof.
  unfold _save_campaign_state, mbind, get, modify, call, mret. cbn.
  destruct (campaign_metrics g) as [m |]; [| reflexivity].
  now destruct (write_file w (state_path (campaign_id m))).
Qed.

Lemma pause_campaign_value (w : World) (g : SalesLeadGenerator) :
  pause_campaign w g =
  if is_running g then _save_campaign_state w (set_is_running false g)
  else (inr tt, g).
Proof.
  unfold pause_campaign, mbind, get, modify. cbn. now destruct (is_running g).
Qed.

Lemma resume_campaign_value (w : World) (g : SalesLeadGenerator) :
  resume_campaign w g =
  if is_running g then (inr tt, g)
  else _save_campaign_state w (set_is_running true g).
Proof.
  unfold resume_campaign, mbind, get, modify. cbn. now destruct (is_running g).
Qed.

(** X11: pausing a running campaign and resuming it, with the state file
    writable, brings the orchestrator back to where it was: running, with
    the same metrics, tracker and configuration, and no file touched but
    the campaign's state file, which records the flag of the moment.  In
    between the campaign is paused: pausing again does nothing and a cycle
    raises the no-active-campaign error. *)
Theorem pause_resume_round_trip (w1 w2 : World) (g : SalesLeadGenerator)
    (m : CampaignMetrics) :
  is_running g = true ->
  campaign_metrics g = Some m ->
  write_file w1 (state_path (campaign_id m)) = inr tt ->
  write_file w2 (state_path (campaign_id m)) = inr tt ->
  let g1 := snd (pause_campaign w1 g) in
  let g2 := snd (resume_campaign w2 g1) in
  fst (pause_campaign w1 g) = inr tt /\
  campaign_status g1 = "paused"%string /\
  files g1 !! state_path (campaign_id m) = Some (state_file_of w1 g1 m) /\
  (forall w, pause_campaign w g1 = (inr tt, g1)) /\
  (forall w, run_daily_cycle w g1 = (inl InvalidStateError, g1)) /\
  fst (resume_campaign w2 g1) = inr tt /\
  is_running g2 = true /\
  campaign_status g2 = "running"%string /\
  campaign_metrics g2 = Some m /\
  analytics g2 = analytics g /\
  config g2 = config g /\
  files g2 !! state_path (campaign_id m) = Some (state_file_of w2 g2 m) /\
  (forall path, path <> state_path (campaign_id m) ->
     files g2 !! path = files g !! path).
Proof.
  intros Hrun Hm Hw1 Hw2. cbv zeta.
  rewrite pause_campaign_value, Hrun, save_campaign_state_value.
  cbn [campaign_metrics set_is_running]. rewrite Hm, Hw1. cbn [fst snd].
  rewrite resume_campaign_value. cbn [is_running set_files set_is_running].
  rewrite save_campaign_state_value.
  cbn [campaign_metrics set_is_running set_files]. rewrite Hm, Hw2.
  cbn [fst snd].
  split; [reflexivity |].
  split; [unfold campaign_status; cbn; now rewrite Hm |].
  split; [cbn; apply lookup_insert_eq |].
  split; [intros w; now rewrite pause_campaign_value |].
  split.
  { intros w. apply run_daily_cycle_not_running.
    unfold campaign_status. cbn. rewrite Hm. discriminate. }
  split; [reflexivity |]. split; [reflexivity |].
  split; [unfold campaign_status; cbn; now rewrite Hm |].
  split; [exact Hm |]. split; [reflexivity |]. split; [reflexivity |].
  split; [cbn; apply lookup_insert_eq |].
  intros path Hpath. cbn. now rewrite !lookup_insert_ne.
Qed.

Lemma pause_resume_round_trip_witness :
  let g1 := snd (pause_campaign calm started) in
  let g2 := snd (resume_campaign calm g1) in
  fst (pause_campaign calm started) = inr tt /\
  campaign_status g1 = "paused"%string /\
  files g1 !! state_path (campaign_id (new "c1" (now calm)))
    = Some (state_file_of calm g1 (new "c1" (now calm))) /\
  (forall w, pause_campaign w g1 = (inr tt, g1)) /\
  (forall w, run_daily_cycle w g1 = (inl InvalidStateError, g1)) /\
  fst (resume_campaign calm g1) = inr tt /\
  is_running g2 = true /\
  campaign_status g2 = "running"%string /\
  campaign_metrics g2 = Some (new "c1" (now calm)) /\
  analytics g2 = analytics started /\
  config g2 = config started /\
  files g2 !! state_path (campaign_id (new "c1" (now calm)))
    = Some (state_file_of calm g2 (new "c1" (now calm))) /\
  (forall path, path <> state_path (campaign_id (new "c1" (now calm))) ->
     files g2 !! path = files started !! path).
Proof.
  apply (pause_resume_round_trip calm calm started (new "c1" (now calm)));
    reflexivity.
Defined.

(** X12: [resume_campaign] does not look whether there is a campaign to
    resume.  Called on an orchestrator that holds none (a new one, or one
    whose campaign was stopped) it returns and sets the running flag,
    writing nothing.  From then on [start_campaign] raises "Campaign
    already running", every cycle raises the no-active-campaign error and
    the status reads no active campaign; the way out is [stop_campaign],
    which raises [AttributeError] on the missing campaign after it has
    cleared the flag. *)
Theorem resume_without_campaign_blocks_start (w : World)
    (g : SalesLeadGenerator) :
  is_running g = false ->
  campaign_metrics g = None ->
  let g1 := snd (resume_campaign w g) in
  fst (resume_campaign w g) = inr tt /\
  is_running g1 = true /\
  campaign_metrics g1 = None /\
  files g1 = files g /\
  (forall w' id,
     start_campaign w' id g1 =
     (inl (RuntimeError "Campaign already running"), g1)) /\
  (forall w', run_daily_cycle w' g1 = (inl InvalidStateError, g1)) /\
  (forall w', get_campaign_status w' g1 = (inr NoActiveCampaign, g1)) /\
  (forall w', exists msg,
     stop_campaign w' g1 = (inl (AttributeError msg), g)).
Proof.
  intros Hrun Hm. cbv zeta.
  rewrite resume_campaign_value, Hrun, save_campaign_state_value.
  cbn [campaign_metrics set_is_running]. rewrite Hm. cbn [fst snd].
  split; [reflexivity |]. split; [reflexivity |]. split; [exact Hm |].
  split; [reflexivity |]. split; [| split; [| split]].
  - intros w' id. now apply start_campaign_running.
  - intros w'. apply run_daily_cycle_not_running.
    unfold campaign_status. cbn. rewrite Hm. discriminate.
  - intros w'. unfold get_campaign_status, mbind, get. cbn. now rewrite Hm.
  - intros w'. eexists.
    unfold stop_campaign, on_metrics, mbind, get, modify. cbn. rewrite Hm.
    cbn. destruct g; cbn in *. subst. reflexivity.
Qed.

Lemma resume_without_campaign_blocks_start_witness :
  let g1 := snd (resume_campaign calm fresh) in
  fst (resume_campaign calm fresh) = inr tt /\
  is_running g1 = true /\
  campaign_metrics g1 = None /\
  files g1 = files fresh /\
  (forall w' id,
     start_campaign w' id g1 =
     (inl (RuntimeError "Campaign already running"), g1)) /\
  (forall w', run_daily_cycle w' g1 = (inl InvalidStateError, g1)) /\
  (forall w', get_campaign_status w' g1 = (inr NoActiveCampaign, g1)) /\
  (forall w', exists msg,
     stop_campaign w' g1 = (inl (AttributeError msg), fresh)).
Proof.
  apply (resume_without_campaign_blocks_start calm fresh); reflexivity.
Defined.

(** *** The status of a campaign *)

Lemma days_running_positive (w : World) (m : CampaignMetrics) :
  (start_date m <= now w)%Z -> (1 <= days_running w m)%Z.
Proof.
  intros H. unfold days_running.
  assert (0 <= (now w - start_date m) / 86400)%Z
    by (apply Z.div_pos; lia).
  lia.
Qed.

(** X13: [get_campaign_status] changes nothing.  Without a campaign it
    returns the no-active-campaign dict; with one, its ['status'] entry is
    "running" or "paused" after the running flag, the daily average is the
    prospects researched over the days running, and the target
    achievement that average over the daily lead target.  It raises
    [ZeroDivisionError] exactly when the days running or the daily lead
    target is 0; the days running are at least 1 unless the clock is behind
    the start of the campaign. *)
Theorem get_campaign_status_reads_only (w : World) (g : SalesLeadGenerator) :
  snd (get_campaign_status w g) = g /\
  (forall report,
     fst (get_campaign_status w g) = inr report ->
     status_entry report = campaign_status g) /\
  (campaign_metrics g = None ->
   fst (get_campaign_status w g) = inr NoActiveCampaign) /\
  (forall m, campaign_metrics g = Some m ->
     ((start_date m <= now w)%Z -> (1 <= days_running w m)%Z) /\
     (days_running w m = 0%Z \/ daily_lead_target (config g) = 0%Z ->
      exists msg,
        fst (get_campaign_status w g) = inl (Exn "ZeroDivisionError" msg)) /\
     (days_running w m <> 0%Z -> daily_lead_target (config g) <> 0%Z ->
      exists s,
        fst (get_campaign_status w g) = inr (ActiveCampaign s) /\
        status_metrics s = m /\
        status_days_running s = days_running w m /\
        daily_average s =
          inject_Z (prospects_researched m) / inject_Z (days_running w m) /\
        status_target_achievement s =
          daily_average s / inject_Z (daily_lead_target (config g)))).
Proof.
  unfold get_campaign_status, campaign_status, truediv, truediv_float, mbind,
    get, call, mret.
  cbn. destruct (campaign_metrics g) as [m |] eqn:Hm; cbn.
  - destruct (Z.eqb_spec (days_running w m) 0) as [Hd | Hd]; cbn;
      [| destruct (Z.eqb_spec (daily_lead_target (config g)) 0) as [Ht | Ht];
         cbn].
    + split; [reflexivity |]. split; [discriminate |].
      split; [discriminate |]. intros m' [= <-].
      split; [apply days_running_positive |].
      split; [intros _; eauto | contradiction].
    + split; [reflexivity |]. split; [discriminate |].
      split; [discriminate |]. intros m' [= <-].
      split; [apply days_running_positive |].
      split; [intros _; eauto | contradiction].
    + split; [reflexivity |]. split; [now intros report [= <-] |].
      split; [discriminate |]. intros m' [= <-].
      split; [apply days_running_positive |].
      split; [intros [? | ?]; contradiction |].
      intros _ _. eexists. repeat split.
  - split; [reflexivity |]. split; [now intros report [= <-] |].
    split; [reflexivity |]. discriminate.
Qed.

(** *** Stopping *)

Lemma stop_campaign_value (w : World) (g : SalesLeadGenerator)
    (m : CampaignMetrics) :
  is_running g = true ->
  campaign_metrics g = Some m ->
  let off := set_campaign_metrics (Some m) (set_is_running false g) in
  stop_campaign w g =
  match truediv (prospects_researched m) (days_running w m) with
  | inl e => (inl e, off)
  | inr _ =>
      match (if (0 <? emails_sent m)%Z
             then truediv (responses_received m) (emails_sent m)
             else inr 0) with
      | inl e => (inl e, off)
      | inr _ =>
          match truediv (prospects_researched m)
                  (daily_lead_target (config g) * days_running w m) with
          | inl e => (inl e, off)
          | inr _ =>
              match write_file w (report_path (campaign_id m)) with
              | inl e => (inl e, off)
              | inr _ =>
                  (inr tt,
                   set_campaign_metrics None
                     (set_files
                        (<[report_path (campaign_id m) :=
                             ReportFile (final_report_of w g m)]> (files g))
                        off))
              end
          end
      end
  end.
Proof.
  intros Hrun Hm.
  unfold stop_campaign, _generate_final_report, _save_final_report,
    on_metrics, mbind, get, modify, call, mret, final_report_of, truediv.
  cbn. rewrite Hrun. cbn. rewrite Hm. cbn.
  destruct (days_running w m =? 0)%Z; cbn; [reflexivity |].
  destruct (0 <? emails_sent m)%Z eqn:E; cbn;
    [destruct (emails_sent m =? 0)%Z; cbn; [reflexivity |] |];
    (destruct (daily_lead_target (config g) * days_running w m =? 0)%Z; cbn;
     [reflexivity |]);
    now destruct (write_file w (report_path (campaign_id m))).
Qed.

(** X14: [stop_campaign] clears the running flag first and drops the
    campaign last.  When the final report fails in between -- one of its
    divisions is by 0, which a daily lead target of 0 always causes, or the
    report cannot be written -- the exception leaves the campaign paused
    with its metrics, no report on disk, and every later [stop_campaign]
    or [cleanup] returns without doing anything. *)
Theorem failed_stop_leaves_campaign_paused (w : World)
    (g : SalesLeadGenerator) (m : CampaignMetrics) :
  is_running g = true ->
  campaign_metrics g = Some m ->
  let g' := snd (stop_campaign w g) in
  (days_running w m = 0%Z \/ daily_lead_target (config g) = 0%Z ->
   fst (stop_campaign w g) = inl ZeroDivisionError) /\
  (forall e,
     fst (stop_campaign w g) = inl e ->
     (e = ZeroDivisionError /\
      (days_running w m = 0%Z \/ daily_lead_target (config g) = 0%Z) \/
      write_file w (report_path (campaign_id m)) = inl e) /\
     is_running g' = false /\
     campaign_metrics g' = Some m /\
     campaign_status g' = "paused"%string /\
     files g' = files g /\
     (forall w', stop_campaign w' g' = (inr tt, g')) /\
     (forall w', cleanup w' g' = (inr tt, g'))).
Proof.
  intros Hrun Hm. cbv zeta.
  assert (Hoff :
            let off :=
              set_campaign_metrics (Some m) (set_is_running false g) in
            is_running off = false /\
            campaign_metrics off = Some m /\
            campaign_status off = "paused"%string /\
            files off = files g /\
            (forall w', stop_campaign w' off = (inr tt, off)) /\
            (forall w', cleanup w' off = (inr tt, off))).
  { cbv zeta. split; [reflexivity |]. split; [reflexivity |].
    split; [reflexivity |].
    split; [reflexivity |]. split; intros w'.
    - now apply stop_campaign_not_running.
    - reflexivity. }
  assert (Hmail :
            (if (0 <? emails_sent m)%Z
             then truediv (responses_received m) (emails_sent m)
             else inr 0) =
            inr (if (0 <? emails_sent m)%Z
                 then inject_Z (responses_received m) / inject_Z (emails_sent m)
                 else 0)).
  { destruct (Z.ltb_spec 0 (emails_sent m)); [| reflexivity].
    apply truediv_nonzero. lia. }
  rewrite (stop_campaign_value w g m Hrun Hm). cbv zeta.
  destruct (Z.eq_dec (days_running w m) 0%Z) as [Hd | Hd].
  { rewrite Hd. cbn [truediv Z.eqb raise fst snd]. split; [reflexivity |].
    intros e [= <-]. split; [left; auto | apply Hoff]. }
  rewrite (truediv_nonzero _ _ Hd), Hmail.
  destruct (Z.eq_dec (daily_lead_target (config g)) 0%Z) as [Ht | Ht].
  { rewrite Ht, Z.mul_0_l. cbn [truediv Z.eqb raise fst snd].
    split; [reflexivity |].
    intros e [= <-]. split; [left; auto | apply Hoff]. }
  rewrite truediv_nonzero by nia.
  split; [intros [? | ?]; contradiction |].
  destruct (write_file w (report_path (campaign_id m))) as [e' | []];
    cbn [fst snd]; [| discriminate].
  intros e [= <-]. split; [now right | apply Hoff].
Qed.

Lemma failed_stop_leaves_campaign_paused_witness :
  let g' := snd (stop_campaign full_disk started) in
  (days_running full_disk (new "c1" (now calm)) = 0%Z \/
   daily_lead_target (config started) = 0%Z ->
   fst (stop_campaign full_disk started) = inl ZeroDivisionError) /\
  (forall e,
     fst (stop_campaign full_disk started) = inl e ->
     (e = ZeroDivisionError /\
      (days_running full_disk (new "c1" (now calm)) = 0%Z \/
       daily_lead_target (config started) = 0%Z) \/
      write_file full_disk (report_path (campaign_id (new "c1" (now calm))))
        = inl e) /\
     is_running g' = false /\
     campaign_metrics g' = Some (new "c1" (now calm)) /\
     campaign_status g' = "paused"%string /\
     files g' = files started /\
     (forall w', stop_campaign w' g' = (inr tt, g')) /\
     (forall w', cleanup w' g' = (inr tt, g'))).
Proof.
  apply (failed_stop_leaves_campaign_paused full_disk started
           (new "c1" (now calm))); reflexivity.
Defined.

(** *** A cycle that returns *)

(** The running totals after [update_metrics]: the campaign's counters
    added, the rates recomputed. *)
Lemma update_metrics_current (today : string) (c : CampaignMetrics)
    (a : Analytics.AnalyticsTracker) :
  Analytics.current_metrics (snd (Analytics.update_metrics today c a)) =
  Analytics.rates_updated
    (Analytics.accumulate true c (Analytics.current_metrics a)).
Proof.
  unfold Analytics.update_metrics, try_catch, mbind, Analytics.on_current,
    Analytics.on_day, modify, mret.
  cbn. rewrite Analytics.update_rates_value. cbn.
  assert (Hday : forall x,
            Analytics.current_metrics (Analytics.ensure_day today x) =
            Analytics.current_metrics x).
  { intros x. unfold Analytics.ensure_day.
    now destruct (Analytics.daily_metrics x !! today). }
  destruct (Analytics.daily_metrics
              (Analytics.ensure_day today _) !! today) as [p |]; cbn;
    [| now rewrite Hday].
  rewrite lookup_insert_eq, Analytics.update_rates_value. cbn.
  now rewrite Hday.
Qed.

#[local] Arguments update_conversion_rate : simpl never.
#[local] Arguments Analytics.update_metrics : simpl never.

(** X15: what a cycle that returns has done.  The prospects found and the
    leads qualified by this cycle are added to the campaign's counters, the
    conversion rate is set to leads over prospects (left alone while no
    prospect has been researched), the campaign keeps running and its
    state file holds the metrics as they now are.  The returned dict gives
    this cycle's numbers of prospects and leads, but for emails and
    responses the campaign's totals so far.  The tracker's running total
    grows by the campaign's total of prospects, not by this cycle's. *)
Theorem cycle_accounts_for_its_work (w : World) (g g' : SalesLeadGenerator)
    (m : CampaignMetrics) (results : CycleResults) :
  is_running g = true ->
  campaign_metrics g = Some m ->
  run_daily_cycle w g = (inr results, g') ->
  exists prospects leads m',
    research_prospects w (daily_lead_target (config g)) = inr prospects /\
    lead_qualifier g (now w) prospects = inr leads /\
    campaign_metrics g' = Some m' /\
    is_running g' = true /\
    campaign_id m' = campaign_id m /\
    prospects_researched m' = (prospects_researched m + len prospects)%Z /\
    leads_qualified m' = (leads_qualified m + len leads)%Z /\
    (email_sequence_enabled (config g) && truthy leads = false ->
     emails_sent m' = emails_sent m /\
     responses_received m' = responses_received m) /\
    (forall r,
       email_sequence_enabled (config g) && truthy leads = true ->
       send_sequences w leads = inr r ->
       emails_sent m' = (emails_sent m + Z.of_nat (default 0%nat (sent r)))%Z /\
       responses_received m' =
         (responses_received m + Z.of_nat (default 0%nat (responses r)))%Z) /\
    ((0 < prospects_researched m')%Z ->
     conversion_rate m' =
     inject_Z (leads_qualified m') / inject_Z (prospects_researched m')) /\
    ((prospects_researched m' <= 0)%Z ->
     conversion_rate m' = conversion_rate m) /\
    files g' !! state_path (campaign_id m) = Some (state_file_of w g' m') /\
    prospects_found results = len prospects /\
    result_leads_qualified results = len leads /\
    result_emails_sent results = emails_sent m' /\
    result_responses_received results = responses_received m' /\
    result_conversion_rate results = conversion_rate m' /\
    (forall a, analytics g = Some a ->
       exists a',
         analytics g' = Some a' /\
         Analytics.total_prospects_researched (Analytics.current_metrics a') =
         (Analytics.total_prospects_researched (Analytics.current_metrics a)
          + prospects_researched m')%Z).
Proof.
  intros Hrun Hm Hcycle.
  unfold run_daily_cycle, mbind, get in Hcycle. cbn in Hcycle.
  rewrite Hrun, Hm in Hcycle. cbn in Hcycle.
  unfold try_catch, cycle_body, _save_campaign_state, on_analytics, mbind,
    get, call, on_metrics, modify, mraise, mret in Hcycle.
  cbn in Hcycle. rewrite Hm in Hcycle.
  destruct (research_prospects w (daily_lead_target (config g)))
    as [e1 | prospects] eqn:E1; cbn in Hcycle; [discriminate Hcycle |].
  destruct (lead_qualifier g (now w) prospects) as [e2 | leads] eqn:E2;
    cbn in Hcycle; [discriminate Hcycle |].
  exists prospects, leads.
  repeat
    (cbn in Hcycle;
     match type of Hcycle with
     | context [Analytics.update_metrics ?t ?c ?a] =>
         let Hr := fresh "Hr" in
         let Hcur := fresh "Hcur" in
         pose proof (Analytics.update_metrics_returns t c a) as Hr;
         pose proof (update_metrics_current t c a) as Hcur;
         destruct (Analytics.update_metrics t c a) as [? ?];
         cbn in Hr, Hcur; subst
     | context [update_conversion_rate ?c] =>
         rewrite (update_conversion_rate_value c) in Hcycle
     | context [match ?c with inl _ => _ | inr _ => _ end] =>
         destruct c eqn:?
     | context [match ?c with Some _ => _ | None => _ end] =>
         destruct c eqn:?
     | context [if ?b then _ else _] => destruct b eqn:?
     end).
  all: try (match type of Hcycle with (inl _, _) = _ => discriminate Hcycle end).
  all: injection Hcycle as <- <-.
  all: eexists.
  all: split; [reflexivity |].
  all: split; [exact E2 |].
  all: split; [cbn; reflexivity |].
  all: split; [exact Hrun |].
  all: split; [reflexivity |].
  all: split; [reflexivity |].
  all: split; [reflexivity |].
  all: split; [intros Hoff; first [congruence | split; reflexivity] |].
  all: split;
    [ intros r Hon Hsend;
      first [ congruence
            | injection Hsend as <-; split; reflexivity ] |].
  all: split;
    [ intros Hpos; cbn in Hpos |- *;
      try reflexivity;
      match goal with
      | H : (0 <? _)%Z = false |- _ => apply Z.ltb_ge in H; cbn in H; lia
      end |].
  all: split;
    [ intros Hneg; cbn in Hneg |- *;
      try reflexivity;
      match goal with
      | H : (0 <? _)%Z = true |- _ => apply Z.ltb_lt in H; cbn in H; lia
      end |].
  all: split; [cbn; apply lookup_insert_eq |].
  all: repeat (split; [reflexivity |]).
  all: intros a' Ha'; simplify_eq.
  all: eexists; split; [cbn; reflexivity |].
  all: match goal with
       | H : Analytics.current_metrics _ = _ |- _ => rewrite H
       end; reflexivity.
Qed.

Definition calm_results : CycleResults :=
  {| result_campaign_id := "c1";
     prospects_found := 2;
     result_leads_qualified := 0;
     result_emails_sent := 0;
     result_responses_received := 0;
     result_conversion_rate := inject_Z 0 / inject_Z 2;
     result_timestamp := now calm |}.

Lemma calm_cycle_returns :
  run_daily_cycle calm started =
  (inr calm_results, snd (run_daily_cycle calm started)).
Proof. vm_compute. reflexivity. Qed.

Lemma cycle_accounts_for_its_work_witness :
  let g := started in
  let g' := snd (run_daily_cycle calm started) in
  let m := new "c1" (now calm) in
  exists prospects leads m',
    research_prospects calm (daily_lead_target (config g)) = inr prospects /\
    lead_qualifier g (now calm) prospects = inr leads /\
    campaign_metrics g' = Some m' /\
    is_running g' = true /\
    campaign_id m' = campaign_id m /\
    prospects_researched m' = (prospects_researched m + len prospects)%Z /\
    leads_qualified m' = (leads_qualified m + len leads)%Z /\
    (email_sequence_enabled (config g) && truthy leads = false ->
     emails_sent m' = emails_sent m /\
     responses_received m' = responses_received m) /\
    (forall r,
       email_sequence_enabled (config g) && truthy leads = true ->
       send_sequences calm leads = inr r ->
       emails_sent m' = (emails_sent m + Z.of_nat (default 0%nat (sent r)))%Z /\
       responses_received m' =
         (responses_received m + Z.of_nat (default 0%nat (responses r)))%Z) /\
    ((0 < prospects_researched m')%Z ->
     conversion_rate m' =
     inject_Z (leads_qualified m') / inject_Z (prospects_researched m')) /\
    ((prospects_researched m' <= 0)%Z ->
     conversion_rate m' = conversion_rate m) /\
    files g' !! state_path (campaign_id m) = Some (state_file_of calm g' m') /\
    prospects_found calm_results = len prospects /\
    result_leads_qualified calm_results = len leads /\
    result_emails_sent calm_results = emails_sent m' /\
    result_responses_received calm_results = responses_received m' /\
    result_conversion_rate calm_results = conversion_rate m' /\
    (forall a, analytics g = Some a ->
       exists a',
         analytics g' = Some a' /\
         Analytics.total_prospects_researched (Analytics.current_metrics a') =
         (Analytics.total_prospects_researched (Analytics.current_metrics a)
          + prospects_researched m')%Z).
Proof.
  apply (cycle_accounts_for_its_work calm started
           (snd (run_daily_cycle calm started)) (new "c1" (now calm))
           calm_results).
  - reflexivity.
  - reflexivity.
  - exact calm_cycle_returns.
Defined.

(** *** What the orchestrator never does *)






















(** *** One campaign from start to stop *)





(** A day on which the research provider is down: the caller gets its
    error, and [cleanup] has written the final report of the campaign. *)
Example run_daily_campaign_research_down :
  let down :=
    {| now := now calm; timestamp := timestamp calm; today := today calm;
       research_prospects := fun _ => inl (Exn "ConnectionError" "no route");
       send_sequences := send_sequences calm;
       sync_leads := sync_leads calm;
       write_file := write_file calm |} in
  let outcome := run_daily_campaign default_config ∅ calm down calm calm in
  fst outcome = inl (Exn "ConnectionError" "no route") /\
  campaign_status (snd outcome) = "no_active_campaign"%string /\
  is_Some (files (snd outcome) !! report_path (chosen_id calm None)).
Proof. vm_compute. repeat split. now eexists. Qed.

End Lifecycle.








(** ** analytics_tracker.py: grades, predictions and totals *)

Module Insights.
Import Analytics.

(** *** [_calculate_performance_grade] *)

(** The [score] of [_calculate_performance_grade] when the letter is
    chosen. *)
Definition performance_score (metrics : PerformanceMetrics) : Z :=
  let score := 0%Z in
  let score :=
    if Qle_bool 0.2 (qualification_rate metrics) then (score + 40)%Z
    else if Qle_bool 0.15 (qualification_rate metrics) then (score + 30)%Z
    else if Qle_bool 0.1 (qualification_rate metrics) then (score + 20)%Z
    else if Qle_bool 0.05 (qualification_rate metrics) then (score + 10)%Z
    else score in
  let score :=
    if Qle_bool 0.05 (response_rate metrics) then (score + 30)%Z
    else if Qle_bool 0.03 (response_rate metrics) then (score + 20)%Z
    else if Qle_bool 0.02 (response_rate metrics) then (score + 10)%Z
    else score in
  let score :=
    if (50 <=? total_prospects_researched metrics)%Z then (score + 30)%Z
    else if (25 <=? total_prospects_researched metrics)%Z then (score + 20)%Z
    else if (10 <=? total_prospects_researched metrics)%Z then (score + 10)%Z
    else score in
  score.

Definition _calculate_performance_grade (metrics : PerformanceMetrics)
  : string :=
  let score := performance_score metrics in
  if (80 <=? score)%Z then "A"
  else if (60 <=? score)%Z then "B"
  else if (40 <=? score)%Z then "C"
  else if (20 <=? score)%Z then "D"
  else "F".

(** Position of a grade on the scale F < D < C < B < A. *)
Definition grade_rank (grade : string) : nat :=
  if String.eqb grade "A" then 4
  else if String.eqb grade "B" then 3
  else if String.eqb grade "C" then 2
  else if String.eqb grade "D" then 1
  else 0.

(** The points of each of the three parts. *)
Definition qualification_points (q : Q) : Z :=
  if Qle_bool 0.2 q then 40
  else if Qle_bool 0.15 q then 30
  else if Qle_bool 0.1 q then 20
  else if Qle_bool 0.05 q then 10
  else 0.

Definition response_points (r : Q) : Z :=
  if Qle_bool 0.05 r then 30
  else if Qle_bool 0.03 r then 20
  else if Qle_bool 0.02 r then 10
  else 0.

Definition volume_points (t : Z) : Z :=
  if (50 <=? t)%Z then 30
  else if (25 <=? t)%Z then 20
  else if (10 <=? t)%Z then 10
  else 0.

Lemma performance_score_parts (metrics : PerformanceMetrics) :
  performance_score metrics =
  (qualification_points (qualification_rate metrics)
   + response_points (response_rate metrics)
   + volume_points (total_prospects_researched metrics))%Z.
Proof.
  unfold performance_score, qualification_points, response_points,
    volume_points.
  repeat match goal with
  | |- context [if ?b then _ else _] => destruct b
  end; reflexivity.
Qed.

Lemma qualification_points_range (q : Q) :
  (0 <= qualification_points q <= 40)%Z /\
  ((20 <= qualification_points q)%Z -> 0.1 <= q) /\
  (q < 0.05 -> qualification_points q = 0%Z).
Proof.
  unfold qualification_points. LeadQualifier.qcases;
    repeat split; intros; try lia; try lra.
Qed.

Lemma response_points_range (r : Q) :
  (0 <= response_points r <= 30)%Z /\
  ((10 <= response_points r)%Z -> 0.02 <= r) /\
  (r < 0.02 -> response_points r = 0%Z).
Proof.
  unfold response_points. LeadQualifier.qcases;
    repeat split; intros; try lia; try lra.
Qed.

Lemma volume_points_range (t : Z) :
  (0 <= volume_points t <= 30)%Z /\
  ((10 <= volume_points t)%Z -> (10 <= t)%Z) /\
  ((20 <= volume_points t)%Z <-> (25 <= t)%Z).
Proof.
  unfold volume_points.
  destruct (Z.leb_spec 50 t), (Z.leb_spec 25 t), (Z.leb_spec 10 t);
    repeat split; intros; lia.
Qed.

Lemma qualification_points_mono (q q' : Q) :
  q <= q' -> (qualification_points q <= qualification_points q')%Z.
Proof.
  intros H. unfold qualification_points. LeadQualifier.qcases;
    try lia; exfalso; lra.
Qed.

Lemma response_points_mono (r r' : Q) :
  r <= r' -> (response_points r <= response_points r')%Z.
Proof.
  intros H. unfold response_points. LeadQualifier.qcases;
    try lia; exfalso; lra.
Qed.

Lemma volume_points_mono (t t' : Z) :
  (t <= t')%Z -> (volume_points t <= volume_points t')%Z.
Proof.
  intros H. unfold volume_points.
  destruct (Z.leb_spec 50 t), (Z.leb_spec 25 t), (Z.leb_spec 10 t),
           (Z.leb_spec 50 t'), (Z.leb_spec 25 t'), (Z.leb_spec 10 t'); lia.
Qed.

(** X19: the grade never drops when the qualification rate, the response
    rate and the number of prospects researched grow.  An A needs all
    three parts: a qualification rate of at least 0.1, a response rate of
    at least 0.02 and 10 prospects.  With a qualification rate under 0.05
    and a response rate under 0.02 -- no lead, no response -- the grade is
    D from 25 prospects on and F below, and fresh metrics grade F. *)
Theorem performance_grade_monotone :
  (forall p p',
     qualification_rate p <= qualification_rate p' ->
     response_rate p <= response_rate p' ->
     (total_prospects_researched p <= total_prospects_researched p')%Z ->
     (grade_rank (_calculate_performance_grade p)
      <= grade_rank (_calculate_performance_grade p'))%nat) /\
  (forall p,
     _calculate_performance_grade p = "A"%string ->
     0.1 <= qualification_rate p /\ 0.02 <= response_rate p /\
     (10 <= total_prospects_researched p)%Z) /\
  (forall p,
     qualification_rate p < 0.05 -> response_rate p < 0.02 ->
     _calculate_performance_grade p =
     if (25 <=? total_prospects_researched p)%Z then "D"%string
     else "F"%string) /\
  _calculate_performance_grade new = "F"%string.
Proof.
  split; [| split; [| split]].
  - intros p p' Hq Hr Ht.
    pose proof (qualification_points_mono _ _ Hq).
    pose proof (response_points_mono _ _ Hr).
    pose proof (volume_points_mono _ _ Ht).
    unfold _calculate_performance_grade. rewrite !performance_score_parts.
    repeat match goal with
    | |- context [(?a <=? ?b)%Z] => destruct (Z.leb_spec a b)
    end; cbn; lia.
  - intros p. unfold _calculate_performance_grade.
    rewrite performance_score_parts.
    destruct (qualification_points_range (qualification_rate p))
      as (? & Hq & _).
    destruct (response_points_range (response_rate p)) as (? & Hr & _).
    destruct (volume_points_range (total_prospects_researched p))
      as (? & Ht & _).
    repeat match goal with
    | |- context [(?a <=? ?b)%Z] => destruct (Z.leb_spec a b)
    end; try discriminate.
    intros _. split; [apply Hq; lia |]. split; [apply Hr; lia | apply Ht; lia].
  - intros p Hq Hr. unfold _calculate_performance_grade.
    rewrite performance_score_parts.
    rewrite (proj2 (proj2 (qualification_points_range _)) Hq).
    rewrite (proj2 (proj2 (response_points_range _)) Hr).
    destruct (volume_points_range (total_prospects_researched p))
      as (? & _ & Ht).
    repeat match goal with
    | |- context [(?a <=? ?b)%Z] => destruct (Z.leb_spec a b)
    end; try reflexivity; exfalso; lia.
  - reflexivity.
Qed.

(** *** [generate_predictive_insights] *)

Record PredictiveInsights : Type := {
  next_day_prospects : Z;
  confidence_level : Q;
  trend_direction : string;
  recommended_actions : list string;
  risk_factors : list string;
  generated_at : datetime
}.

(** An entry of [historical_data], as far as the prediction reads it: its
    ['prospects'] value; [None] is an absent key. *)
Record DataPoint : Type := { prospects : option Z }.

(** [l[-7:] if len(l) >= 7 else l] *)
Definition last_seven {A : Type} (l : list A) : list A :=
  if (7 <=? length l)%nat then skipn (length l - 7) l else l.

(** [[d['prospects'] for d in recent_data]] *)
Fixpoint prospects_of (recent_data : list DataPoint) : result (list Z) :=
  match recent_data with
  | [] => ret []
  | d :: rest =>
      match prospects d with
      | None => raise (KeyError "'prospects'")
      | Some n => (let* ns := prospects_of rest in ret (n :: ns))%result
      end
  end.

Definition sum (xs : list Z) : Z := fold_left Z.add xs 0%Z.

(** [int(statistics.mean(xs))] on a non-empty list of [int]s: the mean is
    exact and [int] cuts what follows the point. *)
Definition int_mean (xs : list Z) : Z := Z.quot (sum xs) (Z.of_nat (length xs)).

(** [list(range(n))] *)
Definition range (n : nat) : list Z := map Z.of_nat (seq 0 n).

Section Predictions.

(** [statistics.linear_regression(x, y)]: the slope and the intercept. *)
Variable linear_regression : list Z -> list Z -> result (Q * Q).

Definition generate_predictive_insights (now : datetime)
    (historical_data : list DataPoint) (current_metrics : PerformanceMetrics)
  : result PredictiveInsights :=
  try_except
    (let recent_data := last_seven historical_data in
     match recent_data with
     | [] =>
         ret {| next_day_prospects := 25;
                confidence_level := 0.5;
                trend_direction := "stable";
                recommended_actions := ["Continue current strategy"%string];
                risk_factors := ["Insufficient historical data"%string];
                generated_at := now |}
     | _ =>
         let* recent_prospects := prospects_of recent_data in
         let avg_prospects := int_mean recent_prospects in
         let* trend_direction :=
           if (3 <=? length recent_prospects)%nat
           then
             let* regression :=
               linear_regression (range (length recent_prospects))
                 recent_prospects in
             let trend := fst regression in
             if LeadQualifier.Qltb 2 trend then ret "up"%string
             else if LeadQualifier.Qltb trend (-2) then ret "down"%string
             else ret "stable"%string
           else ret "stable"%string in
         let recommended_actions := [] in
         let risk_factors := [] in
         let '(recommended_actions, risk_factors) :=
           if String.eqb trend_direction "up"
           then (recommended_actions
                   ++ ["Increase daily prospect targets"%string]
                   ++ ["Scale email sequences"%string],
                 risk_factors)
           else if String.eqb trend_direction "down"
           then (recommended_actions
                   ++ ["Review qualification criteria"%string]
                   ++ ["Optimize prospect sources"%string],
                 risk_factors ++ ["Declining prospect quality"%string])
           else (recommended_actions, risk_factors) in
         let '(recommended_actions, risk_factors) :=
           if LeadQualifier.Qltb (qualification_rate current_metrics) 0.1
           then (recommended_actions ++ ["Refine lead scoring algorithm"%string],
                 risk_factors ++ ["Low qualification rate"%string])
           else (recommended_actions, risk_factors) in
         let '(recommended_actions, risk_factors) :=
           if LeadQualifier.Qltb (response_rate current_metrics) 0.03
           then (recommended_actions
                   ++ ["Review email templates and timing"%string],
                 risk_factors ++ ["Low email response rate"%string])
           else (recommended_actions, risk_factors) in
         ret {| next_day_prospects := avg_prospects;
                confidence_level := 0.75;
                trend_direction := trend_direction;
                recommended_actions := recommended_actions;
                risk_factors := risk_factors;
                generated_at := now |}
     end)%result
    (fun e =>
       ret {| next_day_prospects := 25;
              confidence_level := 0.5;
              trend_direction := "stable";
              recommended_actions := ["Monitor performance closely"%string];
              risk_factors :=
                [String.append "Prediction error: " (exn_msg e)];
              generated_at := now |}).

End Predictions.

Lemma last_seven_window {A : Type} (old recent : list A) :
  length recent = 7%nat -> last_seven (old ++ recent) = recent.
Proof.
  intros Hlen. unfold last_seven. rewrite length_app, Hlen.
  destruct (Nat.leb_spec 7 (length old + 7)); [| lia].
  replace (length old + 7 - 7)%nat with (length old) by lia.
  now rewrite skipn_app, skipn_all, Nat.sub_diag.
Qed.

Lemma last_seven_short {A : Type} (l : list A) :
  (length l <= 7)%nat -> last_seven l = l.
Proof.
  intros Hlen. unfold last_seven.
  destruct (Nat.leb_spec 7 (length l)); [| reflexivity].
  now replace (length l - 7)%nat with 0%nat by lia.
Qed.



Section PredictionFacts.
Variable linear_regression : list Z -> list Z -> result (Q * Q).

#[local] Abbreviation insights :=
  (generate_predictive_insights linear_regression).

(** X20: [generate_predictive_insights] always returns, with a confidence
    of 0.5 or 0.75.  Without history it predicts the default of 25
    prospects, stable, at confidence 0.5.  Only the last seven data points
    count: whatever precedes them changes nothing.  When one of them has
    no ['prospects'] entry the [except] clause answers: 25 prospects,
    stable, confidence 0.5, and the error as the one risk factor. *)
Theorem predictive_insights_defaults_and_window (now : datetime)
    (history : list DataPoint) (current : PerformanceMetrics) :
  (exists i,
     insights now history current = inr i /\
     (confidence_level i = 0.5 \/ confidence_level i = 0.75) /\
     generated_at i = now) /\
  insights now [] current =
    inr {| next_day_prospects := 25;
           confidence_level := 0.5;
           trend_direction := "stable";
           recommended_actions := ["Continue current strategy"%string];
           risk_factors := ["Insufficient historical data"%string];
           generated_at := now |} /\
  (forall recent,
     length recent = 7%nat ->
     insights now (history ++ recent) current = insights now recent current) /\
  (forall e,
     prospects_of (last_seven history) = inl e ->
     insights now history current =
     inr {| next_day_prospects := 25;
            confidence_level := 0.5;
            trend_direction := "stable";
            recommended_actions := ["Monitor performance closely"%string];
            risk_factors := ["Prediction error: 'prospects'"%string];
            generated_at := now |}).
Proof.
  split; [| split; [reflexivity | split]].
  - unfold generate_predictive_insights, try_except, rbind, ret, raise.
    repeat (match goal with
            | |- context [match ?x with _ => _ end] =>
                lazymatch x with
                | context [match _ with _ => _ end] => fail
                | _ => destruct x
                end
            end; cbv beta iota);
      eexists; (split; [reflexivity |]); cbn; auto.
  - intros recent Hlen. unfold generate_predictive_insights.
    rewrite last_seven_window by exact Hlen.
    now rewrite last_seven_short by lia.
  - intros e He.
    assert (Hmsg : e = KeyError "'prospects'").
    { revert e He. induction (last_seven history) as [| d rest IH];
        intros e He; cbn in He; [discriminate |].
      destruct (prospects d); [| now injection He as <-].
      destruct (prospects_of rest) as [e' | ns]; [| discriminate].
      cbn in He. injection He as <-. now apply IH. }
    unfold generate_predictive_insights.
    destruct (last_seven history) as [| d rest]; [discriminate |].
    rewrite He, Hmsg. reflexivity.
Qed.


End PredictionFacts.

Definition two_days : list DataPoint :=
  [ {| prospects := Some 20%Z |}; {| prospects := Some 31%Z |} ].

(** A regression that is never consulted on fewer than three points. *)
Definition no_regression (x y : list Z) : result (Q * Q) :=
  raise (Exn "StatisticsError"
           "linear regression requires at least two data points").


(** Two days of history, 20 and 31 prospects, on fresh metrics: 25
    predicted, stable, both rates flagged. *)
Example two_days_insights :
  rmap (fun i => (next_day_prospects i, trend_direction i,
                  recommended_actions i, risk_factors i))
    (generate_predictive_insights no_regression 1700000000%Z two_days new)
  = inr (25%Z, "stable",
         ["Refine lead scoring algorithm";
          "Review email templates and timing"],
         ["Low qualification rate"; "Low email response rate"])%string.
Proof. vm_compute. reflexivity. Qed.

(** *** [update_metrics], call after call *)

(** X22: [update_metrics] never raises.  It adds the counters of the
    campaign it is handed to the running totals and recomputes their
    rates; it adds them to the record of the day as well, creating it when
    the day has none, except for the meetings booked, which the day's
    record never receives; the records of other days are left alone.
    Handed the same campaign metrics twice, the running totals count them
    twice. *)
Theorem update_metrics_adds_campaign_totals (today : string)
    (c : Campaign.CampaignMetrics) (a : AnalyticsTracker) :
  let a' := snd (update_metrics today c a) in
  let a'' := snd (update_metrics today c a') in
  fst (update_metrics today c a) = inr tt /\
  current_metrics a' = rates_updated (accumulate true c (current_metrics a)) /\
  daily_metrics a' !! today =
    Some (rates_updated
            (accumulate false c (default new (daily_metrics a !! today)))) /\
  (forall day, day <> today ->
     daily_metrics a' !! day = daily_metrics a !! day) /\
  (forall p', daily_metrics a' !! today = Some p' ->
     meetings_booked p' =
     meetings_booked (default new (daily_metrics a !! today))) /\
  total_prospects_researched (current_metrics a'') =
    (total_prospects_researched (current_metrics a)
     + 2 * Campaign.prospects_researched c)%Z.
Proof.
  cbv zeta.
  assert (Hvalue : forall a0,
            update_metrics today c a0 =
            (inr tt,
             {| current_metrics :=
                  rates_updated (accumulate true c (current_metrics a0));
                daily_metrics :=
                  <[today :=
                      rates_updated
                        (accumulate false c
                           (default new (daily_metrics a0 !! today)))]>
                    (daily_metrics a0) |})).
  { intros a0.
    unfold update_metrics, try_catch, mbind, on_current, on_day, modify, mret,
      ensure_day.
    cbn. rewrite update_rates_value. cbn.
    destruct (daily_metrics a0 !! today) as [p |] eqn:Hday; cbn.
    - rewrite Hday. cbn. rewrite lookup_insert_eq, update_rates_value. cbn.
      now rewrite insert_insert_eq.
    - rewrite lookup_insert_eq. cbn.
      rewrite lookup_insert_eq, update_rates_value. cbn.
      now rewrite !insert_insert_eq. }
  rewrite !Hvalue. cbn [fst snd current_metrics daily_metrics].
  split; [reflexivity |]. split; [reflexivity |].
  split; [apply lookup_insert_eq |].
  split; [intros day Hday; now apply lookup_insert_ne |].
  split.
  - intros p'. rewrite lookup_insert_eq. intros [= <-]. reflexivity.
  - cbn. lia.
Qed.

End Insights.




(** ** analytics_tracker.py: [CampaignAnalytics] *)

Module CampaignHistory.

Record CampaignAnalytics : Type := {
  campaign_id : string;
  start_date : datetime;
  end_date : option datetime;
  duration_days : Z;
  total_prospects : Z;
  qualified_leads : Z;
  emails_sent : Z;
  responses_received : Z;
  meetings_booked : Z;
  revenue_generated : Q;
  cost_per_lead : Q;
  roi_percentage : Q
}.

Definition set_duration_days (d : Z) (c : CampaignAnalytics)
  : CampaignAnalytics :=
  {| campaign_id := campaign_id c;
     start_date := start_date c;
     end_date := end_date c;
     duration_days := d;
     total_prospects := total_prospects c;
     qualified_leads := qualified_leads c;
     emails_sent := emails_sent c;
     responses_received := responses_received c;
     meetings_booked := meetings_booked c;
     revenue_generated := revenue_generated c;
     cost_per_lead := cost_per_lead c;
     roi_percentage := roi_percentage c |}.

Definition set_cost_per_lead (x : Q) (c : CampaignAnalytics)
  : CampaignAnalytics :=
  {| campaign_id := campaign_id c;
     start_date := start_date c;
     end_date := end_date c;
     duration_days := duration_days c;
     total_prospects := total_prospects c;
     qualified_leads := qualified_leads c;
     emails_sent := emails_sent c;
     responses_received := responses_received c;
     meetings_booked := meetings_booked c;
     revenue_generated := revenue_generated c;
     cost_per_lead := x;
     roi_percentage := roi_percentage c |}.

Definition set_roi_percentage (x : Q) (c : CampaignAnalytics)
  : CampaignAnalytics :=
  {| campaign_id := campaign_id c;
     start_date := start_date c;
     end_date := end_date c;
     duration_days := duration_days c;
     total_prospects := total_prospects c;
     qualified_leads := qualified_leads c;
     emails_sent := emails_sent c;
     responses_received := responses_received c;
     meetings_booked := meetings_booked c;
     revenue_generated := revenue_generated c;
     cost_per_lead := cost_per_lead c;
     roi_percentage := x |}.

(** [a / b] on two [float]s. *)
Definition fdiv (a b : Q) : result Q :=
  if Qeq_bool b 0
  then raise (Exn "ZeroDivisionError" "float division by zero")
  else ret (a / b).

Definition calculate_metrics : M CampaignAnalytics unit :=
  (let! _ :=
     (let! c := get in
      match end_date c with
      | Some e => modify (set_duration_days ((e - start_date c) / 86400)%Z)
      | None => mret tt
      end) in
   let! _ :=
     (let! c := get in
      if (0 <? qualified_leads c)%Z
      then (let! x := call (Lifecycle.truediv_float
                              (inject_Z (emails_sent c) * 0.1)
                              (qualified_leads c)) in
            modify (set_cost_per_lead x))
      else mret tt) in
   let! c := get in
   if LeadQualifier.Qltb 0 (cost_per_lead c)
   then (let! x := call (fdiv (revenue_generated c)
                           (inject_Z (qualified_leads c) * cost_per_lead c)) in
         modify (set_roi_percentage ((x - 1) * 100)))
   else mret tt)%method.

(** The object after the first statement of [calculate_metrics]. *)
Definition dated (c : CampaignAnalytics) : CampaignAnalytics :=
  match end_date c with
  | Some e => set_duration_days ((e - start_date c) / 86400)%Z c
  | None => c
  end.

(** Its second and third statements. *)
Definition costs : M CampaignAnalytics unit :=
  (let! _ :=
     (let! c := get in
      if (0 <? qualified_leads c)%Z
      then (let! x := call (Lifecycle.truediv_float
                              (inject_Z (emails_sent c) * 0.1)
                              (qualified_leads c)) in
            modify (set_cost_per_lead x))
      else mret tt) in
   let! c := get in
   if LeadQualifier.Qltb 0 (cost_per_lead c)
   then (let! x := call (fdiv (revenue_generated c)
                           (inject_Z (qualified_leads c) * cost_per_lead c)) in
         modify (set_roi_percentage ((x - 1) * 100)))
   else mret tt)%method.

Lemma calculate_metrics_steps (c : CampaignAnalytics) :
  calculate_metrics c = costs (dated c).
Proof.
  unfold calculate_metrics, costs, dated, mbind, get, modify, mret.
  now destruct (end_date c).
Qed.

Lemma costs_cases (c : CampaignAnalytics) :
  let c' := snd (costs c) in
  duration_days c' = duration_days c /\
  ((0 < qualified_leads c)%Z -> (0 < emails_sent c)%Z ->
   fst (costs c) = inr tt /\
   cost_per_lead c' ==
     inject_Z (emails_sent c) * 0.1 / inject_Z (qualified_leads c) /\
   roi_percentage c' ==
     (revenue_generated c / (0.1 * inject_Z (emails_sent c)) - 1) * 100) /\
  ((0 < qualified_leads c)%Z -> (emails_sent c <= 0)%Z ->
   fst (costs c) = inr tt /\
   roi_percentage c' = roi_percentage c) /\
  ((qualified_leads c <= 0)%Z ->
   cost_per_lead c' = cost_per_lead c /\
   (qualified_leads c = 0%Z -> 0 < cost_per_lead c ->
    exists msg,
      fst (costs c) = inl (Exn "ZeroDivisionError" msg) /\
      roi_percentage c' = roi_percentage c)).
Proof.
  cbv zeta.
  unfold costs, Lifecycle.truediv_float, fdiv, mbind, get, call, modify, mret.
  destruct (Z.ltb_spec 0 (qualified_leads c)) as [Hpos | Hnone].
  - destruct (Z.eqb_spec (qualified_leads c) 0) as [? | _]; [lia |].
    cbn [set_cost_per_lead cost_per_lead qualified_leads revenue_generated
         raise ret].
    assert (Hql : 0 < inject_Z (qualified_leads c)).
    { change 0 with (inject_Z 0). now rewrite <- Zlt_Qlt. }
    destruct (LeadQualifier.Qltb 0
                (inject_Z (emails_sent c) * 0.1 / inject_Z (qualified_leads c)))
      eqn:Hcost.
    + apply Explanation.Qltb_lt in Hcost.
      assert (Hprod : ~ inject_Z (qualified_leads c)
                        * (inject_Z (emails_sent c) * 0.1
                           / inject_Z (qualified_leads c)) == 0).
      { intros H0. apply Qmult_integral in H0 as [H0 | H0]; lra. }
      destruct (Qeq_bool _ 0) eqn:Hz; [apply Qeq_bool_iff in Hz; tauto |].
      cbn. split; [reflexivity |]. split; [| split].
      * intros _ Hmail. split; [reflexivity |]. split; [reflexivity |].
        assert (Hem : 0 < inject_Z (emails_sent c)).
        { change 0 with (inject_Z 0). now rewrite <- Zlt_Qlt. }
        field. split; lra.
      * intros _ Hmail. exfalso.
        assert (Hem : inject_Z (emails_sent c) <= 0).
        { change 0 with (inject_Z 0). now rewrite <- Zle_Qle. }
        assert (inject_Z (emails_sent c) * 0.1
                / inject_Z (qualified_leads c) <= 0); [| lra].
        apply Qle_shift_div_r; [exact Hql | lra].
      * intros ?. lia.
    + apply Explanation.Qltb_ge in Hcost. cbn.
      split; [reflexivity |]. split; [| split].
      * intros _ Hmail. exfalso.
        assert (Hem : 0 < inject_Z (emails_sent c)).
        { change 0 with (inject_Z 0). now rewrite <- Zlt_Qlt. }
        assert (0 < inject_Z (emails_sent c) * 0.1
                    / inject_Z (qualified_leads c)); [| lra].
        apply Qlt_shift_div_l; [exact Hql | lra].
      * intros _ _. split; reflexivity.
      * intros ?. lia.
  - cbn [fst snd].
    destruct (LeadQualifier.Qltb 0 (cost_per_lead c)) eqn:Hcost.
    + destruct (Qeq_bool _ 0) eqn:Hz; cbn;
        (split; [reflexivity |]);
        (split; [intros ?; lia |]); (split; [intros ?; lia |]);
        intros _; (split; [reflexivity |]); intros Hzero Hstale.
      * eexists. split; reflexivity.
      * exfalso. rewrite Hzero in Hz.
        assert (H0 : inject_Z 0 * cost_per_lead c == 0) by apply Qmult_0_l.
        apply Qeq_bool_iff in H0. congruence.
    + cbn. split; [reflexivity |].
      split; [intros ?; lia |]. split; [intros ?; lia |].
      intros _. split; [reflexivity |]. intros _ Hstale.
      apply Explanation.Qltb_ge in Hcost. exfalso. lra.
Qed.

(** X23: [calculate_metrics] with leads and emails counted sets the cost
    per lead to a tenth of the emails over the leads and the return to
    [(revenue / (0.1 * emails) - 1) * 100]: the number of leads cancels
    out of it.  With leads but no email the cost is 0 and the return is
    left as it was.  With no lead the cost is left as it was, and when
    that stale cost is positive the return divides by 0: the call raises
    [ZeroDivisionError].  The duration is set from the two dates whenever
    there is an end date, before anything can raise. *)
Theorem calculate_metrics_cases (c : CampaignAnalytics) :
  let c' := snd (calculate_metrics c) in
  ((0 < qualified_leads c)%Z -> (0 < emails_sent c)%Z ->
   fst (calculate_metrics c) = inr tt /\
   cost_per_lead c' ==
     inject_Z (emails_sent c) * 0.1 / inject_Z (qualified_leads c) /\
   roi_percentage c' ==
     (revenue_generated c / (0.1 * inject_Z (emails_sent c)) - 1) * 100) /\
  ((0 < qualified_leads c)%Z -> (emails_sent c <= 0)%Z ->
   fst (calculate_metrics c) = inr tt /\
   roi_percentage c' = roi_percentage c) /\
  ((qualified_leads c <= 0)%Z ->
   cost_per_lead c' = cost_per_lead c /\
   (qualified_leads c = 0%Z -> 0 < cost_per_lead c ->
    exists msg,
      fst (calculate_metrics c) = inl (Exn "ZeroDivisionError" msg) /\
      roi_percentage c' = roi_percentage c)) /\
  (forall e, end_date c = Some e ->
     duration_days c' = ((e - start_date c) / 86400)%Z) /\
  (end_date c = None -> duration_days c' = duration_days c).
Proof.
  cbv zeta. rewrite calculate_metrics_steps.
  pose proof (costs_cases (dated c)) as H. cbv zeta in H.
  assert (Hsame : qualified_leads (dated c) = qualified_leads c /\
                  emails_sent (dated c) = emails_sent c /\
                  cost_per_lead (dated c) = cost_per_lead c /\
                  roi_percentage (dated c) = roi_percentage c /\
                  revenue_generated (dated c) = revenue_generated c)
    by (unfold dated; now destruct (end_date c)).
  destruct Hsame as (Hq & He & Hc & Hr & Hv).
  rewrite Hq, He, Hc, Hr, Hv in H.
  destruct H as (Hd & H1 & H2 & H3).
  split; [exact H1 |]. split; [exact H2 |]. split; [exact H3 |].
  rewrite Hd. unfold dated. split.
  - intros e ->. reflexivity.
  - intros ->. reflexivity.
Qed.

End CampaignHistory.

(** ** prospect_researcher.py: which companies a campaign researches *)

Module Research.

(** An entry of [mock_companies]. *)
Record Company : Type := {
  name : string;
  company_industry : string;
  size : Z;
  company_location : string;
  company_website : string;
  company_description : string;
  founded : Z;
  revenue : string;
  company_technologies : list string
}.

Definition _load_mock_data : list Company :=
  [ {| name := "TechCorp Solutions";
       company_industry := "technology";
       size := 250;
       company_location := "San Francisco, CA";
       company_website := "https://techcorp.com";
       company_description :=
         "Leading provider of cloud-based business solutions";
       founded := 2015;
       revenue := "$50M-$100M";
       company_technologies := ["AWS"; "React"; "Node.js"; "PostgreSQL"] |};
    {| name := "DataFlow Systems";
       company_industry := "technology";
       size := 180;
       company_location := "Austin, TX";
       company_website := "https://dataflow.com";
       company_description :=
         "AI-powered data analytics and visualization platform";
       founded := 2018;
       revenue := "$25M-$50M";
       company_technologies := ["Python"; "TensorFlow"; "React"; "MongoDB"] |};
    {| name := "SecureNet Inc";
       company_industry := "technology";
       size := 320;
       company_location := "Seattle, WA";
       company_website := "https://securenet.com";
       company_description :=
         "Enterprise cybersecurity solutions and consulting";
       founded := 2012;
       revenue := "$100M-$250M";
       company_technologies :=
         ["Java"; "Kubernetes"; "Elasticsearch"; "SIEM"] |};
    {| name := "CloudFirst Technologies";
       company_industry := "technology";
       size := 95;
       company_location := "Denver, CO";
       company_website := "https://cloudfirst.com";
       company_description :=
         "Cloud migration and DevOps consulting services";
       founded := 2020;
       revenue := "$10M-$25M";
       company_technologies := ["AWS"; "Docker"; "Terraform"; "Jenkins"] |};
    {| name := "InnovateLabs";
       company_industry := "technology";
       size := 75;
       company_location := "Boston, MA";
       company_website := "https://innovatelabs.com";
       company_description :=
         "Product innovation and UX design consultancy";
       founded := 2019;
       revenue := "$5M-$10M";
       company_technologies := ["Figma"; "Sketch"; "React"; "Firebase"] |}
  ]%string.

(** [any(region.lower() in company['location'].lower()
         for region in self.config.geographic_focus)] *)
Definition location_match (config : LeadGenerationConfig) (company : Company)
  : bool :=
  existsb
    (fun region => contains (lower region) (lower (company_location company)))
    (geographic_focus config).

(** The three tests of the loop in [_filter_companies_by_config]: a
    company that fails one is passed over. *)
Definition passes_filters (config : LeadGenerationConfig) (company : Company)
  : bool :=
  String.eqb (company_industry company) (target_industry config)
  && ((fst (company_size_range config) <=? size company)%Z
      && (size company <=? snd (company_size_range config))%Z)
  && match geographic_focus config with
     | [] => true
     | _ => location_match config company
     end.

(** [l[:n]], also for a negative [n]. *)
Definition slice_to {A : Type} (n : Z) (l : list A) : list A :=
  if (0 <=? n)%Z then take (Z.to_nat n) l
  else take (length l - Z.to_nat (- n)) l.

(** [s.replace(' ', new)] *)
Fixpoint replace_spaces (new : string) (s : string) : string :=
  match s with
  | EmptyString => EmptyString
  | String c s' =>
      if Ascii.eqb c " " then String.append new (replace_spaces new s')
      else String c (replace_spaces new s')
  end.

(** The contacts [_find_key_contacts] draws from. *)
Definition mock_contacts : list Contact :=
  [ {| title := Some "Chief Technology Officer" |};
    {| title := Some "VP of Engineering" |};
    {| title := Some "Director of Operations" |} ]%string.

(** The [news_templates] of [_get_company_news]. *)
Definition news_templates (company_name : string) : list string :=
  map (String.append company_name)
    [ " announces new product launch in Q1 2024";
      " secures $15M in Series B funding";
      " expands team with 25 new hires";
      " partners with major tech company";
      " recognized as top workplace in annual survey" ]%string.

Section Researcher.

(** [random.shuffle], and what the random draws of one research run come
    to: how many contacts are kept, which news are sampled, and the two
    draws of the enrichment, for the company at each position. *)
Variable shuffle : list Company -> list Company.
Variable contacts_kept : Company -> nat.
Variable news_sampled : Company -> list nat.
Variable enrichment : nat -> bool * bool.

Definition _filter_companies_by_config (config : LeadGenerationConfig)
  : list Company :=
  shuffle (List.filter (passes_filters config) _load_mock_data).

(** [_research_single_company]; nothing in its [try] raises on the mock
    data, so it returns the prospect. *)
Definition _research_single_company (company : Company)
  : option (Company * ProspectData) :=
  Some (company,
        {| industry := Some (company_industry company);
           company_size := Some (size company);
           location := Some (company_location company);
           revenue_range := Some (revenue company);
           key_contacts := Some (take (contacts_kept company) mock_contacts);
           recent_news :=
             Some (omap (fun i => news_templates (name company) !! i)
                     (news_sampled company));
           technologies := Some (company_technologies company);
           social_profiles :=
             Some [ ("linkedin",
                     String.append "https://linkedin.com/company/"
                       (replace_spaces "-" (lower (name company))));
                    ("twitter",
                     String.append "https://twitter.com/"
                       (replace_spaces "" (lower (name company))));
                    ("facebook",
                     String.append "https://facebook.com/"
                       (replace_spaces "" (lower (name company)))) ]%string;
           website := Some (company_website company);
           description := Some (company_description company) |}).

(** The body of the loop in [_enrich_prospects], for the prospect at
    position [i]. *)
Definition enrich_one (i : nat) (p : Company * ProspectData)
  : Company * ProspectData :=
  let '(company, data) := p in
  let data :=
    if fst (enrichment i)
    then {| industry := industry data;
            company_size := company_size data;
            location := location data;
            revenue_range := revenue_range data;
            key_contacts := key_contacts data;
            recent_news := recent_news data;
            technologies :=
              Some (default [] (technologies data) ++ ["Salesforce"%string]);
            social_profiles := social_profiles data;
            website := website data;
            description := description data |}
    else data in
  let data :=
    if snd (enrichment i)
    then {| industry := industry data;
            company_size := company_size data;
            location := location data;
            revenue_range := revenue_range data;
            key_contacts := key_contacts data;
            recent_news :=
              Some (default [] (recent_news data)
                    ++ [String.append (name company) " wins industry award"]);
            technologies := technologies data;
            social_profiles := social_profiles data;
            website := website data;
            description := description data |}
    else data in
  (company, data).

Definition _enrich_prospects (prospects : list (Company * ProspectData))
  : list (Company * ProspectData) :=
  imap enrich_one prospects.

(** [research_prospects]: each prospect with the company it was made
    from. *)
Definition researched (config : LeadGenerationConfig) (target_count : Z)
  : list (Company * ProspectData) :=
  let filtered_companies := _filter_companies_by_config config in
  let prospects :=
    omap _research_single_company (slice_to target_count filtered_companies) in
  _enrich_prospects prospects.

(** The [Prospect] objects returned: they have a [to_dict] method and a
    [company_size] attribute. *)
Definition research_prospects (config : LeadGenerationConfig)
    (target_count : Z) : list Prospect :=
  map (fun p => ProspectObject (Some (size (fst p))) (snd p))
    (researched config target_count).

End Researcher.

(** *** What the filter lets through *)

Lemma length_omap_le {A B : Type} (f : A -> option B) (l : list A) :
  (length (omap f l) <= length l)%nat.
Proof.
  induction l as [| a l IH]; cbn; [lia |].
  destruct (f a); cbn; lia.
Qed.

Lemma slice_to_subset {A : Type} (n : Z) (l : list A) (a : A) :
  In a (slice_to n l) -> In a l.
Proof.
  unfold slice_to. rewrite <- !list_elem_of_In.
  destruct (0 <=? n)%Z; apply subseteq_take.
Qed.

Lemma slice_to_length {A : Type} (n : Z) (l : list A) :
  (length (slice_to n l) <= length l)%nat /\
  ((0 <= n)%Z -> (Z.of_nat (length (slice_to n l)) <= n)%Z).
Proof.
  unfold slice_to.
  destruct (Z.leb_spec 0 n); rewrite length_take; split; lia.
Qed.

Section ResearcherFacts.
Variable shuffle : list Company -> list Company.
Variable contacts_kept : Company -> nat.
Variable news_sampled : Company -> list nat.
Variable enrichment : nat -> bool * bool.
Hypothesis shuffle_permutes : forall l, Permutation (shuffle l) l.

#[local] Abbreviation found :=
  (researched shuffle contacts_kept news_sampled enrichment).

Lemma enrich_one_keeps (i : nat) (p : Company * ProspectData) :
  fst (enrich_one enrichment i p) = fst p /\
  industry (snd (enrich_one enrichment i p)) = industry (snd p) /\
  company_size (snd (enrich_one enrichment i p)) = company_size (snd p) /\
  location (snd (enrich_one enrichment i p)) = location (snd p).
Proof.
  unfold enrich_one. destruct p as [company data].
  destruct (enrichment i) as [[] []]; cbn; auto.
Qed.

Lemma researched_from_filter (config : LeadGenerationConfig)
    (target_count : Z) (p : Company * ProspectData) :
  In p (found config target_count) ->
  In (fst p) (List.filter (passes_filters config) _load_mock_data) /\
  industry (snd p) = Some (company_industry (fst p)) /\
  company_size (snd p) = Some (size (fst p)) /\
  location (snd p) = Some (company_location (fst p)).
Proof.
  unfold researched, _enrich_prospects, _filter_companies_by_config.
  rewrite <- list_elem_of_In. intros Hin.
  apply elem_of_lookup_imap in Hin as (i & p0 & -> & Hp0).
  apply list_elem_of_lookup_2, list_elem_of_omap in Hp0
    as (company & Hc & Hmade).
  unfold _research_single_company in Hmade. injection Hmade as <-.
  match goal with
  | |- context [enrich_one enrichment i ?p] =>
      destruct (enrich_one_keeps i p) as (-> & -> & -> & ->)
  end.
  cbn [fst snd industry company_size location]. repeat split.
  apply list_elem_of_In in Hc. apply slice_to_subset in Hc.
  eapply Permutation_in; [apply shuffle_permutes | exact Hc].
Qed.

Lemma research_prospects_nothing_matches (config : LeadGenerationConfig)
    (target_count : Z) :
  geographic_focus config <> [] ->
  (forall company, In company _load_mock_data ->
     location_match config company = false) ->
  research_prospects shuffle contacts_kept news_sampled enrichment config
    target_count = [].
Proof.
  intros Hfocus Hnone.
  assert (Hempty : List.filter (passes_filters config) _load_mock_data = []).
  { destruct (List.filter (passes_filters config) _load_mock_data)
      as [| company rest] eqn:E; [reflexivity |].
    assert (Hin : In company (List.filter (passes_filters config)
                                _load_mock_data))
      by (rewrite E; now left).
    apply filter_In in Hin as [Hmock Hpass].
    unfold passes_filters in Hpass.
    apply andb_prop in Hpass as [_ Hgeo].
    destruct (geographic_focus config); [contradiction |].
    rewrite (Hnone company Hmock) in Hgeo. discriminate. }
  unfold research_prospects, researched, _enrich_prospects,
    _filter_companies_by_config.
  rewrite Hempty.
  rewrite (proj1 (Permutation_nil_r _) (shuffle_permutes [])).
  unfold slice_to. destruct (0 <=? target_count)%Z;
    now rewrite take_nil.
Qed.

(** X24: whatever the shuffle and the random draws, every prospect that
    [research_prospects] returns was made from a mock company of the
    target industry, of a size within the configured range and, when a
    geographic focus is set, with one of its regions in its location, and
    carries that industry, size and location.  There are never more
    prospects than companies passing the filter, nor, for a target count
    that is not negative, than the target count.  When no region of the
    focus occurs in the location of any mock company, nothing is
    researched at all. *)
Theorem research_prospects_respects_filters (config : LeadGenerationConfig)
    (target_count : Z) :
  (forall company data,
     In (company, data) (found config target_count) ->
     In company _load_mock_data /\
     industry data = Some (target_industry config) /\
     company_size data = Some (size company) /\
     (fst (company_size_range config) <= size company
      <= snd (company_size_range config))%Z /\
     location data = Some (company_location company) /\
     (geographic_focus config <> [] ->
      location_match config company = true)) /\
  (length (research_prospects shuffle contacts_kept news_sampled enrichment
             config target_count)
   <= length (List.filter (passes_filters config) _load_mock_data) <= 5)%nat /\
  ((0 <= target_count)%Z ->
   (Z.of_nat (length (research_prospects shuffle contacts_kept news_sampled
                        enrichment config target_count))
    <= target_count)%Z) /\
  (geographic_focus config <> [] ->
   (forall company, In company _load_mock_data ->
      location_match config company = false) ->
   research_prospects shuffle contacts_kept news_sampled enrichment config
     target_count = []).
Proof.
  assert (Hlen : (length (found config target_count)
                  <= length (slice_to target_count
                               (shuffle (List.filter (passes_filters config)
                                           _load_mock_data))))%nat).
  { unfold researched, _enrich_prospects, _filter_companies_by_config.
    rewrite length_imap. apply length_omap_le. }
  split; [| split; [| split]].
  - intros company data Hin.
    destruct (researched_from_filter config target_count _ Hin)
      as (Hf & Hi & Hs & Hl).
    cbn [fst snd] in *. apply filter_In in Hf as [Hmock Hpass].
    unfold passes_filters in Hpass.
    apply andb_prop in Hpass as [Hpass Hgeo].
    apply andb_prop in Hpass as [Hind Hsize].
    apply andb_prop in Hsize as [Hmin Hmax].
    apply String.eqb_eq in Hind. apply Z.leb_le in Hmin, Hmax.
    split; [exact Hmock |]. split; [now rewrite Hi, Hind |].
    split; [exact Hs |]. split; [lia |]. split; [exact Hl |].
    intros Hfocus. now destruct (geographic_focus config).
  - unfold research_prospects. rewrite length_map. split.
    + etransitivity; [exact Hlen |].
      etransitivity; [apply slice_to_length |].
      now rewrite (Permutation_length (shuffle_permutes _)).
    + apply (List.filter_length_le (passes_filters config) _load_mock_data).
  - intros Hn. unfold research_prospects. rewrite length_map.
    pose proof (proj2 (slice_to_length target_count
                         (shuffle (List.filter (passes_filters config)
                                     _load_mock_data))) Hn).
    lia.
  - apply research_prospects_nothing_matches.
Qed.

End ResearcherFacts.

(** A run with a shuffle that reverses, two contacts kept, the first and
    third news sampled, and the first draw of the enrichment winning. *)
Definition sample_enrichment (i : nat) : bool * bool := (true, false).
Definition sample_contacts (company : Company) : nat := 2.
Definition sample_news (company : Company) : list nat := [0; 2]%nat.

(** The default configuration, with California and Texas as focus. *)
Definition south_west : LeadGenerationConfig :=
  {| target_industry := "technology";
     company_size_range := (50, 1000)%Z;
     geographic_focus := ["CA"; "TX"]%string;
     budget_minimum := 50000;
     daily_lead_target := 25;
     max_concurrent_tasks := 5;
     email_sequence_enabled := true;
     crm_integration := false;
     analytics_enabled := true |}.

Lemma rev_permutes (l : list Company) : Permutation (rev l) l.
Proof. symmetry. apply Permutation_rev. Qed.

Lemma research_prospects_respects_filters_witness :
  (forall company data,
     In (company, data)
       (researched (@rev Company) sample_contacts sample_news
          sample_enrichment south_west 25) ->
     In company _load_mock_data /\
     industry data = Some (target_industry south_west) /\
     company_size data = Some (size company) /\
     (fst (company_size_range south_west) <= size company
      <= snd (company_size_range south_west))%Z /\
     location data = Some (company_location company) /\
     (geographic_focus south_west <> [] ->
      location_match south_west company = true)) /\
  (length (research_prospects (@rev Company) sample_contacts sample_news
             sample_enrichment south_west 25)
   <= length (List.filter (passes_filters south_west) _load_mock_data)
   <= 5)%nat /\
  ((0 <= 25)%Z ->
   (Z.of_nat (length (research_prospects (@rev Company) sample_contacts
                        sample_news sample_enrichment south_west 25))
    <= 25)%Z) /\
  (geographic_focus south_west <> [] ->
   (forall company, In company _load_mock_data ->
      location_match south_west company = false) ->
   research_prospects (@rev Company) sample_contacts sample_news
     sample_enrichment south_west 25 = []).
Proof.
  exact (research_prospects_respects_filters (@rev Company) sample_contacts
           sample_news sample_enrichment rev_permutes south_west 25).
Defined.

(** With that focus two companies are researched. *)
Example south_west_research :
  map (fun p => (name (fst p), length (default [] (key_contacts (snd p))),
                 default [] (technologies (snd p))))
    (researched (@rev Company) sample_contacts sample_news sample_enrichment
       south_west 25)
  = [ ("DataFlow Systems", 2%nat,
       ["Python"; "TensorFlow"; "React"; "MongoDB"; "Salesforce"]);
      ("TechCorp Solutions", 2%nat,
       ["AWS"; "React"; "Node.js"; "PostgreSQL"; "Salesforce"]) ]%string.
Proof. vm_compute. reflexivity. Qed.


(** *** The researcher inside the orchestrator *)


(** The world of [calm], with this researcher as research provider. *)
Definition mock_world : Generator.World :=
  {| Generator.now := Generator.now Generator.calm;
     Generator.timestamp := Generator.timestamp Generator.calm;
     Generator.today := Generator.today Generator.calm;
     Generator.research_prospects := fun n =>
       inr (research_prospects (@rev Company) sample_contacts sample_news
              sample_enrichment default_config n);
     Generator.send_sequences := Generator.send_sequences Generator.calm;
     Generator.sync_leads := Generator.sync_leads Generator.calm;
     Generator.write_file := Generator.write_file Generator.calm |}.


(** The cycle of that world does return: nothing found. *)
Example mock_world_cycle :
  rmap (fun r => (Generator.prospects_found r,
                  Generator.result_leads_qualified r))
    (fst (Generator.run_daily_cycle mock_world Generator.started))
  = inr (0%Z, 0%Z).
Proof. vm_compute. reflexivity. Qed.

End Research.



(** ** email_automation.py: the sequence a lead is sent *)

Module Outreach.
Import LeadQualifier.

(** What [send_sequences] is handed for a lead: an object with a
    [lead_score] attribute, or one without. *)
Inductive Recipient : Type :=
| Scored (lead : QualifiedLead)
| Unscored.

Definition _select_sequence_for_lead (lead : Recipient) : string :=
  let lead_score :=
    match lead with
    | Scored l => overall_score (lead_score l)
    | Unscored => 0.7
    end in
  if Qle_bool 0.85 lead_score then "standard_sales"
  else if Qle_bool 0.7 lead_score then "standard_sales"
  else "nurture_sequence".

(** X26: the nurture sequence is selected exactly for leads scored under
    0.7, and the standard sales sequence for all others, Hot and Warm
    alike, and for objects without a score.  Since [qualify_leads] returns
    only leads scored 0.70 or more, no lead it returns is ever sent the
    nurture sequence. *)
Theorem qualified_leads_get_standard_sequence {P : Type}
    (score_lead : P -> result LeadScore)
    (new_lead : P -> LeadScore -> result QualifiedLead)
    (prospects : list P) :
  (forall p s lead, new_lead p s = inr lead -> lead_score lead = s) ->
  (forall lead,
     (_select_sequence_for_lead (Scored lead) = "nurture_sequence"%string <->
      score_key lead < 0.7) /\
     (_select_sequence_for_lead (Scored lead) = "standard_sales"%string <->
      0.7 <= score_key lead)) /\
  _select_sequence_for_lead Unscored = "standard_sales"%string /\
  exists out,
    qualify_leads_with score_lead new_lead prospects = inr out /\
    forall lead, In lead out ->
      _select_sequence_for_lead (Scored lead) = "standard_sales"%string.
Proof.
  intros Hnew.
  assert (Hcases : forall lead,
            (_select_sequence_for_lead (Scored lead)
               = "nurture_sequence"%string <-> score_key lead < 0.7) /\
            (_select_sequence_for_lead (Scored lead)
               = "standard_sales"%string <-> 0.7 <= score_key lead)).
  { intros lead. unfold _select_sequence_for_lead, score_key.
    qcases; (split; split; intros; try discriminate; try reflexivity;
             try lra). }
  split; [exact Hcases |]. split; [reflexivity |].
  eexists. split; [apply qualify_leads_with_value |].
  intros lead Hin. apply Hcases.
  destruct (qualify_output_facts score_lead new_lead prospects)
    as (_ & Hperm & _).
  apply (in_map unrank) in Hin.
  eapply Permutation_in in Hin; [| exact Hperm].
  apply in_map_iff in Hin as (lead0 & Heq & Hin0).
  apply in_flat_map in Hin0 as (p & _ & Hp).
  apply contribution_warm in Hp as (s & _ & Hn & Hw).
  change (0.7 <= score_key (unrank lead)). rewrite <- Heq.
  change (0.7 <= overall_score (lead_score lead0)).
  rewrite (Hnew _ _ _ Hn).
  unfold warm_or_better in Hw.
  destruct (_determine_qualification_level (overall_score s)) eqn:El;
    try discriminate.
  - apply level_hot in El. lra.
  - apply level_warm in El. lra.
Qed.

Lemma qualified_leads_get_standard_sequence_witness :
  (forall lead,
     (_select_sequence_for_lead (Scored lead) = "nurture_sequence"%string <->
      score_key lead < 0.7) /\
     (_select_sequence_for_lead (Scored lead) = "standard_sales"%string <->
      0.7 <= score_key lead)) /\
  _select_sequence_for_lead Unscored = "standard_sales"%string /\
  exists out,
    qualify_leads_with sample_score sample_lead sample_prospects = inr out /\
    forall lead, In lead out ->
      _select_sequence_for_lead (Scored lead) = "standard_sales"%string.
Proof.
  exact (qualified_leads_get_standard_sequence sample_score sample_lead
           sample_prospects sample_lead_stores).
Defined.

(** A Warm lead, once re-scored, is at 0.67 and would be sent the nurture
    sequence. *)
Example re_scored_lead_gets_nurture :
  _select_sequence_for_lead <$>
    (Scored <$> (fst (re_score_leads [warm_lead] [0%nat]) !! 0%nat))
  = Some "nurture_sequence"%string.
Proof. vm_compute. reflexivity. Qed.

End Outreach.

(** ** lead_qualifier.py: the scoring breakdown *)

Module Breakdown.
Import LeadQualifier.

(** [criterion.replace('_', ' ')] *)
Fixpoint replace_underscores (s : string) : string :=
  match s with
  | EmptyString => EmptyString
  | String c s' =>
      String (if Ascii.eqb c "_" then " "%char else c) (replace_underscores s')
  end.

Definition _interpret_component_score (criterion : string) (score : Q)
  : string :=
  if Qle_bool 0.8 score
  then String.append "Excellent " (replace_underscores criterion)
  else if Qle_bool 0.6 score
  then String.append "Good " (replace_underscores criterion)
  else if Qle_bool 0.4 score
  then String.append "Fair " (replace_underscores criterion)
  else String.append "Poor " (replace_underscores criterion).

(** [d[k] = v] on a dict with [float] keys, given by its items in
    insertion order: a key equal to [k] keeps its place and takes the new
    value. *)
Fixpoint setitem (d : list (Q * string)) (k : Q) (v : string)
  : list (Q * string) :=
  match d with
  | [] => [(k, v)]
  | (k', v') :: d' =>
      if Qeq_bool k' k then (k', v) :: d' else (k', v') :: setitem d' k v
  end.

(** [{criterion: score * self.scoring_weights[criterion]
      for criterion, score in component_scores.items()}] *)
Fixpoint weigh (its : list (string * Q)) : result (list (string * Q)) :=
  match its with
  | [] => ret []
  | (criterion, score) :: its' =>
      (let* w := getitem scoring_weights criterion in
       let* rest := weigh its' in
       ret ((criterion, score * w) :: rest))%result
  end.

(** [{score: self._interpret_component_score(criterion, score)
      for criterion, score in component_scores.items()}] *)
Definition interpret (its : list (string * Q)) : list (Q * string) :=
  fold_left
    (fun d '(criterion, score) =>
       setitem d score (_interpret_component_score criterion score))
    its [].

Record ScoringBreakdown : Type := {
  weighted_scores : list (string * Q);
  weight_distribution : list (string * Q);
  score_interpretation : list (Q * string)
}.

Definition _create_scoring_breakdown (cs : ComponentScores)
  : result ScoringBreakdown :=
  (let* weighted := weigh (items cs) in
   ret {| weighted_scores := weighted;
          weight_distribution := scoring_weights;
          score_interpretation := interpret (items cs) |})%result.

(** *** A dict keyed by the scores *)

(** No two keys of [d] are equal. *)
Definition distinct_keys (d : list (Q * string)) : Prop :=
  forall i j a b, d !! i = Some a -> d !! j = Some b -> i <> j ->
                  ~ fst a == fst b.

(** [(c, s)] is the last item of [its] with a score equal to [k]. *)
Definition last_scored (its : list (string * Q)) (k : Q) (c : string) (s : Q)
  : Prop :=
  exists before after,
    its = before ++ (c, s) :: after /\ k == s /\
    Forall (fun it => ~ snd it == s) after.

Lemma setitem_entries (d : list (Q * string)) (k : Q) (v : string)
    (k0 : Q) (v0 : string) :
  distinct_keys d ->
  In (k0, v0) (setitem d k v) ->
  (k0 == k /\ v0 = v) \/ (In (k0, v0) d /\ ~ k0 == k).
Proof.
  induction d as [| [k' v'] d IH]; intros Hd Hin; cbn in Hin.
  - destruct Hin as [[= <- <-] | []]. left. split; reflexivity.
  - assert (Hd' : distinct_keys d).
    { intros i j a b Ha Hb Hij. apply (Hd (S i) (S j) a b); auto. }
    destruct (Qeq_bool k' k) eqn:E.
    + apply Qeq_bool_iff in E.
      destruct Hin as [[= <- <-] | Hin]; [left; split; [exact E | reflexivity] |].
      right. split; [now right |].
      apply list_elem_of_In, list_elem_of_lookup_1 in Hin as [j Hj].
      intros Hk0. apply (Hd 0%nat (S j) (k', v') (k0, v0)); cbn; auto.
      rewrite E, Hk0. reflexivity.
    + destruct Hin as [[= <- <-] | Hin].
      * right. split; [now left |]. intros H. apply Qeq_bool_iff in H.
        congruence.
      * destruct (IH Hd' Hin) as [? | [? ?]]; [now left |].
        right. split; [now right | assumption].
Qed.

Lemma setitem_keys (d : list (Q * string)) (k : Q) (v : string) (k0 : Q) :
  (exists v0, In (k0, v0) (setitem d k v)) ->
  k0 = k \/ exists v0, In (k0, v0) d.
Proof.
  induction d as [| [k' v'] d IH]; cbn.
  - intros [v0 [[= <- <-] | []]]. now left.
  - destruct (Qeq_bool k' k).
    + intros [v0 [[= <- <-] | Hin]]; right; eexists; [left | right]; eauto.
    + intros [v0 [[= <- <-] | Hin]].
      * right. eexists. left. reflexivity.
      * destruct IH as [? | [v1 ?]]; [eauto | now left |].
        right. exists v1. now right.
Qed.

Lemma setitem_distinct (d : list (Q * string)) (k : Q) (v : string) :
  distinct_keys d -> distinct_keys (setitem d k v).
Proof.
  induction d as [| [k' v'] d IH]; intros Hd; cbn.
  - intros [| i] [| j] a b Ha Hb Hij; cbn in *; try discriminate.
    contradiction.
  - assert (Hd' : distinct_keys d).
    { intros i j a b Ha Hb Hij. apply (Hd (S i) (S j) a b); auto. }
    destruct (Qeq_bool k' k) eqn:E.
    + intros [| i] [| j] a b Ha Hb Hij; cbn in *.
      * contradiction.
      * injection Ha as <-. apply (Hd 0%nat (S j) (k', v') b); auto.
      * injection Hb as <-. apply (Hd (S i) 0%nat a (k', v')); auto.
      * apply (Hd (S i) (S j) a b); auto.
    + assert (Hnew : forall b j, setitem d k v !! j = Some b ->
                       ~ k' == fst b).
      { intros [k0 v0] j Hj Hk. cbn in Hk.
        apply list_elem_of_lookup_2, list_elem_of_In in Hj.
        destruct (setitem_keys d k v k0 (ex_intro _ v0 Hj)) as [-> | [v1 Hin]].
        - apply Qeq_bool_iff in Hk. congruence.
        - apply list_elem_of_In, list_elem_of_lookup_1 in Hin as [j' Hj'].
          apply (Hd 0%nat (S j') (k', v') (k0, v1)); auto. }
      intros [| i] [| j] a b Ha Hb Hij; cbn in *.
      * contradiction.
      * injection Ha as <-. now apply (Hnew b j).
      * injection Hb as <-. intros H. apply (Hnew a i Ha). now symmetry.
      * apply (IH Hd' i j a b); auto.
Qed.

Lemma setitem_has_key (d : list (Q * string)) (k : Q) (v : string) :
  exists k0, In (k0, v) (setitem d k v) /\ k0 == k.
Proof.
  induction d as [| [k' v'] d IH]; cbn.
  - exists k. split; [now left | reflexivity].
  - destruct (Qeq_bool k' k) eqn:E.
    + apply Qeq_bool_iff in E. exists k'. split; [now left | exact E].
    + destruct IH as (k0 & Hin & Hk). exists k0. split; [now right | exact Hk].
Qed.

(** The dict built from [its], item after item: its keys are distinct and
    each entry holds the interpretation of the last item with that
    score. *)
Lemma interpret_from (its done : list (string * Q)) (d : list (Q * string)) :
  distinct_keys d ->
  (forall k v, In (k, v) d ->
     exists c s, last_scored done k c s /\
                 v = _interpret_component_score c s) ->
  let d' :=
    fold_left
      (fun d '(criterion, score) =>
         setitem d score (_interpret_component_score criterion score))
      its d in
  distinct_keys d' /\
  forall k v, In (k, v) d' ->
    exists c s, last_scored (done ++ its) k c s /\
                v = _interpret_component_score c s.
Proof.
  revert done d. induction its as [| [c s] its IH]; intros done d Hd Hlast.
  - cbn. rewrite app_nil_r. auto.
  - cbn [fold_left].
    replace (done ++ (c, s) :: its) with ((done ++ [(c, s)]) ++ its)
      by now rewrite <- app_assoc.
    apply IH; [now apply setitem_distinct |].
    intros k v Hin.
    destruct (setitem_entries d s _ k v Hd Hin) as [[Hk ->] | [Hold Hne]].
    + exists c, s. split; [| reflexivity].
      exists done, []. split; [reflexivity |]. split; [exact Hk | constructor].
    + destruct (Hlast k v Hold) as (c0 & s0 & (l1 & l2 & -> & Hk0 & Hall) & ->).
      exists c0, s0. split; [| reflexivity].
      exists l1, (l2 ++ [(c, s)]). split; [now rewrite <- app_assoc |].
      split; [exact Hk0 |].
      apply Forall_app. split; [exact Hall |].
      constructor; [| constructor]. cbn. intros Hs. apply Hne.
      now rewrite Hk0, Hs.
Qed.

Lemma interpret_last (its : list (string * Q)) :
  distinct_keys (interpret its) /\
  forall k v, In (k, v) (interpret its) ->
    exists c s, last_scored its k c s /\ v = _interpret_component_score c s.
Proof.
  apply (interpret_from its [] []).
  - intros i j a b Ha. discriminate.
  - intros k v [].
Qed.

Lemma setitem_length (d : list (Q * string)) (k : Q) (v : string) :
  (length (setitem d k v) <= S (length d))%nat.
Proof.
  induction d as [| [k' v'] d IH]; cbn; [lia |].
  destruct (Qeq_bool k' k); cbn; lia.
Qed.

Lemma setitem_keeps_keys (d : list (Q * string)) (k : Q) (v : string)
    (k0 : Q) (v0 : string) :
  In (k0, v0) d -> exists v1, In (k0, v1) (setitem d k v).
Proof.
  induction d as [| [k' v'] d IH]; cbn; [intros [] |].
  destruct (Qeq_bool k' k).
  - intros [[= <- <-] | Hin]; eexists; [left | right]; eauto.
  - intros [[= <- <-] | Hin]; [eexists; left; reflexivity |].
    destruct (IH Hin) as [v1 H1]. exists v1. now right.
Qed.

Lemma interpret_keys (its : list (string * Q)) (d : list (Q * string))
    (s : Q) :
  ((exists k v, In (k, v) d /\ k == s) \/ exists c, In (c, s) its) ->
  exists k v,
    In (k, v)
      (fold_left
         (fun d '(criterion, score) =>
            setitem d score (_interpret_component_score criterion score))
         its d) /\
    k == s.
Proof.
  revert d. induction its as [| [c0 s0] its IH]; intros d H; cbn [fold_left].
  - destruct H as [H | [c []]]. exact H.
  - apply IH. destruct H as [(k & v & Hin & Hk) | [c [[= <- <-] | Hin]]].
    + left. destruct (setitem_keeps_keys d s0
                        (_interpret_component_score c0 s0) k v Hin)
        as [v1 H1].
      now exists k, v1.
    + left.
      destruct (setitem_has_key d s0 (_interpret_component_score c0 s0))
        as (k0 & Hin & Hk).
      now exists k0, (_interpret_component_score c0 s0).
    + right. now exists c.
Qed.

Lemma interpret_length (its : list (string * Q)) (d : list (Q * string)) :
  (length
     (fold_left
        (fun d '(criterion, score) =>
           setitem d score (_interpret_component_score criterion score))
        its d)
   <= length d + length its)%nat.
Proof.
  revert d. induction its as [| [c s] its IH]; intros d; cbn [fold_left length].
  - lia.
  - etransitivity; [apply IH |].
    pose proof (setitem_length d s (_interpret_component_score c s)). lia.
Qed.

(** The six criteria read differently, whatever their scores. *)
Lemma interpretation_names (c c' : string) (s s' : Q) :
  In c (map fst scoring_weights) -> In c' (map fst scoring_weights) ->
  _interpret_component_score c s = _interpret_component_score c' s' ->
  c = c'.
Proof.
  intros Hc Hc'. unfold _interpret_component_score.
  cbn in Hc, Hc'.
  repeat (destruct Hc as [<- | Hc]); try contradiction;
    repeat (destruct Hc' as [<- | Hc']); try contradiction;
    try (intros _; reflexivity);
    qcases; cbn; intros Hsame; discriminate Hsame.
Qed.

(** In a list of items with distinct names, a name has one position. *)
Lemma unique_position (l before : list (string * Q)) (c : string) (s : Q)
    (after : list (string * Q)) (i : nat) (si : Q) :
  NoDup (map fst l) ->
  l = before ++ (c, s) :: after ->
  l !! i = Some (c, si) ->
  i = length before /\ si = s.
Proof.
  intros Hnodup -> Hi.
  rewrite map_app in Hnodup. cbn [map fst] in Hnodup.
  apply NoDup_app in Hnodup as (_ & Hout & Hrest).
  apply NoDup_cons in Hrest as [Hafter _].
  destruct (Nat.lt_trichotomy i (length before)) as [Hlt | [-> | Hgt]].
  - rewrite lookup_app_l in Hi by exact Hlt.
    apply list_elem_of_lookup_2 in Hi.
    exfalso. apply (Hout c).
    + change c with (fst (c, si)). now apply list_elem_of_fmap_2.
    + now left.
  - rewrite lookup_app_r, Nat.sub_diag in Hi by lia.
    cbn in Hi. injection Hi as <-. split; reflexivity.
  - rewrite lookup_app_r in Hi by lia.
    destruct (i - length before)%nat as [| n] eqn:Hn; [lia |].
    cbn in Hi. apply list_elem_of_lookup_2 in Hi.
    exfalso. apply Hafter.
    change c with (fst (c, si)). now apply list_elem_of_fmap_2.
Qed.

(** X27: [_create_scoring_breakdown] returns.  Its weighted scores are the
    six criteria in order, each score times its weight, and they add up to
    the overall score.  Its score interpretation is keyed by the scores
    themselves: every score has an entry, no two entries have equal keys,
    so there are at most six, and when two criteria have equal scores the
    interpretation of the earlier one is not in the dict. *)
Theorem scoring_breakdown_keyed_by_score (cs : ComponentScores) :
  exists b,
    _create_scoring_breakdown cs = inr b /\
    map fst (weighted_scores b) = map fst (items cs) /\
    overall_score_of cs =
      inr (fold_left Qplus (map snd (weighted_scores b)) 0) /\
    (length (score_interpretation b) <= 6)%nat /\
    distinct_keys (score_interpretation b) /\
    (forall c s, In (c, s) (items cs) ->
       exists k v, In (k, v) (score_interpretation b) /\ k == s) /\
    (forall i j ci si cj sj,
       items cs !! i = Some (ci, si) -> items cs !! j = Some (cj, sj) ->
       (i < j)%nat -> si == sj ->
       forall k v, In (k, v) (score_interpretation b) ->
         v <> _interpret_component_score ci si).
Proof.
  eexists. split; [reflexivity |].
  cbn [weighted_scores score_interpretation].
  split; [reflexivity |]. split; [reflexivity |].
  split; [apply (interpret_length (items cs) []) |].
  destruct (interpret_last (items cs)) as [Hdistinct Hlast].
  split; [exact Hdistinct |]. split.
  { intros c s Hin. apply (interpret_keys (items cs) [] s). right. eauto. }
  intros i j ci si cj sj Hi Hj Hij Heq k v Hin Hv.
  destruct (Hlast k v Hin) as (c & s & (before & after & Hits & Hk & Hall) & ->).
  assert (Hnames : forall n c0 s0, items cs !! n = Some (c0, s0) ->
                     In c0 (map fst scoring_weights)).
  { intros n c0 s0 Hn. apply list_elem_of_lookup_2, list_elem_of_In in Hn.
    apply (in_map fst) in Hn. exact Hn. }
  assert (Hc : In c (map fst scoring_weights)).
  { change (map fst scoring_weights) with (map fst (items cs)).
    rewrite Hits, map_app. apply in_or_app. right. now left. }
  apply (interpretation_names c ci s si Hc (Hnames _ _ _ Hi)) in Hv.
  subst c.
  (* the item of that name is the one at [i], so the one at [j] follows *)
  assert (Hnodup : NoDup (map fst (items cs)))
    by (apply (bool_decide_unpack _); vm_compute; exact I).
  destruct (unique_position (items cs) before ci s after i si Hnodup Hits Hi)
    as [-> ->].
  rewrite Hits in Hj.
  rewrite lookup_app_r in Hj by lia.
  destruct (j - length before)%nat as [| n] eqn:Hn; [lia |].
  cbn in Hj. apply list_elem_of_lookup_2 in Hj.
  rewrite Forall_forall in Hall. apply (Hall (cj, sj) Hj).
  cbn. now symmetry.
Qed.

(** Need and timing both at 0.5: five entries, and "Fair need intensity"
    is not among them. *)
Example breakdown_of_equal_scores :
  rmap (fun b => map snd (score_interpretation b))
    (_create_scoring_breakdown
       {| company_fit := 1.0; budget_alignment := 0.8;
          authority_level := 0.9; need_intensity := 0.5;
          timing_urgency := 0.5; engagement_potential := 0.7 |})
  = inr [ "Excellent company fit"; "Excellent budget alignment";
          "Excellent authority level"; "Fair timing urgency";
          "Good engagement potential" ]%string.
Proof. vm_compute. reflexivity. Qed.

End Breakdown.

